(** * kacer-bot: the chat-to-subprocess bridge of [bot.py]

    A shallow embedding of [bot.py] and the properties of its line
    segmenter, classifier, flush scheduler, menu normalizer, outbound
    chunker, process supervisor and input router.

    Conventions of the embedding.

    - A Python [str] is a sequence of code points ([str], a list of
      [char], each a number in [N]); lengths, indices and slices count
      code points.  The character classes that the program relies on
      through [str.strip], [str.lower], [int] and the regex classes
      [\s], [\d], [\w] and [(?i)] are the tables of the Unicode
      character database as CPython 3.11 carries it (Unicode 14.0.0).
      A Python [bytes] is a list of [byte]; [bytes.decode] and
      [str.encode] are UTF-8.
    - Readings of the event-loop clock are floats (IEEE 754 binary64,
      Rocq's primitive [float]), and the idle time is their rounded
      difference, as the program computes it.
    - Every call that leaves the program (sending a message, writing to
      the child's input, signalling the child, cancelling a task) is
      recorded in a trace together with its outcome, and the outcome
      (normal return or an exception of class [Exception]) is drawn from
      an environment, so that every [try]/[except Exception] of the
      source has both of its paths.
    - The per-user log ([_log]) is a write-only sink that swallows its
      own errors; its calls are left out.
    - A coroutine body is run as one step; the interleaving of coroutines
      at suspension points, the cancellation of a coroutine in the middle
      of a call ([asyncio.CancelledError]) and the two asyncio locks are
      not modelled. *)

From Stdlib Require Import List NArith ZArith Bool Lia Arith Floats.
From Stdlib.Strings Require Import Byte.
Import ListNotations.
Local Open Scope nat_scope.

(** ** The Unicode character database *)

Declare Scope chr_scope.
Delimit Scope chr_scope with chr.

Module Unicode.

(** A code point. *)
Definition char : Set := N.
Bind Scope chr_scope with char.

Fixpoint in_ranges (rs : list (N * N)) (c : N) : bool :=
  match rs with
  | [] => false
  | (lo, hi) :: rest => ((lo <=? c) && (c <=? hi))%N || in_ranges rest c
  end.

(** [str.isspace]: the characters that [str.strip] removes and that the
    regex class [\s] matches. *)
Definition SPACE : list (N * N) :=
  [(9, 13); (28, 32); (133, 133); (160, 160); (5760, 5760); (8192, 8202);
   (8232, 8233); (8239, 8239); (8287, 8287); (12288, 12288)]%N.

(** [str.isdecimal]: the decimal digits, in runs of ten (or a multiple of
    ten) that start at a digit zero; the regex class [\d], and the
    digits [int] reads. *)
Definition DECIMAL : list (N * N) :=
  [(48, 57); (1632, 1641); (1776, 1785); (1984, 1993); (2406, 2415); (2534,
   2543); (2662, 2671); (2790, 2799); (2918, 2927); (3046, 3055); (3174, 3183);
   (3302, 3311); (3430, 3439); (3558, 3567); (3664, 3673); (3792, 3801); (3872,
   3881); (4160, 4169); (4240, 4249); (6112, 6121); (6160, 6169); (6470, 6479);
   (6608, 6617); (6784, 6793); (6800, 6809); (6992, 7001); (7088, 7097); (7232,
   7241); (7248, 7257); (42528, 42537); (43216, 43225); (43264, 43273); (43472,
   43481); (43504, 43513); (43600, 43609); (44016, 44025); (65296, 65305);
   (66720, 66729); (68912, 68921); (69734, 69743); (69872, 69881); (69942,
   69951); (70096, 70105); (70384, 70393); (70736, 70745); (70864, 70873);
   (71248, 71257); (71360, 71369); (71472, 71481); (71904, 71913); (72016,
   72025); (72784, 72793); (73040, 73049); (73120, 73129); (92768, 92777);
   (92864, 92873); (93008, 93017); (120782, 120831); (123200, 123209); (123632,
   123641); (125264, 125273); (130032, 130041)]%N.

(** [str.isalnum]: with the underscore, the regex class [\w]. *)
Definition ALNUM : list (N * N) :=
  [(48, 57); (65, 90); (97, 122); (170, 170); (178, 179); (181, 181); (185,
   186); (188, 190); (192, 214); (216, 246); (248, 705); (710, 721); (736,
   740); (748, 748); (750, 750); (880, 884); (886, 887); (890, 893); (895,
   895); (902, 902); (904, 906); (908, 908); (910, 929); (931, 1013); (1015,
   1153); (1162, 1327); (1329, 1366); (1369, 1369); (1376, 1416); (1488, 1514);
   (1519, 1522); (1568, 1610); (1632, 1641); (1646, 1647); (1649, 1747); (1749,
   1749); (1765, 1766); (1774, 1788); (1791, 1791); (1808, 1808); (1810, 1839);
   (1869, 1957); (1969, 1969); (1984, 2026); (2036, 2037); (2042, 2042); (2048,
   2069); (2074, 2074); (2084, 2084); (2088, 2088); (2112, 2136); (2144, 2154);
   (2160, 2183); (2185, 2190); (2208, 2249); (2308, 2361); (2365, 2365); (2384,
   2384); (2392, 2401); (2406, 2415); (2417, 2432); (2437, 2444); (2447, 2448);
   (2451, 2472); (2474, 2480); (2482, 2482); (2486, 2489); (2493, 2493); (2510,
   2510); (2524, 2525); (2527, 2529); (2534, 2545); (2548, 2553); (2556, 2556);
   (2565, 2570); (2575, 2576); (2579, 2600); (2602, 2608); (2610, 2611); (2613,
   2614); (2616, 2617); (2649, 2652); (2654, 2654); (2662, 2671); (2674, 2676);
   (2693, 2701); (2703, 2705); (2707, 2728); (2730, 2736); (2738, 2739); (2741,
   2745); (2749, 2749); (2768, 2768); (2784, 2785); (2790, 2799); (2809, 2809);
   (2821, 2828); (2831, 2832); (2835, 2856); (2858, 2864); (2866, 2867); (2869,
   2873); (2877, 2877); (2908, 2909); (2911, 2913); (2918, 2927); (2929, 2935);
   (2947, 2947); (2949, 2954); (2958, 2960); (2962, 2965); (2969, 2970); (2972,
   2972); (2974, 2975); (2979, 2980); (2984, 2986); (2990, 3001); (3024, 3024);
   (3046, 3058); (3077, 3084); (3086, 3088); (3090, 3112); (3114, 3129); (3133,
   3133); (3160, 3162); (3165, 3165); (3168, 3169); (3174, 3183); (3192, 3198);
   (3200, 3200); (3205, 3212); (3214, 3216); (3218, 3240); (3242, 3251); (3253,
   3257); (3261, 3261); (3293, 3294); (3296, 3297); (3302, 3311); (3313, 3314);
   (3332, 3340); (3342, 3344); (3346, 3386); (3389, 3389); (3406, 3406); (3412,
   3414); (3416, 3425); (3430, 3448); (3450, 3455); (3461, 3478); (3482, 3505);
   (3507, 3515); (3517, 3517); (3520, 3526); (3558, 3567); (3585, 3632); (3634,
   3635); (3648, 3654); (3664, 3673); (3713, 3714); (3716, 3716); (3718, 3722);
   (3724, 3747); (3749, 3749); (3751, 3760); (3762, 3763); (3773, 3773); (3776,
   3780); (3782, 3782); (3792, 3801); (3804, 3807); (3840, 3840); (3872, 3891);
   (3904, 3911); (3913, 3948); (3976, 3980); (4096, 4138); (4159, 4169); (4176,
   4181); (4186, 4189); (4193, 4193); (4197, 4198); (4206, 4208); (4213, 4225);
   (4238, 4238); (4240, 4249); (4256, 4293); (4295, 4295); (4301, 4301); (4304,
   4346); (4348, 4680); (4682, 4685); (4688, 4694); (4696, 4696); (4698, 4701);
   (4704, 4744); (4746, 4749); (4752, 4784); (4786, 4789); (4792, 4798); (4800,
   4800); (4802, 4805); (4808, 4822); (4824, 4880); (4882, 4885); (4888, 4954);
   (4969, 4988); (4992, 5007); (5024, 5109); (5112, 5117); (5121, 5740); (5743,
   5759); (5761, 5786); (5792, 5866); (5870, 5880); (5888, 5905); (5919, 5937);
   (5952, 5969); (5984, 5996); (5998, 6000); (6016, 6067); (6103, 6103); (6108,
   6108); (6112, 6121); (6128, 6137); (6160, 6169); (6176, 6264); (6272, 6276);
   (6279, 6312); (6314, 6314); (6320, 6389); (6400, 6430); (6470, 6509); (6512,
   6516); (6528, 6571); (6576, 6601); (6608, 6618); (6656, 6678); (6688, 6740);
   (6784, 6793); (6800, 6809); (6823, 6823); (6917, 6963); (6981, 6988); (6992,
   7001); (7043, 7072); (7086, 7141); (7168, 7203); (7232, 7241); (7245, 7293);
   (7296, 7304); (7312, 7354); (7357, 7359); (7401, 7404); (7406, 7411); (7413,
   7414); (7418, 7418); (7424, 7615); (7680, 7957); (7960, 7965); (7968, 8005);
   (8008, 8013); (8016, 8023); (8025, 8025); (8027, 8027); (8029, 8029); (8031,
   8061); (8064, 8116); (8118, 8124); (8126, 8126); (8130, 8132); (8134, 8140);
   (8144, 8147); (8150, 8155); (8160, 8172); (8178, 8180); (8182, 8188); (8304,
   8305); (8308, 8313); (8319, 8329); (8336, 8348); (8450, 8450); (8455, 8455);
   (8458, 8467); (8469, 8469); (8473, 8477); (8484, 8484); (8486, 8486); (8488,
   8488); (8490, 8493); (8495, 8505); (8508, 8511); (8517, 8521); (8526, 8526);
   (8528, 8585); (9312, 9371); (9450, 9471); (10102, 10131); (11264, 11492);
   (11499, 11502); (11506, 11507); (11517, 11517); (11520, 11557); (11559,
   11559); (11565, 11565); (11568, 11623); (11631, 11631); (11648, 11670);
   (11680, 11686); (11688, 11694); (11696, 11702); (11704, 11710); (11712,
   11718); (11720, 11726); (11728, 11734); (11736, 11742); (11823, 11823);
   (12293, 12295); (12321, 12329); (12337, 12341); (12344, 12348); (12353,
   12438); (12445, 12447); (12449, 12538); (12540, 12543); (12549, 12591);
   (12593, 12686); (12690, 12693); (12704, 12735); (12784, 12799); (12832,
   12841); (12872, 12879); (12881, 12895); (12928, 12937); (12977, 12991);
   (13312, 19903); (19968, 42124); (42192, 42237); (42240, 42508); (42512,
   42539); (42560, 42606); (42623, 42653); (42656, 42735); (42775, 42783);
   (42786, 42888); (42891, 42954); (42960, 42961); (42963, 42963); (42965,
   42969); (42994, 43009); (43011, 43013); (43015, 43018); (43020, 43042);
   (43056, 43061); (43072, 43123); (43138, 43187); (43216, 43225); (43250,
   43255); (43259, 43259); (43261, 43262); (43264, 43301); (43312, 43334);
   (43360, 43388); (43396, 43442); (43471, 43481); (43488, 43492); (43494,
   43518); (43520, 43560); (43584, 43586); (43588, 43595); (43600, 43609);
   (43616, 43638); (43642, 43642); (43646, 43695); (43697, 43697); (43701,
   43702); (43705, 43709); (43712, 43712); (43714, 43714); (43739, 43741);
   (43744, 43754); (43762, 43764); (43777, 43782); (43785, 43790); (43793,
   43798); (43808, 43814); (43816, 43822); (43824, 43866); (43868, 43881);
   (43888, 44002); (44016, 44025); (44032, 55203); (55216, 55238); (55243,
   55291); (63744, 64109); (64112, 64217); (64256, 64262); (64275, 64279);
   (64285, 64285); (64287, 64296); (64298, 64310); (64312, 64316); (64318,
   64318); (64320, 64321); (64323, 64324); (64326, 64433); (64467, 64829);
   (64848, 64911); (64914, 64967); (65008, 65019); (65136, 65140); (65142,
   65276); (65296, 65305); (65313, 65338); (65345, 65370); (65382, 65470);
   (65474, 65479); (65482, 65487); (65490, 65495); (65498, 65500); (65536,
   65547); (65549, 65574); (65576, 65594); (65596, 65597); (65599, 65613);
   (65616, 65629); (65664, 65786); (65799, 65843); (65856, 65912); (65930,
   65931); (66176, 66204); (66208, 66256); (66273, 66299); (66304, 66339);
   (66349, 66378); (66384, 66421); (66432, 66461); (66464, 66499); (66504,
   66511); (66513, 66517); (66560, 66717); (66720, 66729); (66736, 66771);
   (66776, 66811); (66816, 66855); (66864, 66915); (66928, 66938); (66940,
   66954); (66956, 66962); (66964, 66965); (66967, 66977); (66979, 66993);
   (66995, 67001); (67003, 67004); (67072, 67382); (67392, 67413); (67424,
   67431); (67456, 67461); (67463, 67504); (67506, 67514); (67584, 67589);
   (67592, 67592); (67594, 67637); (67639, 67640); (67644, 67644); (67647,
   67669); (67672, 67702); (67705, 67742); (67751, 67759); (67808, 67826);
   (67828, 67829); (67835, 67867); (67872, 67897); (67968, 68023); (68028,
   68047); (68050, 68096); (68112, 68115); (68117, 68119); (68121, 68149);
   (68160, 68168); (68192, 68222); (68224, 68255); (68288, 68295); (68297,
   68324); (68331, 68335); (68352, 68405); (68416, 68437); (68440, 68466);
   (68472, 68497); (68521, 68527); (68608, 68680); (68736, 68786); (68800,
   68850); (68858, 68899); (68912, 68921); (69216, 69246); (69248, 69289);
   (69296, 69297); (69376, 69415); (69424, 69445); (69457, 69460); (69488,
   69505); (69552, 69579); (69600, 69622); (69635, 69687); (69714, 69743);
   (69745, 69746); (69749, 69749); (69763, 69807); (69840, 69864); (69872,
   69881); (69891, 69926); (69942, 69951); (69956, 69956); (69959, 69959);
   (69968, 70002); (70006, 70006); (70019, 70066); (70081, 70084); (70096,
   70106); (70108, 70108); (70113, 70132); (70144, 70161); (70163, 70187);
   (70272, 70278); (70280, 70280); (70282, 70285); (70287, 70301); (70303,
   70312); (70320, 70366); (70384, 70393); (70405, 70412); (70415, 70416);
   (70419, 70440); (70442, 70448); (70450, 70451); (70453, 70457); (70461,
   70461); (70480, 70480); (70493, 70497); (70656, 70708); (70727, 70730);
   (70736, 70745); (70751, 70753); (70784, 70831); (70852, 70853); (70855,
   70855); (70864, 70873); (71040, 71086); (71128, 71131); (71168, 71215);
   (71236, 71236); (71248, 71257); (71296, 71338); (71352, 71352); (71360,
   71369); (71424, 71450); (71472, 71483); (71488, 71494); (71680, 71723);
   (71840, 71922); (71935, 71942); (71945, 71945); (71948, 71955); (71957,
   71958); (71960, 71983); (71999, 71999); (72001, 72001); (72016, 72025);
   (72096, 72103); (72106, 72144); (72161, 72161); (72163, 72163); (72192,
   72192); (72203, 72242); (72250, 72250); (72272, 72272); (72284, 72329);
   (72349, 72349); (72368, 72440); (72704, 72712); (72714, 72750); (72768,
   72768); (72784, 72812); (72818, 72847); (72960, 72966); (72968, 72969);
   (72971, 73008); (73030, 73030); (73040, 73049); (73056, 73061); (73063,
   73064); (73066, 73097); (73112, 73112); (73120, 73129); (73440, 73458);
   (73648, 73648); (73664, 73684); (73728, 74649); (74752, 74862); (74880,
   75075); (77712, 77808); (77824, 78894); (82944, 83526); (92160, 92728);
   (92736, 92766); (92768, 92777); (92784, 92862); (92864, 92873); (92880,
   92909); (92928, 92975); (92992, 92995); (93008, 93017); (93019, 93025);
   (93027, 93047); (93053, 93071); (93760, 93846); (93952, 94026); (94032,
   94032); (94099, 94111); (94176, 94177); (94179, 94179); (94208, 100343);
   (100352, 101589); (101632, 101640); (110576, 110579); (110581, 110587);
   (110589, 110590); (110592, 110882); (110928, 110930); (110948, 110951);
   (110960, 111355); (113664, 113770); (113776, 113788); (113792, 113800);
   (113808, 113817); (119520, 119539); (119648, 119672); (119808, 119892);
   (119894, 119964); (119966, 119967); (119970, 119970); (119973, 119974);
   (119977, 119980); (119982, 119993); (119995, 119995); (119997, 120003);
   (120005, 120069); (120071, 120074); (120077, 120084); (120086, 120092);
   (120094, 120121); (120123, 120126); (120128, 120132); (120134, 120134);
   (120138, 120144); (120146, 120485); (120488, 120512); (120514, 120538);
   (120540, 120570); (120572, 120596); (120598, 120628); (120630, 120654);
   (120656, 120686); (120688, 120712); (120714, 120744); (120746, 120770);
   (120772, 120779); (120782, 120831); (122624, 122654); (123136, 123180);
   (123191, 123197); (123200, 123209); (123214, 123214); (123536, 123565);
   (123584, 123627); (123632, 123641); (124896, 124902); (124904, 124907);
   (124909, 124910); (124912, 124926); (124928, 125124); (125127, 125135);
   (125184, 125251); (125259, 125259); (125264, 125273); (126065, 126123);
   (126125, 126127); (126129, 126132); (126209, 126253); (126255, 126269);
   (126464, 126467); (126469, 126495); (126497, 126498); (126500, 126500);
   (126503, 126503); (126505, 126514); (126516, 126519); (126521, 126521);
   (126523, 126523); (126530, 126530); (126535, 126535); (126537, 126537);
   (126539, 126539); (126541, 126543); (126545, 126546); (126548, 126548);
   (126551, 126551); (126553, 126553); (126555, 126555); (126557, 126557);
   (126559, 126559); (126561, 126562); (126564, 126564); (126567, 126570);
   (126572, 126578); (126580, 126583); (126585, 126588); (126590, 126590);
   (126592, 126601); (126603, 126619); (126625, 126627); (126629, 126633);
   (126635, 126651); (127232, 127244); (130032, 130041); (131072, 173791);
   (173824, 177976); (177984, 178205); (178208, 183969); (183984, 191456);
   (194560, 195101); (196608, 201546)]%N.

(** The characters with the property Cased. *)
Definition CASED : list (N * N) :=
  [(65, 90); (97, 122); (170, 170); (181, 181); (186, 186); (192, 214); (216,
   246); (248, 442); (444, 447); (452, 659); (661, 696); (704, 705); (736,
   740); (837, 837); (880, 883); (886, 887); (890, 893); (895, 895); (902,
   902); (904, 906); (908, 908); (910, 929); (931, 1013); (1015, 1153); (1162,
   1327); (1329, 1366); (1376, 1416); (4256, 4293); (4295, 4295); (4301, 4301);
   (4304, 4346); (4349, 4351); (5024, 5109); (5112, 5117); (7296, 7304); (7312,
   7354); (7357, 7359); (7424, 7615); (7680, 7957); (7960, 7965); (7968, 8005);
   (8008, 8013); (8016, 8023); (8025, 8025); (8027, 8027); (8029, 8029); (8031,
   8061); (8064, 8116); (8118, 8124); (8126, 8126); (8130, 8132); (8134, 8140);
   (8144, 8147); (8150, 8155); (8160, 8172); (8178, 8180); (8182, 8188); (8305,
   8305); (8319, 8319); (8336, 8348); (8450, 8450); (8455, 8455); (8458, 8467);
   (8469, 8469); (8473, 8477); (8484, 8484); (8486, 8486); (8488, 8488); (8490,
   8493); (8495, 8500); (8505, 8505); (8508, 8511); (8517, 8521); (8526, 8526);
   (8544, 8575); (8579, 8580); (9398, 9449); (11264, 11492); (11499, 11502);
   (11506, 11507); (11520, 11557); (11559, 11559); (11565, 11565); (42560,
   42605); (42624, 42653); (42786, 42887); (42891, 42894); (42896, 42954);
   (42960, 42961); (42963, 42963); (42965, 42969); (42997, 42998); (43000,
   43002); (43824, 43866); (43868, 43880); (43888, 43967); (64256, 64262);
   (64275, 64279); (65313, 65338); (65345, 65370); (66560, 66639); (66736,
   66771); (66776, 66811); (66928, 66938); (66940, 66954); (66956, 66962);
   (66964, 66965); (66967, 66977); (66979, 66993); (66995, 67001); (67003,
   67004); (67456, 67456); (67459, 67461); (67463, 67504); (67506, 67514);
   (68736, 68786); (68800, 68850); (71840, 71903); (93760, 93823); (119808,
   119892); (119894, 119964); (119966, 119967); (119970, 119970); (119973,
   119974); (119977, 119980); (119982, 119993); (119995, 119995); (119997,
   120003); (120005, 120069); (120071, 120074); (120077, 120084); (120086,
   120092); (120094, 120121); (120123, 120126); (120128, 120132); (120134,
   120134); (120138, 120144); (120146, 120485); (120488, 120512); (120514,
   120538); (120540, 120570); (120572, 120596); (120598, 120628); (120630,
   120654); (120656, 120686); (120688, 120712); (120714, 120744); (120746,
   120770); (120772, 120779); (122624, 122633); (122635, 122654); (125184,
   125251); (127280, 127305); (127312, 127337); (127344, 127369)]%N.

(** The characters with the property Case_Ignorable. *)
Definition CASE_IGNORABLE : list (N * N) :=
  [(39, 39); (46, 46); (58, 58); (94, 94); (96, 96); (168, 168); (173, 173);
   (175, 175); (180, 180); (183, 184); (688, 879); (884, 885); (890, 890);
   (900, 901); (903, 903); (1155, 1161); (1369, 1369); (1375, 1375); (1425,
   1469); (1471, 1471); (1473, 1474); (1476, 1477); (1479, 1479); (1524, 1524);
   (1536, 1541); (1552, 1562); (1564, 1564); (1600, 1600); (1611, 1631); (1648,
   1648); (1750, 1757); (1759, 1768); (1770, 1773); (1807, 1807); (1809, 1809);
   (1840, 1866); (1958, 1968); (2027, 2037); (2042, 2042); (2045, 2045); (2070,
   2093); (2137, 2139); (2184, 2184); (2192, 2193); (2200, 2207); (2249, 2306);
   (2362, 2362); (2364, 2364); (2369, 2376); (2381, 2381); (2385, 2391); (2402,
   2403); (2417, 2417); (2433, 2433); (2492, 2492); (2497, 2500); (2509, 2509);
   (2530, 2531); (2558, 2558); (2561, 2562); (2620, 2620); (2625, 2626); (2631,
   2632); (2635, 2637); (2641, 2641); (2672, 2673); (2677, 2677); (2689, 2690);
   (2748, 2748); (2753, 2757); (2759, 2760); (2765, 2765); (2786, 2787); (2810,
   2815); (2817, 2817); (2876, 2876); (2879, 2879); (2881, 2884); (2893, 2893);
   (2901, 2902); (2914, 2915); (2946, 2946); (3008, 3008); (3021, 3021); (3072,
   3072); (3076, 3076); (3132, 3132); (3134, 3136); (3142, 3144); (3146, 3149);
   (3157, 3158); (3170, 3171); (3201, 3201); (3260, 3260); (3263, 3263); (3270,
   3270); (3276, 3277); (3298, 3299); (3328, 3329); (3387, 3388); (3393, 3396);
   (3405, 3405); (3426, 3427); (3457, 3457); (3530, 3530); (3538, 3540); (3542,
   3542); (3633, 3633); (3636, 3642); (3654, 3662); (3761, 3761); (3764, 3772);
   (3782, 3782); (3784, 3789); (3864, 3865); (3893, 3893); (3895, 3895); (3897,
   3897); (3953, 3966); (3968, 3972); (3974, 3975); (3981, 3991); (3993, 4028);
   (4038, 4038); (4141, 4144); (4146, 4151); (4153, 4154); (4157, 4158); (4184,
   4185); (4190, 4192); (4209, 4212); (4226, 4226); (4229, 4230); (4237, 4237);
   (4253, 4253); (4348, 4348); (4957, 4959); (5906, 5908); (5938, 5939); (5970,
   5971); (6002, 6003); (6068, 6069); (6071, 6077); (6086, 6086); (6089, 6099);
   (6103, 6103); (6109, 6109); (6155, 6159); (6211, 6211); (6277, 6278); (6313,
   6313); (6432, 6434); (6439, 6440); (6450, 6450); (6457, 6459); (6679, 6680);
   (6683, 6683); (6742, 6742); (6744, 6750); (6752, 6752); (6754, 6754); (6757,
   6764); (6771, 6780); (6783, 6783); (6823, 6823); (6832, 6862); (6912, 6915);
   (6964, 6964); (6966, 6970); (6972, 6972); (6978, 6978); (7019, 7027); (7040,
   7041); (7074, 7077); (7080, 7081); (7083, 7085); (7142, 7142); (7144, 7145);
   (7149, 7149); (7151, 7153); (7212, 7219); (7222, 7223); (7288, 7293); (7376,
   7378); (7380, 7392); (7394, 7400); (7405, 7405); (7412, 7412); (7416, 7417);
   (7468, 7530); (7544, 7544); (7579, 7679); (8125, 8125); (8127, 8129); (8141,
   8143); (8157, 8159); (8173, 8175); (8189, 8190); (8203, 8207); (8216, 8217);
   (8228, 8228); (8231, 8231); (8234, 8238); (8288, 8292); (8294, 8303); (8305,
   8305); (8319, 8319); (8336, 8348); (8400, 8432); (11388, 11389); (11503,
   11505); (11631, 11631); (11647, 11647); (11744, 11775); (11823, 11823);
   (12293, 12293); (12330, 12333); (12337, 12341); (12347, 12347); (12441,
   12446); (12540, 12542); (40981, 40981); (42232, 42237); (42508, 42508);
   (42607, 42610); (42612, 42621); (42623, 42623); (42652, 42655); (42736,
   42737); (42752, 42785); (42864, 42864); (42888, 42890); (42994, 42996);
   (43000, 43001); (43010, 43010); (43014, 43014); (43019, 43019); (43045,
   43046); (43052, 43052); (43204, 43205); (43232, 43249); (43263, 43263);
   (43302, 43309); (43335, 43345); (43392, 43394); (43443, 43443); (43446,
   43449); (43452, 43453); (43471, 43471); (43493, 43494); (43561, 43566);
   (43569, 43570); (43573, 43574); (43587, 43587); (43596, 43596); (43632,
   43632); (43644, 43644); (43696, 43696); (43698, 43700); (43703, 43704);
   (43710, 43711); (43713, 43713); (43741, 43741); (43756, 43757); (43763,
   43764); (43766, 43766); (43867, 43871); (43881, 43883); (44005, 44005);
   (44008, 44008); (44013, 44013); (64286, 64286); (64434, 64450); (65024,
   65039); (65043, 65043); (65056, 65071); (65106, 65106); (65109, 65109);
   (65279, 65279); (65287, 65287); (65294, 65294); (65306, 65306); (65342,
   65342); (65344, 65344); (65392, 65392); (65438, 65439); (65507, 65507);
   (65529, 65531); (66045, 66045); (66272, 66272); (66422, 66426); (67456,
   67461); (67463, 67504); (67506, 67514); (68097, 68099); (68101, 68102);
   (68108, 68111); (68152, 68154); (68159, 68159); (68325, 68326); (68900,
   68903); (69291, 69292); (69446, 69456); (69506, 69509); (69633, 69633);
   (69688, 69702); (69744, 69744); (69747, 69748); (69759, 69761); (69811,
   69814); (69817, 69818); (69821, 69821); (69826, 69826); (69837, 69837);
   (69888, 69890); (69927, 69931); (69933, 69940); (70003, 70003); (70016,
   70017); (70070, 70078); (70089, 70092); (70095, 70095); (70191, 70193);
   (70196, 70196); (70198, 70199); (70206, 70206); (70367, 70367); (70371,
   70378); (70400, 70401); (70459, 70460); (70464, 70464); (70502, 70508);
   (70512, 70516); (70712, 70719); (70722, 70724); (70726, 70726); (70750,
   70750); (70835, 70840); (70842, 70842); (70847, 70848); (70850, 70851);
   (71090, 71093); (71100, 71101); (71103, 71104); (71132, 71133); (71219,
   71226); (71229, 71229); (71231, 71232); (71339, 71339); (71341, 71341);
   (71344, 71349); (71351, 71351); (71453, 71455); (71458, 71461); (71463,
   71467); (71727, 71735); (71737, 71738); (71995, 71996); (71998, 71998);
   (72003, 72003); (72148, 72151); (72154, 72155); (72160, 72160); (72193,
   72202); (72243, 72248); (72251, 72254); (72263, 72263); (72273, 72278);
   (72281, 72283); (72330, 72342); (72344, 72345); (72752, 72758); (72760,
   72765); (72767, 72767); (72850, 72871); (72874, 72880); (72882, 72883);
   (72885, 72886); (73009, 73014); (73018, 73018); (73020, 73021); (73023,
   73029); (73031, 73031); (73104, 73105); (73109, 73109); (73111, 73111);
   (73459, 73460); (78896, 78904); (92912, 92916); (92976, 92982); (92992,
   92995); (94031, 94031); (94095, 94111); (94176, 94177); (94179, 94180);
   (110576, 110579); (110581, 110587); (110589, 110590); (113821, 113822);
   (113824, 113827); (118528, 118573); (118576, 118598); (119143, 119145);
   (119155, 119170); (119173, 119179); (119210, 119213); (119362, 119364);
   (121344, 121398); (121403, 121452); (121461, 121461); (121476, 121476);
   (121499, 121503); (121505, 121519); (122880, 122886); (122888, 122904);
   (122907, 122913); (122915, 122916); (122918, 122922); (123184, 123197);
   (123566, 123566); (123628, 123631); (125136, 125142); (125252, 125259);
   (127995, 127999); (917505, 917505); (917536, 917631); (917760, 917999)]%N.

(** The simple lower-case mapping: the characters [lo, lo + step, ..., hi]
    are mapped to themselves plus [delta]; every other character is mapped
    to itself.  Entries are [(lo, hi, step, delta)]. *)
Definition LOWER : list (Z * Z * Z * Z) :=
  [(65, 90, 1, 32); (192, 214, 1, 32); (216, 222, 1, 32); (256, 302, 2, 1);
   (304, 304, 1, (-199)); (306, 310, 2, 1); (313, 327, 2, 1); (330, 374, 2, 1);
   (376, 376, 1, (-121)); (377, 381, 2, 1); (385, 385, 1, 210); (386, 388, 2,
   1); (390, 390, 1, 206); (391, 391, 1, 1); (393, 394, 1, 205); (395, 395, 1,
   1); (398, 398, 1, 79); (399, 399, 1, 202); (400, 400, 1, 203); (401, 401, 1,
   1); (403, 403, 1, 205); (404, 404, 1, 207); (406, 406, 1, 211); (407, 407,
   1, 209); (408, 408, 1, 1); (412, 412, 1, 211); (413, 413, 1, 213); (415,
   415, 1, 214); (416, 420, 2, 1); (422, 422, 1, 218); (423, 423, 1, 1); (425,
   425, 1, 218); (428, 428, 1, 1); (430, 430, 1, 218); (431, 431, 1, 1); (433,
   434, 1, 217); (435, 437, 2, 1); (439, 439, 1, 219); (440, 440, 1, 1); (444,
   444, 1, 1); (452, 452, 1, 2); (453, 453, 1, 1); (455, 455, 1, 2); (456, 456,
   1, 1); (458, 458, 1, 2); (459, 475, 2, 1); (478, 494, 2, 1); (497, 497, 1,
   2); (498, 500, 2, 1); (502, 502, 1, (-97)); (503, 503, 1, (-56)); (504, 542,
   2, 1); (544, 544, 1, (-130)); (546, 562, 2, 1); (570, 570, 1, 10795); (571,
   571, 1, 1); (573, 573, 1, (-163)); (574, 574, 1, 10792); (577, 577, 1, 1);
   (579, 579, 1, (-195)); (580, 580, 1, 69); (581, 581, 1, 71); (582, 590, 2,
   1); (880, 882, 2, 1); (886, 886, 1, 1); (895, 895, 1, 116); (902, 902, 1,
   38); (904, 906, 1, 37); (908, 908, 1, 64); (910, 911, 1, 63); (913, 929, 1,
   32); (931, 939, 1, 32); (975, 975, 1, 8); (984, 1006, 2, 1); (1012, 1012, 1,
   (-60)); (1015, 1015, 1, 1); (1017, 1017, 1, (-7)); (1018, 1018, 1, 1);
   (1021, 1023, 1, (-130)); (1024, 1039, 1, 80); (1040, 1071, 1, 32); (1120,
   1152, 2, 1); (1162, 1214, 2, 1); (1216, 1216, 1, 15); (1217, 1229, 2, 1);
   (1232, 1326, 2, 1); (1329, 1366, 1, 48); (4256, 4293, 1, 7264); (4295, 4295,
   1, 7264); (4301, 4301, 1, 7264); (5024, 5103, 1, 38864); (5104, 5109, 1, 8);
   (7312, 7354, 1, (-3008)); (7357, 7359, 1, (-3008)); (7680, 7828, 2, 1);
   (7838, 7838, 1, (-7615)); (7840, 7934, 2, 1); (7944, 7951, 1, (-8)); (7960,
   7965, 1, (-8)); (7976, 7983, 1, (-8)); (7992, 7999, 1, (-8)); (8008, 8013,
   1, (-8)); (8025, 8031, 2, (-8)); (8040, 8047, 1, (-8)); (8072, 8079, 1,
   (-8)); (8088, 8095, 1, (-8)); (8104, 8111, 1, (-8)); (8120, 8121, 1, (-8));
   (8122, 8123, 1, (-74)); (8124, 8124, 1, (-9)); (8136, 8139, 1, (-86));
   (8140, 8140, 1, (-9)); (8152, 8153, 1, (-8)); (8154, 8155, 1, (-100));
   (8168, 8169, 1, (-8)); (8170, 8171, 1, (-112)); (8172, 8172, 1, (-7));
   (8184, 8185, 1, (-128)); (8186, 8187, 1, (-126)); (8188, 8188, 1, (-9));
   (8486, 8486, 1, (-7517)); (8490, 8490, 1, (-8383)); (8491, 8491, 1,
   (-8262)); (8498, 8498, 1, 28); (8544, 8559, 1, 16); (8579, 8579, 1, 1);
   (9398, 9423, 1, 26); (11264, 11311, 1, 48); (11360, 11360, 1, 1); (11362,
   11362, 1, (-10743)); (11363, 11363, 1, (-3814)); (11364, 11364, 1,
   (-10727)); (11367, 11371, 2, 1); (11373, 11373, 1, (-10780)); (11374, 11374,
   1, (-10749)); (11375, 11375, 1, (-10783)); (11376, 11376, 1, (-10782));
   (11378, 11378, 1, 1); (11381, 11381, 1, 1); (11390, 11391, 1, (-10815));
   (11392, 11490, 2, 1); (11499, 11501, 2, 1); (11506, 11506, 1, 1); (42560,
   42604, 2, 1); (42624, 42650, 2, 1); (42786, 42798, 2, 1); (42802, 42862, 2,
   1); (42873, 42875, 2, 1); (42877, 42877, 1, (-35332)); (42878, 42886, 2, 1);
   (42891, 42891, 1, 1); (42893, 42893, 1, (-42280)); (42896, 42898, 2, 1);
   (42902, 42920, 2, 1); (42922, 42922, 1, (-42308)); (42923, 42923, 1,
   (-42319)); (42924, 42924, 1, (-42315)); (42925, 42925, 1, (-42305)); (42926,
   42926, 1, (-42308)); (42928, 42928, 1, (-42258)); (42929, 42929, 1,
   (-42282)); (42930, 42930, 1, (-42261)); (42931, 42931, 1, 928); (42932,
   42946, 2, 1); (42948, 42948, 1, (-48)); (42949, 42949, 1, (-42307)); (42950,
   42950, 1, (-35384)); (42951, 42953, 2, 1); (42960, 42960, 1, 1); (42966,
   42968, 2, 1); (42997, 42997, 1, 1); (65313, 65338, 1, 32); (66560, 66599, 1,
   40); (66736, 66771, 1, 40); (66928, 66938, 1, 39); (66940, 66954, 1, 39);
   (66956, 66962, 1, 39); (66964, 66965, 1, 39); (68736, 68786, 1, 64); (71840,
   71871, 1, 32); (93760, 93791, 1, 32); (125184, 125217, 1, 34)]%Z.

(** [re._casefix._EXTRA_CASES]: for a lower-case character, the other
    lower-case characters with the same upper case. *)
Definition EXTRA_CASES : list (N * list N) :=
  [(105, [305]); (115, [383]); (181, [956]); (305, [105]); (383, [115]); (837,
   [953; 8126]); (912, [8147]); (944, [8163]); (946, [976]); (949, [1013]);
   (952, [977]); (953, [837; 8126]); (954, [1008]); (956, [181]); (960, [982]);
   (961, [1009]); (962, [963]); (963, [962]); (966, [981]); (976, [946]); (977,
   [952]); (981, [966]); (982, [960]); (1008, [954]); (1009, [961]); (1013,
   [949]); (1074, [7296]); (1076, [7297]); (1086, [7298]); (1089, [7299]);
   (1090, [7300; 7301]); (1098, [7302]); (1123, [7303]); (7296, [1074]); (7297,
   [1076]); (7298, [1086]); (7299, [1089]); (7300, [1090; 7301]); (7301, [1090;
   7300]); (7302, [1098]); (7303, [1123]); (7304, [42571]); (7777, [7835]);
   (7835, [7777]); (8126, [837; 953]); (8147, [912]); (8163, [944]); (42571,
   [7304]); (64261, [64262]); (64262, [64261])]%N.

(** [ch.isspace()] *)
Definition is_space (c : char) : bool := in_ranges SPACE c.

(** [ch.isdecimal()] *)
Definition is_digit (c : char) : bool := in_ranges DECIMAL c.

(** The value of a decimal digit: its offset in its run of ten. *)
Fixpoint digit_in (rs : list (N * N)) (c : N) : option N :=
  match rs with
  | [] => None
  | (lo, hi) :: rest =>
      if ((lo <=? c) && (c <=? hi))%N then Some ((c - lo) mod 10)%N
      else digit_in rest c
  end.

Definition digit_value (c : char) : option N := digit_in DECIMAL c.

(** The regex class [\w]: [ch.isalnum()] or the underscore. *)
Definition is_word (c : char) : bool := in_ranges ALNUM c || (c =? 95)%N.

Definition is_cased (c : char) : bool := in_ranges CASED c.

Definition is_case_ignorable (c : char) : bool := in_ranges CASE_IGNORABLE c.

Fixpoint lower_in (rs : list (Z * Z * Z * Z)) (z : Z) : Z :=
  match rs with
  | [] => z
  | (lo, hi, step, delta) :: rest =>
      if ((lo <=? z) && (z <=? hi) && ((z - lo) mod step =? 0))%Z
      then (z + delta)%Z
      else lower_in rest z
  end.

(** The simple lower case of a character ([_sre.unicode_tolower]). *)
Definition tolower (c : char) : char := Z.to_N (lower_in LOWER (Z.of_N c)).

Fixpoint extra_in (t : list (N * list N)) (c : N) : list N :=
  match t with
  | [] => []
  | (k, v) :: rest => if (k =? c)%N then v else extra_in rest c
  end.

Definition extra_cases (c : char) : list char := extra_in EXTRA_CASES c.

End Unicode.
Import Unicode.

(** ** Python strings and bytes *)

Declare Scope str_scope.
Delimit Scope str_scope with str.

Module PyStr.

(** A [str]: its code points, first to last. *)
Inductive str : Set :=
| EmptyString
| String (c : char) (s : str).
Bind Scope str_scope with str.

(** [len(s)] *)
Fixpoint len (s : str) : nat :=
  match s with
  | EmptyString => 0
  | String _ r => S (len r)
  end.

(** [s + t] *)
Fixpoint append (s t : str) : str :=
  match s with
  | EmptyString => t
  | String c r => String c (append r t)
  end.

Infix "++" := append (right associativity, at level 60) : str_scope.

(** [s == t] *)
Fixpoint str_eqb (s t : str) : bool :=
  match s, t with
  | EmptyString, EmptyString => true
  | String a s', String b t' => (a =? b)%N && str_eqb s' t'
  | _, _ => false
  end.

(** The characters of [s], as a list. *)
Fixpoint chars (s : str) : list char :=
  match s with
  | EmptyString => []
  | String c r => c :: chars r
  end.

(** [s[i]], when [i < len(s)]. *)
Fixpoint char_at (i : nat) (s : str) : option char :=
  match s, i with
  | EmptyString, _ => None
  | String c _, O => Some c
  | String _ r, S j => char_at j r
  end.

(** *** UTF-8 *)

(** U+FFFD, the replacement character. *)
Definition REPLACEMENT : char := 65533%N.

Definition between (lo hi b : N) : bool := ((lo <=? b) && (b <=? hi))%N.

(** The second byte allowed after the lead byte [b0] of a three-byte
    and of a four-byte sequence. *)
Definition second_of_3 (b0 b1 : N) : bool :=
  if (b0 =? 224)%N then between 160 191 b1
  else if (b0 =? 237)%N then between 128 159 b1
  else between 128 191 b1.

Definition second_of_4 (b0 b1 : N) : bool :=
  if (b0 =? 240)%N then between 144 191 b1
  else if (b0 =? 244)%N then between 128 143 b1
  else between 128 191 b1.

(** The code points of UTF-8 bytes, every ill-formed run replaced by
    U+FFFD: one replacement for each maximal ill-formed prefix of a
    sequence. *)
Fixpoint utf8_replace (bs : list N) : str :=
  match bs with
  | [] => EmptyString
  | b0 :: r0 =>
      if (b0 <? 128)%N then String b0 (utf8_replace r0)
      else if between 194 223 b0 then
        match r0 with
        | b1 :: r1 =>
            if between 128 191 b1
            then String ((b0 - 192) * 64 + (b1 - 128))%N (utf8_replace r1)
            else String REPLACEMENT (utf8_replace r0)
        | [] => String REPLACEMENT EmptyString
        end
      else if between 224 239 b0 then
        match r0 with
        | b1 :: r1 =>
            if second_of_3 b0 b1 then
              match r1 with
              | b2 :: r2 =>
                  if between 128 191 b2
                  then String ((b0 - 224) * 4096 + (b1 - 128) * 64
                               + (b2 - 128))%N (utf8_replace r2)
                  else String REPLACEMENT (utf8_replace r1)
              | [] => String REPLACEMENT EmptyString
              end
            else String REPLACEMENT (utf8_replace r0)
        | [] => String REPLACEMENT EmptyString
        end
      else if between 240 244 b0 then
        match r0 with
        | b1 :: r1 =>
            if second_of_4 b0 b1 then
              match r1 with
              | b2 :: r2 =>
                  if between 128 191 b2 then
                    match r2 with
                    | b3 :: r3 =>
                        if between 128 191 b3
                        then String ((b0 - 240) * 262144 + (b1 - 128) * 4096
                                     + (b2 - 128) * 64 + (b3 - 128))%N
                                    (utf8_replace r3)
                        else String REPLACEMENT (utf8_replace r2)
                    | [] => String REPLACEMENT EmptyString
                    end
                  else String REPLACEMENT (utf8_replace r1)
              | [] => String REPLACEMENT EmptyString
              end
            else String REPLACEMENT (utf8_replace r0)
        | [] => String REPLACEMENT EmptyString
        end
      else String REPLACEMENT (utf8_replace r0)
  end.

(** [data.decode(errors="replace")] *)
Definition decode (data : list byte) : str :=
  utf8_replace (map Byte.to_N data).

Definition byte_of (n : N) : byte :=
  match Byte.of_N n with Some b => b | None => x00 end.

(** The UTF-8 bytes of one code point. *)
Definition utf8_char (c : char) : list byte :=
  if (c <? 128)%N then [byte_of c]
  else if (c <? 2048)%N then
    [byte_of (192 + c / 64); byte_of (128 + c mod 64)]%N
  else if (c <? 65536)%N then
    [byte_of (224 + c / 4096); byte_of (128 + (c / 64) mod 64);
     byte_of (128 + c mod 64)]%N
  else
    [byte_of (240 + c / 262144); byte_of (128 + (c / 4096) mod 64);
     byte_of (128 + (c / 64) mod 64); byte_of (128 + c mod 64)]%N.

Fixpoint utf8 (s : str) : list byte :=
  match s with
  | EmptyString => []
  | String c r => utf8_char c ++ utf8 r
  end.

(** The code points UTF-8 has a sequence for: up to U+10FFFF, the
    surrogates U+D800 to U+DFFF apart. *)
Definition encodable (c : char) : bool :=
  ((c <? 55296) || ((57343 <? c) && (c <=? 1114111)))%N.

(** [s.encode()]; [None] stands for [UnicodeEncodeError]. *)
Definition encode (s : str) : option (list byte) :=
  if forallb encodable (chars s) then Some (utf8 s) else None.

(** String and character constants are written as text. *)
Definition str_of_bytes (l : list byte) : str := decode l.
Definition bytes_of_str (s : str) : list byte := utf8 s.

Definition char_of_bytes (l : list byte) : option N :=
  match decode l with
  | String c EmptyString => Some c
  | _ => None
  end.

Definition bytes_of_char (c : N) : option (list byte) :=
  if encodable c then Some (utf8_char c) else None.

String Notation str str_of_bytes bytes_of_str : str_scope.
String Notation N char_of_bytes bytes_of_char : chr_scope.
Local Open Scope str_scope.
Local Open Scope nat_scope.

(** [s.startswith(p)] *)
Fixpoint startswith (p s : str) : bool :=
  match p, s with
  | EmptyString, _ => true
  | String a p', String b s' => (a =? b)%N && startswith p' s'
  | String _ _, EmptyString => false
  end.

(** [sub in s] *)
Fixpoint contains (sub s : str) : bool :=
  startswith sub s ||
  match s with
  | EmptyString => false
  | String _ r => contains sub r
  end.

(** [c in chars] for a character. *)
Fixpoint mem (c : char) (cs : str) : bool :=
  match cs with
  | EmptyString => false
  | String d r => (c =? d)%N || mem c r
  end.

Fixpoint lstrip_by (p : char -> bool) (s : str) : str :=
  match s with
  | EmptyString => EmptyString
  | String c r => if p c then lstrip_by p r else s
  end.

Fixpoint rstrip_by (p : char -> bool) (s : str) : str :=
  match s with
  | EmptyString => EmptyString
  | String c r =>
      match rstrip_by p r with
      | EmptyString => if p c then EmptyString else String c EmptyString
      | t => String c t
      end
  end.

(** [s.strip()] *)
Definition strip (s : str) : str := rstrip_by is_space (lstrip_by is_space s).

(** [s.rstrip(chars)] *)
Definition rstrip_chars (cs s : str) : str :=
  rstrip_by (fun c => mem c cs) s.

(** [s[n:]] and [s[:n]] for [n >= 0]; [s[a:b]] for [0 <= a]. *)
Fixpoint drop (n : nat) (s : str) : str :=
  match n, s with
  | O, _ => s
  | S _, EmptyString => EmptyString
  | S n', String _ r => drop n' r
  end.

Fixpoint take (n : nat) (s : str) : str :=
  match n, s with
  | O, _ => EmptyString
  | S _, EmptyString => EmptyString
  | S n', String c r => String c (take n' r)
  end.

Definition slice (s : str) (a b : nat) : str := take (b - a) (drop a s).

(** [sep.join(parts)] *)
Fixpoint join (sep : str) (parts : list str) : str :=
  match parts with
  | [] => EmptyString
  | [x] => x
  | x :: rest => x ++ sep ++ join sep rest
  end.

(** The line feed, ["\n"], and the carriage return, ["\r"]. *)
Definition LF : char := 10%N.
Definition CR : char := 13%N.
Definition nl : str := String LF EmptyString.

(** [s.split("\n", 1)] when ["\n" in s]: the text before the first line
    feed and the text after it; [None] when [s] has no line feed. *)
Fixpoint split_nl (s : str) : option (str * str) :=
  match s with
  | EmptyString => None
  | String c r =>
      if (c =? LF)%N then Some (EmptyString, r)
      else match split_nl r with
           | Some (a, b) => Some (String c a, b)
           | None => None
           end
  end.

(** [s.split("|", 1)[1]] when ["|" in s]. *)
Fixpoint after_bar (s : str) : option str :=
  match s with
  | EmptyString => None
  | String c r => if (c =? "|"%chr)%N then Some r else after_bar r
  end.

(** Position of the last line feed of [s] among the indices
    [i, i+1, ...] of its characters, restricted to [lo <= j < hi]. *)
Fixpoint rfind_nl_from (i : nat) (s : str) (lo hi : nat) : option nat :=
  match s with
  | EmptyString => None
  | String c r =>
      match rfind_nl_from (S i) r lo hi with
      | Some j => Some j
      | None =>
          if (c =? LF)%N && (lo <=? i) && (i <? hi) then Some i else None
      end
  end.

(** [s.rfind("\n", lo, hi)], with [None] for Python's [-1]. *)
Definition rfind_nl (s : str) (lo hi : nat) : option nat :=
  rfind_nl_from 0 s lo hi.

(** *** Lower case *)

(** The lower case of one character out of context: a single character,
    except for U+0130, which becomes [i] and a combining dot. *)
Definition lower_char (c : char) : str :=
  if (c =? 304)%N then String 105%N (String 775%N EmptyString)
  else String (tolower c) EmptyString.

Fixpoint skip_ignorable (l : list char) : list char :=
  match l with
  | [] => []
  | c :: r => if is_case_ignorable c then skip_ignorable r else l
  end.

(** A capital sigma is in final position when the nearest character
    before it that is not case-ignorable is cased, and the nearest such
    character after it, if any, is not.  [before] holds the characters
    before the sigma, nearest first. *)
Definition final_sigma (before : list char) (after : str) : bool :=
  match skip_ignorable before with
  | c :: _ =>
      is_cased c &&
      match skip_ignorable (chars after) with
      | [] => true
      | d :: _ => negb (is_cased d)
      end
  | [] => false
  end.

Fixpoint lower_from (before : list char) (s : str) : str :=
  match s with
  | EmptyString => EmptyString
  | String c r =>
      (if (c =? 931)%N
       then String (if final_sigma before r then 962%N else 963%N) EmptyString
       else lower_char c) ++ lower_from (c :: before) r
  end.

(** [s.lower()] *)
Definition lower (s : str) : str := lower_from [] s.

(** *** Integers *)

(** White space as [int()] skips it: below U+007F the white space of
    the C locale (U+001C to U+001F are not skipped), above it the white
    space of [str.isspace]. *)
Definition is_int_space (c : char) : bool :=
  if (c <? 127)%N then between 9 13 c || (c =? 32)%N else is_space c.

(** The interpreter's default limit on the digits of an [int()] text. *)
Definition MAX_STR_DIGITS : nat := 4300.

(** The digits of an [int()] literal after its first digit: digits,
    with single underscores allowed between two digits.  [n] counts the
    digits read so far. *)
Fixpoint int_digits (acc : Z) (n : nat) (after_us : bool) (s : str) : option (Z * nat) :=
  match s with
  | EmptyString => if after_us then None else Some (acc, n)
  | String c r =>
      match digit_value c with
      | Some d => int_digits (10 * acc + Z.of_N d)%Z (S n) false r
      | None =>
          if (c =? "_"%chr)%N && negb after_us then int_digits acc n true r
          else None
      end
  end.

(** [int(s)] in base ten; [None] stands for [ValueError]. *)
Definition py_int (s : str) : option Z :=
  let t := rstrip_by is_int_space (lstrip_by is_int_space s) in
  let '(neg, body) :=
    match t with
    | String "-" r => (true, r)
    | String "+" r => (false, r)
    | _ => (false, t)
    end in
  match body with
  | String c r =>
      match digit_value c with
      | Some d =>
          match int_digits (Z.of_N d) 1 false r with
          | Some (v, n) =>
              if MAX_STR_DIGITS <? n then None
              else Some (if neg then (- v)%Z else v)
          | None => None
          end
      | None => None
      end
  | EmptyString => None
  end.

Fixpoint str_of_uint (d : Decimal.uint) : str :=
  match d with
  | Decimal.Nil => ""
  | Decimal.D0 r => String "0" (str_of_uint r)
  | Decimal.D1 r => String "1" (str_of_uint r)
  | Decimal.D2 r => String "2" (str_of_uint r)
  | Decimal.D3 r => String "3" (str_of_uint r)
  | Decimal.D4 r => String "4" (str_of_uint r)
  | Decimal.D5 r => String "5" (str_of_uint r)
  | Decimal.D6 r => String "6" (str_of_uint r)
  | Decimal.D7 r => String "7" (str_of_uint r)
  | Decimal.D8 r => String "8" (str_of_uint r)
  | Decimal.D9 r => String "9" (str_of_uint r)
  end.

(** [str(z)] for an integer. *)
Definition py_str (z : Z) : str :=
  match Z.to_int z with
  | Decimal.Pos d => str_of_uint d
  | Decimal.Neg d => String "-" (str_of_uint d)
  end.

End PyStr.
Import PyStr.
Local Open Scope str_scope.
Local Open Scope nat_scope.

(** ** Regular expressions

    A backtracking matcher for the fragment of [re] used by the four
    patterns of the module: character classes, concatenation,
    alternation, greedy repetition, groups, [^], [$] and [\b]. *)

Module Re.

Inductive re : Type :=
| Chr (p : char -> bool)
| Eps
| Cat (a b : re)
| Alt (a b : re)
| Star (a : re)
| Grp (n : nat) (a : re)
| Bol
| Eol
| Wordb.

Definition groups : Type := list (nat * str).

(** The continuation receives the character before the position, the
    remaining input and the groups bound so far. *)
Definition cont : Type := option char -> str -> groups -> option groups.

Definition word_before (prev : option char) : bool :=
  match prev with Some c => is_word c | None => false end.

Definition word_after (s : str) : bool :=
  match s with String c _ => is_word c | EmptyString => false end.

(** [$] without [re.MULTILINE]: at the end, or before a final line feed. *)
Definition at_eol (s : str) : bool :=
  match s with
  | EmptyString => true
  | String c EmptyString => (c =? LF)%N
  | _ => false
  end.

Fixpoint run (r : re) (prev : option char) (s : str) (g : groups)
    (k : cont) {struct r} : option groups :=
  match r with
  | Chr p =>
      match s with
      | String c s' => if p c then k (Some c) s' g else None
      | EmptyString => None
      end
  | Eps => k prev s g
  | Cat a b => run a prev s g (fun prev' s' g' => run b prev' s' g' k)
  | Alt a b =>
      match run a prev s g k with
      | Some g' => Some g'
      | None => run b prev s g k
      end
  | Star a =>
      (fix loop (n : nat) (prev : option char) (s : str) (g : groups)
         {struct n} : option groups :=
         match n with
         | O => k prev s g
         | S n' =>
             match run a prev s g
                     (fun prev' s' g' =>
                        if len s' <? len s
                        then loop n' prev' s' g' else None) with
             | Some g' => Some g'
             | None => k prev s g
             end
         end) (len s) prev s g
  | Grp n a =>
      run a prev s g
        (fun prev' s' g' =>
           k prev' s' ((n, take (len s - len s') s) :: g'))
  | Bol => match prev with None => k prev s g | Some _ => None end
  | Eol => if at_eol s then k prev s g else None
  | Wordb => if xorb (word_before prev) (word_after s) then k prev s g else None
  end.

(** [pattern.match(s)] *)
Definition rmatch (r : re) (s : str) : option groups :=
  run r None s [] (fun _ _ g => Some g).

Fixpoint search_from (r : re) (prev : option char) (s : str) : option groups :=
  match run r prev s [] (fun _ _ g => Some g) with
  | Some g => Some g
  | None =>
      match s with
      | EmptyString => None
      | String c s' => search_from r (Some c) s'
      end
  end.

(** [pattern.search(s)] *)
Definition search (r : re) (s : str) : option groups := search_from r None s.

(** [m.group(n)] *)
Fixpoint group (n : nat) (g : groups) : str :=
  match g with
  | [] => EmptyString
  | (m, v) :: rest => if n =? m then v else group n rest
  end.

Definition seq (rs : list re) : re := fold_right Cat Eps rs.
Definition plus (a : re) : re := Cat a (Star a).
Definition alts (rs : list re) : re :=
  match rs with
  | [] => Eps
  | r :: rest => fold_left Alt rest r
  end.

(** At most [n] greedy repetitions. *)
Fixpoint upto (n : nat) (a : re) : re :=
  match n with
  | O => Eps
  | S n' => Alt (Cat a (upto n' a)) Eps
  end.

Definition space : re := Chr is_space.
Definition digit : re := Chr is_digit.
Definition dot : re := Chr (fun c => negb (c =? LF)%N).
Definition chr (c : char) : re := Chr (N.eqb c).

(** A character of a literal under [(?i)]: the text character matches
    when its simple lower case is the lower case of the pattern's
    character or one of the characters that share its upper case. *)
Definition imatch (c x : char) : bool :=
  let lo := tolower c in
  existsb (N.eqb (tolower x)) (lo :: extra_cases lo).

(** A literal under [(?i)]. *)
Fixpoint ilit (w : str) : re :=
  match w with
  | EmptyString => Eps
  | String c r => Cat (Chr (imatch c)) (ilit r)
  end.

End Re.

(** [MENU_ITEM_RE = re.compile(r"^\s*(\d+)\.\s*(.+)$")] *)
Definition MENU_ITEM_RE : Re.re :=
  Re.seq [Re.Bol; Re.Star Re.space; Re.Grp 1 (Re.plus Re.digit); Re.chr ".";
          Re.Star Re.space; Re.Grp 2 (Re.plus Re.dot); Re.Eol].

(** [PROMPT_KEYWORDS_RE =
     re.compile(r"(?i)\b(pilih|enter|family|kode|otp|nomor|number|pin|masuk)\b")] *)
Definition PROMPT_KEYWORDS_RE : Re.re :=
  Re.seq [Re.Wordb;
          Re.Grp 1 (Re.alts (map Re.ilit
            ["pilih"; "enter"; "family"; "kode"; "otp"; "nomor"; "number";
             "pin"; "masuk"]));
          Re.Wordb].

(** [ENDS_WITH_COLON_RE = re.compile(r".+:\s*$")] *)
Definition ENDS_WITH_COLON_RE : Re.re :=
  Re.seq [Re.plus Re.dot; Re.chr ":"; Re.Star Re.space; Re.Eol].

(** [ONLY_DIGITS_RE = re.compile(r"^\d{1,8}$")] *)
Definition ONLY_DIGITS_RE : Re.re :=
  Re.seq [Re.Bol; Re.digit; Re.upto 7 Re.digit; Re.Eol].

Definition is_some {A : Type} (o : option A) : bool :=
  match o with Some _ => true | None => false end.
(** ** Configuration *)

Definition BUFFER_FLUSH_IDLE : float := 5%float.
Definition FLUSHER_PERIOD : float := 0.5%float.
Definition TG_MAX : nat := 3800.

(** ** Menu normalization *)

(** [normalize_choice(num)] *)
Definition normalize_choice (num : str) : str :=
  let n := strip num in
  if str_eqb n "00" then "00"
  else if (len n =? 2) && startswith "0" n then
    match py_int n with
    | Some v => py_str v
    | None => n
    end
  else n.

Definition MenuItem : Type := (str * str)%type.

Definition is_back_label (label : str) : bool :=
  contains "kemb" (lower label) || contains "kembali" (lower label)
  || contains "utama" (lower label) || contains "back" (lower label).

(** The three [for] loops of [find_back_num], each returning from the
    function at its first hit. *)
Fixpoint scan_back_label (items : list MenuItem) : option str :=
  match items with
  | [] => None
  | (num, label) :: rest =>
      if is_back_label label then Some num else scan_back_label rest
  end.

Fixpoint scan_zero_code (items : list MenuItem) : option str :=
  match items with
  | [] => None
  | (num, _) :: rest =>
      if str_eqb num "00" || str_eqb num "0" then Some num
      else scan_zero_code rest
  end.

Fixpoint scan_99 (items : list MenuItem) : option str :=
  match items with
  | [] => None
  | (num, _) :: rest =>
      if str_eqb num "99" then Some num else scan_99 rest
  end.

(** [find_back_num(menu_items)] *)
Definition find_back_num (menu_items : list MenuItem) : str :=
  match scan_back_label menu_items with
  | Some num => num
  | None =>
      match scan_zero_code menu_items with
      | Some num => num
      | None =>
          match scan_99 menu_items with
          | Some num => num
          | None =>
              match menu_items with
              | (num, _) :: _ => num
              | [] => "99"
              end
          end
      end
  end.

(** ** Keyboards *)

Record Button : Type := mkButton { text : str; callback_data : str }.

(** An [InlineKeyboardMarkup]: rows of buttons. *)
Definition Markup : Type := list (list Button).

(** [main_bot_kb()] *)
Definition main_bot_kb : Markup :=
  [ [mkButton "▶️ Jalankan Tools" "bot_run"];
    [mkButton "ℹ️ Status Session" "bot_status"];
    [mkButton "📋 List Sessions" "bot_list";
     mkButton "🛑 Stop" "bot_stop";
     mkButton "♻️ Reset Session" "bot_reset"] ].

(** [label if len(label) <= 28 else label[:25] + '...'] *)
Definition short_label (label : str) : str :=
  if len label <=? 28 then label else slice label 0 25 ++ "...".

(** The button built for one entry in the loop of [menu_kb_from_items]. *)
Definition menu_button (item : MenuItem) : Button :=
  let '(num, label) := item in
  let display_num := normalize_choice num in
  mkButton (display_num ++ ". " ++ short_label label)
           ("menu_choice|" ++ normalize_choice num).

(** [[buttons[i:i+2] for i in range(0, len(buttons), 2)]] *)
Fixpoint rows_of_two (buttons : list Button) : list (list Button) :=
  match buttons with
  | [] => []
  | [b] => [[b]]
  | b1 :: b2 :: rest => [b1; b2] :: rows_of_two rest
  end.

(** [menu_kb_from_items(items)] *)
Definition menu_kb_from_items (items : list MenuItem) : Markup :=
  let buttons := map menu_button items in
  let rows := rows_of_two buttons in
  let back_num := find_back_num items in
  (rows ++ [[mkButton "⬅️ Menu Utama (Tools)" ("menu_back|" ++ normalize_choice back_num);
            mkButton "❌ Batal" "menu_cancel"]])%list.

(** ** Sessions *)

Definition Task : Type := nat.
Definition Writer : Type := nat.

(** The part of an [asyncio.subprocess.Process] that the bot reads. *)
Record Process : Type := mkProcess { pid : Z; returncode : option Z }.

Record Session : Type := mkSession {
  user_id : Z;
  chat_id : Z;
  proc : option Process;
  stdin_writer : option Writer;
  partial : str;
  buffer_lines : list str;
  menu_items : list MenuItem;
  last_output_time : float;
  awaiting_input : bool;
  last_prompt_time : option float;
  input_prompt_text : option str;
  reader_task : option Task;
  flusher_task : option Task
}.

(** [Session.is_running] *)
Definition is_running (s : Session) : bool :=
  match proc s with
  | Some p => match returncode p with None => true | Some _ => false end
  | None => false
  end.

Definition set_proc (v : option Process) (s : Session) : Session :=
  mkSession (user_id s) (chat_id s) v (stdin_writer s) (partial s)
    (buffer_lines s) (menu_items s) (last_output_time s) (awaiting_input s)
    (last_prompt_time s) (input_prompt_text s) (reader_task s) (flusher_task s).

Definition set_stdin_writer (v : option Writer) (s : Session) : Session :=
  mkSession (user_id s) (chat_id s) (proc s) v (partial s)
    (buffer_lines s) (menu_items s) (last_output_time s) (awaiting_input s)
    (last_prompt_time s) (input_prompt_text s) (reader_task s) (flusher_task s).

Definition set_partial (v : str) (s : Session) : Session :=
  mkSession (user_id s) (chat_id s) (proc s) (stdin_writer s) v
    (buffer_lines s) (menu_items s) (last_output_time s) (awaiting_input s)
    (last_prompt_time s) (input_prompt_text s) (reader_task s) (flusher_task s).

Definition set_buffer_lines (v : list str) (s : Session) : Session :=
  mkSession (user_id s) (chat_id s) (proc s) (stdin_writer s) (partial s)
    v (menu_items s) (last_output_time s) (awaiting_input s)
    (last_prompt_time s) (input_prompt_text s) (reader_task s) (flusher_task s).

Definition set_menu_items (v : list MenuItem) (s : Session) : Session :=
  mkSession (user_id s) (chat_id s) (proc s) (stdin_writer s) (partial s)
    (buffer_lines s) v (last_output_time s) (awaiting_input s)
    (last_prompt_time s) (input_prompt_text s) (reader_task s) (flusher_task s).

Definition set_last_output_time (v : float) (s : Session) : Session :=
  mkSession (user_id s) (chat_id s) (proc s) (stdin_writer s) (partial s)
    (buffer_lines s) (menu_items s) v (awaiting_input s)
    (last_prompt_time s) (input_prompt_text s) (reader_task s) (flusher_task s).

Definition set_awaiting_input (v : bool) (s : Session) : Session :=
  mkSession (user_id s) (chat_id s) (proc s) (stdin_writer s) (partial s)
    (buffer_lines s) (menu_items s) (last_output_time s) v
    (last_prompt_time s) (input_prompt_text s) (reader_task s) (flusher_task s).

Definition set_last_prompt_time (v : option float) (s : Session) : Session :=
  mkSession (user_id s) (chat_id s) (proc s) (stdin_writer s) (partial s)
    (buffer_lines s) (menu_items s) (last_output_time s) (awaiting_input s)
    v (input_prompt_text s) (reader_task s) (flusher_task s).

Definition set_input_prompt_text (v : option str) (s : Session) : Session :=
  mkSession (user_id s) (chat_id s) (proc s) (stdin_writer s) (partial s)
    (buffer_lines s) (menu_items s) (last_output_time s) (awaiting_input s)
    (last_prompt_time s) v (reader_task s) (flusher_task s).

Definition set_reader_task (v : option Task) (s : Session) : Session :=
  mkSession (user_id s) (chat_id s) (proc s) (stdin_writer s) (partial s)
    (buffer_lines s) (menu_items s) (last_output_time s) (awaiting_input s)
    (last_prompt_time s) (input_prompt_text s) v (flusher_task s).

Definition set_flusher_task (v : option Task) (s : Session) : Session :=
  mkSession (user_id s) (chat_id s) (proc s) (stdin_writer s) (partial s)
    (buffer_lines s) (menu_items s) (last_output_time s) (awaiting_input s)
    (last_prompt_time s) (input_prompt_text s) (reader_task s) v.

(** ** Effects *)

(** The exceptions the source tells apart: [asyncio.TimeoutError] and
    every other exception of class [Exception].  An outcome of a call is
    a return or one of these; [asyncio.CancelledError], which a call
    raises only when the running task is itself cancelled, is not among
    them: the development is about turns that are not cancelled. *)
Inductive Exn : Type := TimeoutError | OtherError.

Inductive Outcome : Type := Returns | Raises (e : Exn).

(** The calls that leave the program. *)
Inductive Call : Type :=
| SendMessage (chat : Z) (body : str) (reply_markup : option Markup)
| ReplyText (body : str) (reply_markup : option Markup)
| EditMessageText (body : str) (reply_markup : option Markup)
| AnswerCallback
| StdinWrite (w : Writer) (data : list byte)
| StdinDrain (w : Writer)
| ProcTerminate (p : Process)
| ProcWaitFor (p : Process) (timeout : Z)
| ProcKill (p : Process)
| ProcWait (p : Process)
| TaskCancel (t : Task)
| Sleep (d : float).

(** The environment: the successive readings of the loop clock and the
    outcomes of the successive calls. *)
Record Env : Type := mkEnv {
  clock : nat -> float;
  outcome : nat -> Outcome
}.

Record World : Type := mkWorld {
  sess : Session;
  reads : nat;                       (* clock readings taken so far *)
  calls : nat;                       (* calls made so far *)
  trace : list (Call * Outcome)      (* the calls made, oldest first *)
}.

Inductive Res (A : Type) : Type :=
| Ok (a : A)
| Err (e : Exn).
Arguments Ok {A} a.
Arguments Err {A} e.

(** State and exceptions. *)
Definition M (A : Type) : Type := World -> Res A * World.

Definition ret {A : Type} (a : A) : M A := fun w => (Ok a, w).

Definition bind {A B : Type} (m : M A) (f : A -> M B) : M B :=
  fun w =>
    match m w with
    | (Ok a, w') => f a w'
    | (Err e, w') => (Err e, w')
    end.

Declare Scope m_scope.
Delimit Scope m_scope with M.
Notation "x <- m ;; k" := (bind m (fun x => k))
  (at level 61, m at next level, right associativity) : m_scope.
Notation "m ;; k" := (bind m (fun _ => k))
  (at level 61, right associativity) : m_scope.
Local Open Scope m_scope.

Definition get : M Session := fun w => (Ok (sess w), w).

Definition modify (f : Session -> Session) : M unit :=
  fun w => (Ok tt, mkWorld (f (sess w)) (reads w) (calls w) (trace w)).

(** [try: m  except Exception: ...]: the exception, if any, is handed to
    the caller instead of propagating. *)
Definition attempt (m : M unit) : M Outcome :=
  fun w =>
    match m w with
    | (Ok _, w') => (Ok Returns, w')
    | (Err e, w') => (Ok (Raises e), w')
    end.

(** [try: m  except asyncio.TimeoutError: h] *)
Definition on_timeout (m h : M unit) : M unit :=
  fun w =>
    match m w with
    | (Err TimeoutError, w') => h w'
    | r => r
    end.

Definition when (b : bool) (m : M unit) : M unit := if b then m else ret tt.

(** [raise e] *)
Definition raise {A : Type} (e : Exn) : M A := fun w => (Err e, w).

(** [s.encode()]: the bytes, or [UnicodeEncodeError]. *)
Definition encoded (s : str) : M (list byte) :=
  match encode s with
  | Some data => ret data
  | None => raise OtherError
  end.

Definition nonempty (s : str) : bool :=
  match s with EmptyString => false | String _ _ => true end.

Definition has_items {A : Type} (l : list A) : bool :=
  match l with [] => false | _ :: _ => true end.

Section Bot.

Variable env : Env.

(** [asyncio.get_event_loop().time()] *)
Definition now : M float :=
  fun w => (Ok (clock env (reads w)),
            mkWorld (sess w) (S (reads w)) (calls w) (trace w)).

(** An outside call: recorded, and raising when the environment says so. *)
Definition call (c : Call) : M unit :=
  fun w =>
    let o := outcome env (calls w) in
    let w' := mkWorld (sess w) (reads w) (S (calls w)) (trace w ++ [(c, o)])%list in
    match o with
    | Returns => (Ok tt, w')
    | Raises e => (Err e, w')
    end.

(** *** Outbound messages *)

(** The end of the chunk that starts at [start]: the limit, or the
    position after the last line feed before the limit when the text
    goes on beyond the limit and that line feed is not at [start]. *)
Definition chunk_end (txt : str) (start : nat) : nat :=
  let l := len txt in
  let end0 := Nat.min l (start + TG_MAX) in
  if end0 <? l then
    match rfind_nl txt start end0 with
    | Some nl => if start <? nl then nl + 1 else end0
    | None => end0
    end
  else end0.

(** The [while start < l] loop of [send_long_message]; [fuel] bounds
    the number of iterations. *)
Fixpoint send_chunks (fuel : nat) (chat : Z) (txt : str)
    (reply_markup : option Markup) (start : nat) (first : bool) : M unit :=
  match fuel with
  | O => ret tt
  | S fuel' =>
      let l := len txt in
      if start <? l then
        let end_ := chunk_end txt start in
        let chunk := slice txt start end_ in
        if first && is_some reply_markup then
          r <- attempt (call (SendMessage chat chunk reply_markup)) ;;
          send_chunks fuel' chat txt reply_markup end_
            (match r with Returns => false | Raises _ => first end)
        else
          _ <- attempt (call (SendMessage chat chunk None)) ;;
          send_chunks fuel' chat txt reply_markup end_ first
      else ret tt
  end.

(** [send_long_message(bot, chat_id, text, reply_markup)] *)
Definition send_long_message (chat : Z) (txt : str)
    (reply_markup : option Markup) : M unit :=
  if nonempty txt then
    send_chunks (len txt) chat txt reply_markup 0 true
  else ret tt.

(** *** The classifier *)

Definition is_continue_line (line : str) : bool :=
  contains "press enter to continue" (lower line)
  || contains "press any key to continue" (lower line).

Definition looks_like_prompt (line : str) : bool :=
  is_some (Re.rmatch ENDS_WITH_COLON_RE line)
  || is_some (Re.search PROMPT_KEYWORDS_RE line)
  || is_some (Re.rmatch ONLY_DIGITS_RE line).

(** [_process_line(session, line, is_partial)] *)
Definition process_line (line : str) (is_partial : bool) : M unit :=
  if negb (nonempty line) then ret tt
  else if is_continue_line line then
    s <- get ;;
    match stdin_writer s with
    | Some w =>
        _ <- attempt (call (StdinWrite w [x0a]) ;; call (StdinDrain w)) ;;
        ret tt
    | None => ret tt
    end
  else
    match Re.rmatch MENU_ITEM_RE line with
    | Some m =>
        let num := strip (Re.group 1 m) in
        let label := strip (Re.group 2 m) in
        modify (fun s => set_menu_items (menu_items s ++ [(num, label)])%list s)
    | None =>
        modify (fun s => set_buffer_lines (buffer_lines s ++ [line])%list s) ;;
        t <- now ;;
        modify (set_last_output_time t) ;;
        let is_prompt := is_partial || looks_like_prompt line in
        when is_prompt
          (modify (set_awaiting_input true) ;;
           t' <- now ;;
           modify (set_last_prompt_time (Some t')) ;;
           modify (set_input_prompt_text (Some line)))
    end.

(** *** Flushing *)

Definition MENU_HEADING : str := "📋 Menu:" ++ nl.

(** ["\n".join([f"{n}. {l}" for n, l in menu])] *)
Definition menu_text (menu : list MenuItem) : str :=
  join nl (map (fun item : MenuItem => fst item ++ ". " ++ snd item) menu).

(** The text of the combined message of a flush with a menu. *)
Definition full_text (txt : str) (menu : list MenuItem) : str :=
  if nonempty txt then txt ++ nl ++ nl ++ MENU_HEADING ++ menu_text menu
  else MENU_HEADING ++ menu_text menu.

(** [_flush_buffer_and_menu(session, context)] *)
Definition flush_buffer_and_menu : M unit :=
  s <- get ;;
  if negb (has_items (buffer_lines s)) && negb (has_items (menu_items s))
  then ret tt
  else
    let lines := buffer_lines s in
    modify (set_buffer_lines []) ;;
    let menu := menu_items s in
    modify (set_menu_items []) ;;
    let txt := strip (join nl lines) in
    if has_items menu then
      send_long_message (chat_id s) (full_text txt menu)
        (Some (menu_kb_from_items menu))
    else
      when (nonempty txt) (send_long_message (chat_id s) txt None).

(** One turn of the [while True] loop of [_flusher_loop], after its
    [asyncio.sleep(0.5)] has returned. *)
Definition flusher_pass : M unit :=
  s <- get ;;
  if has_items (buffer_lines s) || has_items (menu_items s) then
    t <- now ;;
    let idle := PrimFloat.sub t (last_output_time s) in
    when (PrimFloat.leb BUFFER_FLUSH_IDLE idle) flush_buffer_and_menu
  else ret tt.

(** [_flusher_loop], cancelled after [turns] turns. *)
Fixpoint flusher_loop (turns : nat) : M unit :=
  match turns with
  | O => ret tt
  | S n => call (Sleep FLUSHER_PERIOD) ;; flusher_pass ;; flusher_loop n
  end.

(** *** The reader *)

(** The [while "\n" in session.partial] loop of [_reader_loop]. *)
Fixpoint line_loop (fuel : nat) : M unit :=
  match fuel with
  | O => ret tt
  | S fuel' =>
      s <- get ;;
      match split_nl (partial s) with
      | Some (line, rest) =>
          modify (set_partial rest) ;;
          process_line (rstrip_chars (String CR EmptyString) line) false ;;
          line_loop fuel'
      | None => ret tt
      end
  end.

(** The body of the [while True] loop of [_reader_loop] for one
    non-empty chunk [data] returned by [reader.read(1024)]. *)
Definition reader_chunk (data : list byte) : M unit :=
  let s := decode data in
  modify (fun ss => set_partial (partial ss ++ s) ss) ;;
  t <- now ;;
  modify (set_last_output_time t) ;;
  ss <- get ;;
  line_loop (len (partial ss)) ;;
  ss' <- get ;;
  let p := strip (partial ss') in
  when (nonempty p && looks_like_prompt p)
    (process_line p true ;; modify (set_partial EmptyString)).

(** The end of [_reader_loop], once [reader.read] has returned no data. *)
Definition reader_eof : M unit :=
  s <- get ;;
  when (nonempty (partial s))
    (process_line (rstrip_chars (String CR (String LF EmptyString)) (partial s)) true ;;
     modify (set_partial EmptyString)) ;;
  flush_buffer_and_menu ;;
  send_long_message (chat_id s) "🔚 Proses tool selesai." (Some main_bot_kb).

(** [_reader_loop] on the successive results [stream] of
    [reader.read(1024)]: the loop ends at the first empty one, and at
    the end of [stream], where the child has closed its output.  Reads
    are taken to succeed: the branch [except Exception] of the source is
    not reached. *)
Fixpoint reader_loop (stream : list (list byte)) : M unit :=
  match stream with
  | [] => reader_eof
  | [] :: _ => reader_eof
  | data :: rest => reader_chunk data ;; reader_loop rest
  end.

(** *** The process supervisor *)

Definition cancel_if_set (t : option Task) : M unit :=
  match t with
  | Some t => _ <- attempt (call (TaskCancel t)) ;; ret tt
  | None => ret tt
  end.

(** [_cancel_tasks(session)] *)
Definition cancel_tasks : M unit :=
  s <- get ;;
  cancel_if_set (reader_task s) ;;
  cancel_if_set (flusher_task s) ;;
  modify (set_reader_task None) ;;
  modify (set_flusher_task None) ;;
  modify (set_proc None) ;;
  modify (set_stdin_writer None).

Definition GRACE_PERIOD : Z := 3%Z.

Definition NOTHING_RUNNING : str := "ℹ️ Tidak ada tool berjalan.".
Definition TOOL_STOPPED : str := "🛑 Tool dihentikan.".

(** [stop_tool(session, context)] *)
Definition stop_tool : M unit :=
  s <- get ;;
  match proc s with
  | Some p =>
      if negb (is_running s) then
        call (SendMessage (chat_id s) NOTHING_RUNNING (Some main_bot_kb))
      else
        _ <- attempt
               (call (ProcTerminate p) ;;
                on_timeout (call (ProcWaitFor p GRACE_PERIOD))
                           (call (ProcKill p) ;; call (ProcWait p))) ;;
        cancel_tasks ;;
        call (SendMessage (chat_id s) TOOL_STOPPED (Some main_bot_kb))
  | None =>
      call (SendMessage (chat_id s) NOTHING_RUNNING (Some main_bot_kb))
  end.

(** [reset_session(session, context)] *)
Definition reset_session : M unit :=
  stop_tool ;;
  modify (set_partial EmptyString) ;;
  modify (set_buffer_lines []) ;;
  modify (set_menu_items []) ;;
  modify (set_awaiting_input false) ;;
  modify (set_last_prompt_time None) ;;
  modify (set_input_prompt_text None) ;;
  s <- get ;;
  call (SendMessage (chat_id s) "♻️ Session di-reset." (Some main_bot_kb)).

(** *** The input router *)

(** The bookkeeping cleared after input has reached the child. *)
Definition clear_prompt : M unit :=
  modify (set_awaiting_input false) ;;
  modify (set_last_prompt_time None) ;;
  modify (set_input_prompt_text None).

Definition SEND_FAILED : str := "❌ Gagal mengirim input ke tool.".
Definition NOT_RUNNING : str :=
  "❌ Tool belum berjalan. Tekan ▶️ Jalankan Tools.".

(** [text_handler(update, context)], on the session of the sender;
    [message_text] is [update.message.text]. *)
Definition text_handler (message_text : option str) : M unit :=
  let txt := strip (match message_text with Some t => t | None => EmptyString end) in
  s <- get ;;
  match stdin_writer s with
  | Some w =>
      if is_running s then
        r <- attempt
               (data <- encoded (txt ++ nl) ;;
                call (StdinWrite w data) ;;
                call (StdinDrain w) ;;
                clear_prompt) ;;
        match r with
        | Returns => ret tt
        | Raises _ =>
            _ <- attempt (call (ReplyText SEND_FAILED (Some main_bot_kb))) ;;
            ret tt
        end
      else call (ReplyText NOT_RUNNING (Some main_bot_kb))
  | None => call (ReplyText NOT_RUNNING (Some main_bot_kb))
  end.

(** The branches [menu_choice|] and [menu_back|] of [callback_handler]:
    the code after the bar is written to the child. *)
Definition route_code (data : str) : M unit :=
  match after_bar data with
  | Some num =>
      s <- get ;;
      match stdin_writer s with
      | Some w =>
          if is_running s then
            _ <- attempt
                   (data <- encoded (num ++ nl) ;;
                    call (StdinWrite w data) ;;
                    call (StdinDrain w) ;;
                    clear_prompt) ;;
            ret tt
          else ret tt
      | None => ret tt
      end
  | None => ret tt
  end.

(** The commands of the bot's own keyboard that are outside this
    development: starting the tool and the two status displays. *)
Variable start_tool : M unit.
Variable show_status : M unit.
Variable show_sessions : M unit.

(** [callback_handler(update, context)], on the session of the sender;
    [data] is [update.callback_query.data]. *)
Definition callback_handler (data : option str) : M unit :=
  match data with
  | None => ret tt
  | Some EmptyString => ret tt
  | Some data =>
      call AnswerCallback ;;
      if str_eqb data "bot_run" then start_tool
      else if str_eqb data "bot_stop" then stop_tool
      else if str_eqb data "bot_reset" then reset_session
      else if str_eqb data "bot_status" then show_status
      else if str_eqb data "bot_list" then show_sessions
      else if startswith "menu_choice|" data then route_code data
      else if startswith "menu_back|" data then route_code data
      else if str_eqb data "menu_cancel" then
        _ <- attempt (call (EditMessageText "❌ Menu ditutup." (Some main_bot_kb))) ;;
        modify (set_menu_items []) ;;
        modify (set_awaiting_input false)
      else ret tt
  end.

End Bot.

(** ** Vocabulary of the statements *)

(** The ASCII digit of value [d], as a text of one character. *)
Definition ascii_digit (d : N) : str := String (48 + d)%N EmptyString.

(** The two-character codes with a leading zero and their short forms. *)
Definition leading_zero_codes : list (str * str) :=
  [("01", "1"); ("02", "2"); ("03", "3"); ("04", "4"); ("05", "5");
   ("06", "6"); ("07", "7"); ("08", "8"); ("09", "9")].

(** No entry of [items] carries a back keyword in its label. *)
Definition no_back_label (items : list MenuItem) : Prop :=
  Forall (fun it : MenuItem => is_back_label (snd it) = false) items.

(** No entry of [items] is coded ["00"] or ["0"]. *)
Definition no_zero_code (items : list MenuItem) : Prop :=
  Forall (fun it : MenuItem => fst it <> "00" /\ fst it <> "0") items.

(** The world after the session has been changed by [f]; after one more
    clock reading. *)
Definition with_sess (f : Session -> Session) (w : World) : World :=
  mkWorld (f (sess w)) (reads w) (calls w) (trace w).

Definition tick (w : World) : World :=
  mkWorld (sess w) (S (reads w)) (calls w) (trace w).

(** The data written to the child's input, and the bodies of the
    messages sent to the chat, in a trace. *)
Definition write_of (e : Call * Outcome) : list (list byte) :=
  match fst e with StdinWrite _ d => [d] | _ => [] end.

Definition stdin_writes (tr : list (Call * Outcome)) : list (list byte) :=
  flat_map write_of tr.

Definition body_of (e : Call * Outcome) : list str :=
  match fst e with SendMessage _ b _ => [b] | _ => [] end.

Definition sent_bodies (tr : list (Call * Outcome)) : list str :=
  flat_map body_of tr.

(** The texts cut by the loop of [send_chunks], the sends left out. *)
Fixpoint chunks_from (fuel : nat) (txt : str) (start : nat) : list str :=
  match fuel with
  | O => []
  | S fuel' =>
      if start <? len txt then
        slice txt start (chunk_end txt start)
          :: chunks_from fuel' txt (chunk_end txt start)
      else []
  end.

(** [txt] has a line feed at index [i]. *)
Definition lf_at (txt : str) (i : nat) : Prop := char_at i txt = Some LF.

(** [chunk] is cut from [txt] at [start] as the sender cuts: it is the
    rest of the text when that fits the limit; otherwise it ends after
    the last line feed of the window of [TG_MAX] characters, provided
    that line feed lies after [start], and is the whole window when
    there is none. *)
Definition well_cut (txt : str) (start : nat) (chunk : str) : Prop :=
  let n := len chunk in
  chunk = slice txt start (start + n) /\
  1 <= n <= TG_MAX /\
  (start + n = len txt
   \/ (start + TG_MAX < len txt /\
       ((2 <= n /\ lf_at txt (start + n - 1) /\
         forall i, start + n <= i < start + TG_MAX -> ~ lf_at txt i)
        \/ (n = TG_MAX /\
            forall i, start < i < start + TG_MAX -> ~ lf_at txt i)))).

(** [chunks] are consecutive well-cut chunks that cover [txt] from [start]. *)
Fixpoint cut_from (txt : str) (start : nat) (chunks : list str) : Prop :=
  match chunks with
  | [] => start = len txt
  | c :: rest => well_cut txt start c /\ cut_from txt (start + len c) rest
  end.

(** [lines], each followed by its line feed. *)
Fixpoint unlines (lines : list str) : str :=
  match lines with
  | [] => EmptyString
  | l :: rest => l ++ nl ++ unlines rest
  end.

(** The complete lines [lines] handed to the classifier one after the
    other, in this order. *)
Fixpoint classify_all (env : Env) (lines : list str) : M unit :=
  match lines with
  | [] => ret tt
  | l :: rest => bind (process_line env l false) (fun _ => classify_all env rest)
  end.

(** The signals of a graceful stop of the child [p]: a request to
    terminate, a wait bounded by the grace period, and a kill, followed
    by a wait, only when the grace period has run out.  A failing call
    ends the sequence. *)
Inductive graceful_stop (p : Process) : list (Call * Outcome) -> Prop :=
| stop_terminate_fails (e : Exn) :
    graceful_stop p [(ProcTerminate p, Raises e)]
| stop_exits_in_time :
    graceful_stop p [(ProcTerminate p, Returns);
                     (ProcWaitFor p GRACE_PERIOD, Returns)]
| stop_wait_fails :
    graceful_stop p [(ProcTerminate p, Returns);
                     (ProcWaitFor p GRACE_PERIOD, Raises OtherError)]
| stop_kill_fails (e : Exn) :
    graceful_stop p [(ProcTerminate p, Returns);
                     (ProcWaitFor p GRACE_PERIOD, Raises TimeoutError);
                     (ProcKill p, Raises e)]
| stop_killed (o : Outcome) :
    graceful_stop p [(ProcTerminate p, Returns);
                     (ProcWaitFor p GRACE_PERIOD, Raises TimeoutError);
                     (ProcKill p, Returns);
                     (ProcWait p, o)].

(** The idle time as a turn of the scheduler in the world [w] computes
    it: the clock reading minus the time of the last output, in floats. *)
Definition idle_time (env : Env) (w : World) : float :=
  PrimFloat.sub (clock env (reads w)) (last_output_time (sess w)).

(** The tasks a session holds, reader first. *)
Definition tasks_of (s : Session) : list Task :=
  (match reader_task s with Some t => [t] | None => [] end ++
   match flusher_task s with Some t => [t] | None => [] end)%list.

(** The session with its handles and tasks cleared. *)
Definition handles_cleared (s : Session) : Session :=
  set_stdin_writer None (set_proc None (set_flusher_task None (set_reader_task None s))).

(** The session with its prompt bookkeeping cleared. *)
Definition prompt_cleared (s : Session) : Session :=
  set_input_prompt_text None (set_last_prompt_time None (set_awaiting_input false s)).

(** ** Sample environments and sessions *)

(** Every call returns; the clock advances by half a second a reading. *)
Definition half_seconds (n : nat) : float :=
  (PrimFloat.of_uint63 (Uint63.of_Z (Z.of_nat n)) * 0.5)%float.

Definition calm : Env := mkEnv half_seconds (fun _ => Returns).

(** As [calm], but the call number [k] raises. *)
Definition failing_at (k : nat) : Env :=
  mkEnv half_seconds
        (fun n => if n =? k then Raises OtherError else Returns).

(** A session as [SESSIONS.setdefault] creates it. *)
Definition new_session : Session :=
  mkSession 1001 2002 None None "" [] [] 0%float false None None None None.

(** A session as [start_tool] leaves it. *)
Definition started_session : Session :=
  mkSession 1001 2002 (Some (mkProcess 4242 None)) (Some 1) "" [] [] 0%float
    false None None (Some 1) (Some 2).

(** The session of a tool that has exited on its own. *)
Definition exited_session : Session :=
  set_proc (Some (mkProcess 4242 (Some 0%Z))) started_session.

Definition world_of (s : Session) : World := mkWorld s 0 0 [].

(** A text of [n] lines [0123456789], each with its line feed. *)
Fixpoint ten_digit_lines (n : nat) : str :=
  match n with
  | O => EmptyString
  | S m => "0123456789" ++ nl ++ ten_digit_lines m
  end.

(** The UTF-8 bytes of a text, and the three lines of the example. *)
Definition bytes (s : str) : list byte := utf8 s.

Definition a_b_c : str := "a" ++ nl ++ "b" ++ nl ++ "c".

(** Unfolding of the monad's operations. *)
Ltac munfold :=
  unfold bind, ret, get, modify, when, attempt, on_timeout, now, call.

(** Settles the comparisons of numbers in the goal by linear arithmetic. *)
Ltac decide_tests :=
  repeat match goal with
  | |- context [(?a <? ?b)%N] =>
      first [ replace (a <? b)%N with true by (symmetry; apply N.ltb_lt; lia)
            | replace (a <? b)%N with false by (symmetry; apply N.ltb_ge; lia) ]
  | |- context [(?a <=? ?b)%N] =>
      first [ replace (a <=? b)%N with true by (symmetry; apply N.leb_le; lia)
            | replace (a <=? b)%N with false by (symmetry; apply N.leb_gt; lia) ]
  | |- context [(?a =? ?b)%N] =>
      first [ replace (a =? b)%N with true by (symmetry; apply N.eqb_eq; lia)
            | replace (a =? b)%N with false by (symmetry; apply N.eqb_neq; lia) ]
  end.

(** ** Vocabulary of the further properties *)

(** The identity of a session and the handles that only the supervisor
    writes are the same in [s] and [s']. *)
Definition same_handles (s s' : Session) : Prop :=
  user_id s' = user_id s /\ chat_id s' = chat_id s /\
  proc s' = proc s /\ stdin_writer s' = stdin_writer s /\
  reader_task s' = reader_task s /\ flusher_task s' = flusher_task s.

(** From [w] to [w'] the two buffers have only been appended to, nothing
    has been sent to the chat, and identity and handles are untouched. *)
Definition grows (w w' : World) : Prop :=
  same_handles (sess w) (sess w') /\
  (exists lines, buffer_lines (sess w') = (buffer_lines (sess w) ++ lines)%list) /\
  (exists entries, menu_items (sess w') = (menu_items (sess w) ++ entries)%list) /\
  (exists made, trace w' = (trace w ++ made)%list /\ sent_bodies made = []).

(** The session with both buffers emptied. *)
Definition drained (s : Session) : Session :=
  set_menu_items [] (set_buffer_lines [] s).

(** The text a flush of the session [s] has to deliver: the buffered
    lines joined and stripped, followed by the menu block when there is
    a menu; empty when there is nothing to say. *)
Definition flush_text (s : Session) : str :=
  if has_items (menu_items s)
  then full_text (strip (join nl (buffer_lines s))) (menu_items s)
  else strip (join nl (buffer_lines s)).

(** ** Starting the tool *)

(** [TOOLS_FILE]: [HOME_DIR] joined with [me-cli] and [main.py]. *)
Definition TOOLS_FILE : str := "/data/data/com.termux/files/home/me-cli/main.py".

(** What [asyncio.create_subprocess_exec] gives: the new process with
    its input pipe, or an exception with its text. *)
Inductive Spawned : Type :=
| SpawnOk (p : Process) (stdin : Writer)
| SpawnFails (message : str).

Definition ALREADY_RUNNING : str := "⚠️ Tool sudah berjalan.".

(** [start_tool(session, context)].  What the function learns from the
    system is given to it: [tool_present] is [os.path.isfile(TOOLS_FILE)],
    [spawned] the result of creating the subprocess, [reader] and
    [flusher] the two tasks made by [asyncio.create_task]. *)
Definition start_tool (env : Env) (tool_present : bool) (spawned : Spawned)
    (reader flusher : Task) : M unit :=
  bind get (fun s =>
  if is_running s then
    call env (SendMessage (chat_id s) ALREADY_RUNNING (Some main_bot_kb))
  else if negb tool_present then
    call env (SendMessage (chat_id s)
                ("❌ File tool tidak ditemukan: " ++ TOOLS_FILE) (Some main_bot_kb))
  else
    match spawned with
    | SpawnFails message =>
        call env (SendMessage (chat_id s)
                    ("❌ Gagal menjalankan tool: " ++ message) (Some main_bot_kb))
    | SpawnOk p stdin =>
        bind (modify (set_proc (Some p))) (fun _ =>
        bind (modify (set_stdin_writer (Some stdin))) (fun _ =>
        bind (modify (set_partial EmptyString)) (fun _ =>
        bind (modify (set_buffer_lines [])) (fun _ =>
        bind (modify (set_menu_items [])) (fun _ =>
        bind (now env) (fun t =>
        bind (modify (set_last_output_time t)) (fun _ =>
        bind (modify (set_awaiting_input false)) (fun _ =>
        bind (modify (set_last_prompt_time None)) (fun _ =>
        bind (modify (set_input_prompt_text None)) (fun _ =>
        bind (modify (set_reader_task (Some reader))) (fun _ =>
        bind (modify (set_flusher_task (Some flusher))) (fun _ =>
        call env (SendMessage (chat_id s)
                    ("▶️ Tool dijalankan (PID " ++ py_str (pid p) ++ ")")
                    (Some main_bot_kb))))))))))))))
    end).

(** The character before the position reached after reading [a],
    starting after [prev]. *)
Fixpoint last_char (prev : option char) (a : str) : option char :=
  match a with
  | EmptyString => prev
  | String c r => last_char (Some c) r
  end.

(** Every character of [s] is of the class [p]. *)
Definition all_of (p : char -> bool) (s : str) : Prop :=
  Forall (fun c => p c = true) (chars s).

(** [s] is empty or starts with a character outside the class [p]. *)
Definition stops (p : char -> bool) (s : str) : Prop :=
  match s with
  | EmptyString => True
  | String c _ => p c = false
  end.

(** * Properties *)

(** ** Strings *)

Lemma rstrip_by_last (p : char -> bool) :
  forall s t c, rstrip_by p s = t ++ String c EmptyString -> p c = false.
Proof.
  induction s as [|a s IH]; intros t c H; simpl in H.
  - destruct t; discriminate.
  - destruct (rstrip_by p s) as [|b u] eqn:E.
    + destruct (p a) eqn:Pa.
      * destruct t; discriminate.
      * destruct t as [|x t]; simpl in H.
        -- injection H as ->. exact Pa.
        -- injection H as _ H. destruct t; discriminate.
    + destruct t as [|x t]; simpl in H.
      * discriminate.
      * injection H as _ H. exact (IH t c H).
Qed.

Lemma strip_two_last : forall num a c,
  strip num = String a (String c EmptyString) -> is_space c = false.
Proof.
  intros num a c H. unfold strip in H.
  exact (rstrip_by_last is_space (lstrip_by is_space num) (String a EmptyString) c H).
Qed.

Lemma length_two : forall n : str,
  len n = 2 -> exists a c, n = String a (String c EmptyString).
Proof.
  intros [|a [|c [|d r]]] H; try discriminate. eauto.
Qed.

Lemma str_eqb_refl : forall s : str, str_eqb s s = true.
Proof.
  induction s as [|c s IH]; simpl; [reflexivity|].
  rewrite N.eqb_refl, IH. reflexivity.
Qed.

Lemma str_eqb_eq : forall s t : str, str_eqb s t = true <-> s = t.
Proof.
  induction s as [|a s IH]; intros [|b t]; simpl; split; intro H;
    try reflexivity; try discriminate.
  - apply andb_true_iff in H. destruct H as [Hc Hs].
    apply N.eqb_eq in Hc. apply IH in Hs. subst. reflexivity.
  - injection H as -> ->. rewrite N.eqb_refl. apply str_eqb_refl.
Qed.

Lemma str_eqb_neq : forall s t : str, str_eqb s t = false <-> s <> t.
Proof.
  intros s t. split.
  - intros H E. subst. rewrite str_eqb_refl in H. discriminate.
  - intro H. destruct (str_eqb s t) eqn:E; [|reflexivity].
    apply str_eqb_eq in E. contradiction.
Qed.

(** ** Character classes *)

Lemma in_ranges_points : forall rs c,
  in_ranges rs c = true ->
  exists lo hi, In (lo, hi) rs /\ (lo <= c <= hi)%N.
Proof.
  induction rs as [|[lo hi] rs IH]; intros c H; simpl in H.
  - discriminate.
  - apply orb_true_iff in H. destruct H as [H | H].
    + apply andb_true_iff in H. destruct H as [H1 H2].
      apply N.leb_le in H1, H2. exists lo, hi. split; [left; reflexivity | lia].
    + destruct (IH c H) as (lo' & hi' & Hin & Hc).
      exists lo', hi'. split; [right; exact Hin | exact Hc].
Qed.

(** White space as [int()] skips it is white space for [str.strip]. *)
Lemma int_space_is_space : forall c, is_int_space c = true -> is_space c = true.
Proof.
  intros c H. unfold is_int_space in H.
  destruct (c <? 127)%N eqn:L; [|exact H].
  unfold is_space, SPACE. cbn [in_ranges].
  unfold between in H.
  apply orb_true_iff in H. destruct H as [H | H].
  - rewrite H. reflexivity.
  - apply N.eqb_eq in H. subst c. reflexivity.
Qed.

Lemma digit_in_lt : forall rs c d, digit_in rs c = Some d -> (d < 10)%N.
Proof.
  induction rs as [|[lo hi] rs IH]; intros c d H; simpl in H.
  - discriminate.
  - destruct ((lo <=? c) && (c <=? hi))%N.
    + injection H as <-. apply N.mod_lt. discriminate.
    + exact (IH c d H).
Qed.

Lemma digit_value_lt : forall c d, digit_value c = Some d -> (d < 10)%N.
Proof. intros c d. apply digit_in_lt. Qed.

Lemma digit_in_ranges : forall rs c,
  in_ranges rs c = match digit_in rs c with Some _ => true | None => false end.
Proof.
  induction rs as [|[lo hi] rs IH]; intro c; simpl.
  - reflexivity.
  - destruct ((lo <=? c) && (c <=? hi))%N; [reflexivity | apply IH].
Qed.

(** A decimal digit is a character with a digit value. *)
Lemma is_digit_value : forall c,
  is_digit c = match digit_value c with Some _ => true | None => false end.
Proof. intro c. apply digit_in_ranges. Qed.

Lemma py_str_digit : forall d, (d < 10)%N -> py_str (Z.of_N d) = ascii_digit d.
Proof.
  intros d H.
  assert (E : (d = 0 \/ d = 1 \/ d = 2 \/ d = 3 \/ d = 4 \/ d = 5 \/ d = 6
               \/ d = 7 \/ d = 8 \/ d = 9)%N) by lia.
  repeat (destruct E as [E | E]; [subst d; reflexivity|]).
  subst d. reflexivity.
Qed.

(** ** Menu normalization *)

(** [int()] on a zero followed by one character that is not white space. *)
Lemma py_int_zero_pair : forall c : char,
  is_space c = false ->
  py_int (String "0" (String c EmptyString))
  = match digit_value c with Some d => Some (Z.of_N d) | None => None end.
Proof.
  intros c Hc.
  assert (Hi : is_int_space c = false).
  { destruct (is_int_space c) eqn:E; [|reflexivity].
    apply int_space_is_space in E. congruence. }
  unfold py_int.
  assert (L : lstrip_by is_int_space (String "0" (String c EmptyString))
              = String "0" (String c EmptyString)) by reflexivity.
  rewrite L.
  assert (R : rstrip_by is_int_space (String "0" (String c EmptyString))
              = String "0" (String c EmptyString)).
  { cbn [rstrip_by]. rewrite Hi. reflexivity. }
  rewrite R.
  change (digit_value "0") with (Some 0%N).
  cbn [int_digits].
  destruct (digit_value c) as [d|] eqn:D.
  - cbn [int_digits]. reflexivity.
  - destruct ((c =? "_"%chr)%N && negb false); reflexivity.
Qed.

(** What [normalize_choice] returns, by the stripped input. *)
Lemma normalize_choice_cases : forall num : str,
  normalize_choice num =
    match strip num with
    | String "0" (String c EmptyString) =>
        if (c =? "0"%chr)%N then strip num
        else match digit_value c with
             | Some d => ascii_digit d
             | None => strip num
             end
    | n => n
    end.
Proof.
  intro num. unfold normalize_choice.
  destruct (str_eqb (strip num) "00") eqn:Z.
  - apply str_eqb_eq in Z. rewrite Z. reflexivity.
  - destruct (strip num) as [|a [|c [|d r]]] eqn:E; try reflexivity.
    + cbn [len Nat.eqb andb]. destruct a as [|p]; [reflexivity|].
      repeat (destruct p as [p|p|]; try reflexivity).
    + pose proof (strip_two_last _ _ _ E) as Sp.
      destruct (a =? "0"%chr)%N eqn:A.
      * apply N.eqb_eq in A. subst a.
        change (len "0"%str) with 1.
        cbn [len Nat.eqb andb startswith]. rewrite N.eqb_refl. cbn [andb].
        rewrite (py_int_zero_pair c Sp).
        destruct (c =? "0"%chr)%N eqn:C.
        -- apply N.eqb_eq in C. subst c. cbn in Z. discriminate.
        -- destruct (digit_value c) as [d|] eqn:D; [|reflexivity].
           apply py_str_digit. exact (digit_value_lt c d D).
      * assert (Hs : startswith "0" (String a (String c EmptyString)) = false).
        { cbn [startswith]. rewrite N.eqb_sym, A. reflexivity. }
        rewrite Hs, andb_false_r.
        destruct a as [|p]; [reflexivity|].
        repeat (destruct p as [p|p|]; try reflexivity).
        rewrite N.eqb_refl in A. discriminate.
    + cbn [len Nat.eqb andb]. destruct a as [|p]; [reflexivity|].
      repeat (destruct p as [p|p|]; try reflexivity).
Qed.

(** C4 (as amended).  [normalize_choice] works on the input stripped of
    surrounding white space.  A stripped code made of ["0"] and one
    decimal digit other than the ASCII zero becomes the ASCII digit of
    that value: ["01"] .. ["09"] become ["1"] .. ["9"], and so does a
    zero followed by a digit of another script.  Every other stripped
    code, ["00"] included, is returned as it is, so an input without
    surrounding white space that is not of that form comes back
    unchanged; in particular ["00"], ["10"] and ["0"] are kept. *)
Theorem normalize_choice_spec : forall num : str,
  (forall c d, strip num = String "0" (String c "") -> c <> "0"%chr ->
     digit_value c = Some d -> normalize_choice num = ascii_digit d) /\
  (forall raw short, In (raw, short) leading_zero_codes ->
     strip num = raw -> normalize_choice num = short) /\
  ((forall c d, strip num = String "0" (String c "") ->
      digit_value c = Some d -> c = "0"%chr) ->
     normalize_choice num = strip num) /\
  (strip num = num ->
   (forall c d, num = String "0" (String c "") ->
      digit_value c = Some d -> c = "0"%chr) ->
     normalize_choice num = num) /\
  normalize_choice "00" = "00" /\
  normalize_choice "10" = "10" /\
  normalize_choice "0" = "0".
Proof.
  intro num.
  assert (Other : (forall c d, strip num = String "0" (String c "") ->
                     digit_value c = Some d -> c = "0"%chr) ->
                  normalize_choice num = strip num).
  { intro H. rewrite normalize_choice_cases.
    destruct (strip num) as [|a [|c [|x r]]] eqn:E; try reflexivity;
      try (destruct a as [|p]; [reflexivity|];
           repeat (destruct p as [p|p|]; try reflexivity)).
    destruct (c =? "0"%chr)%N eqn:C; [reflexivity|].
    destruct (digit_value c) as [d|] eqn:D; [|reflexivity].
    apply N.eqb_neq in C. exfalso. apply C. exact (H c d eq_refl D). }
  repeat split.
  - intros c d Hs Hc Hd. rewrite normalize_choice_cases, Hs.
    apply N.eqb_neq in Hc. rewrite Hc, Hd. reflexivity.
  - intros raw short Hin Hs. rewrite normalize_choice_cases, Hs.
    unfold leading_zero_codes in Hin. simpl in Hin.
    repeat (destruct Hin as [Hin | Hin];
            [injection Hin as <- <-; vm_compute; reflexivity|]).
    contradiction.
  - exact Other.
  - intros Hs H. rewrite <- Hs at 2. apply Other. rewrite Hs. exact H.
Qed.

(** At ["  02 "], a padded leading-zero code; at a zero followed by the
    Arabic-Indic digit three; at ["10"] and ["7"]. *)
Lemma normalize_choice_spec_witness :
  normalize_choice "  02 " = "2" /\ normalize_choice "0٣" = "3" /\
  normalize_choice "10" = strip "10" /\ normalize_choice "7" = "7".
Proof.
  split; [|split; [|split]].
  - apply (proj1 (proj2 (normalize_choice_spec "  02 ")) "02" "2").
    + simpl. tauto.
    + vm_compute. reflexivity.
  - apply (proj1 (normalize_choice_spec "0٣") "٣"%chr 3%N).
    + vm_compute. reflexivity.
    + discriminate.
    + vm_compute. reflexivity.
  - apply (proj1 (proj2 (proj2 (normalize_choice_spec "10")))).
    intros c d Hs. vm_compute in Hs. discriminate Hs.
  - apply (proj1 (proj2 (proj2 (proj2 (normalize_choice_spec "7"))))).
    + vm_compute. reflexivity.
    + intros c d Hs. discriminate Hs.
Defined.

(** C4 as stated fails: [" 7"] is none of ["01"] .. ["09"], yet it is not
    returned unchanged, because the input is stripped first. *)
Lemma normalize_choice_strips :
  (forall raw short, In (raw, short) leading_zero_codes -> " 7" <> raw) /\
  normalize_choice " 7" = "7" /\
  normalize_choice " 7" <> " 7".
Proof.
  split; [|split].
  - intros raw short Hin. simpl in Hin.
    repeat (destruct Hin as [Hin | Hin]; [injection Hin as <- <-; discriminate|]).
    contradiction.
  - vm_compute. reflexivity.
  - vm_compute. discriminate.
Qed.

(** Nor is a code outside ["01"] .. ["09"] always kept when it has no
    white space around it: [int()] reads the decimal digits of every
    script, and a no-break space is white space for [str.strip]. *)
Example normalize_choice_other_scripts :
  normalize_choice "0٣" = "3" /\ normalize_choice "0٠" = "0" /\
  normalize_choice (String 160%N "5") = "5" /\
  normalize_choice "0x" = "0x".
Proof. vm_compute. repeat split. Qed.

(** ** The back code *)

Lemma scan_back_label_first : forall pre num label post,
  no_back_label pre -> is_back_label label = true ->
  scan_back_label (pre ++ (num, label) :: post) = Some num.
Proof.
  induction pre as [|[n l] pre IH]; intros num label post Hpre Hl; simpl.
  - rewrite Hl. reflexivity.
  - inversion Hpre as [|x xs Hx Hxs]; subst. simpl in Hx. rewrite Hx.
    apply IH; assumption.
Qed.

Lemma scan_back_label_none : forall items,
  no_back_label items -> scan_back_label items = None.
Proof.
  induction items as [|[n l] items IH]; intro H; simpl.
  - reflexivity.
  - inversion H as [|x xs Hx Hxs]; subst. simpl in Hx. rewrite Hx. auto.
Qed.

Lemma scan_zero_code_first : forall pre num label post,
  no_zero_code pre -> num = "00" \/ num = "0" ->
  scan_zero_code (pre ++ (num, label) :: post) = Some num.
Proof.
  induction pre as [|[n l] pre IH]; intros num label post Hpre Hn; simpl.
  - destruct Hn as [-> | ->]; reflexivity.
  - inversion Hpre as [|x xs [H00 H0] Hxs]; subst. simpl in H00, H0.
    apply str_eqb_neq in H00, H0. rewrite H00, H0. simpl.
    apply IH; assumption.
Qed.

Lemma scan_zero_code_none : forall items,
  no_zero_code items -> scan_zero_code items = None.
Proof.
  induction items as [|[n l] items IH]; intro H; simpl.
  - reflexivity.
  - inversion H as [|x xs [H00 H0] Hxs]; subst. simpl in H00, H0.
    apply str_eqb_neq in H00, H0. rewrite H00, H0. simpl. auto.
Qed.

Lemma scan_99_found : forall items,
  In "99" (map fst items) -> scan_99 items = Some "99".
Proof.
  induction items as [|[n l] items IH]; intro H; simpl in *.
  - contradiction.
  - destruct (str_eqb n "99") eqn:E.
    + apply str_eqb_eq in E. subst. reflexivity.
    + destruct H as [H | H]; [|auto].
      subst n. rewrite str_eqb_refl in E. discriminate.
Qed.

Lemma scan_99_none : forall items,
  ~ In "99" (map fst items) -> scan_99 items = None.
Proof.
  induction items as [|[n l] items IH]; intro H; simpl in *.
  - reflexivity.
  - destruct (str_eqb n "99") eqn:E.
    + apply str_eqb_eq in E. subst. exfalso. apply H. left. reflexivity.
    + apply IH. intro Hin. apply H. right. exact Hin.
Qed.

(** C7.  The back code is the code of the first entry whose label
    carries a back keyword; failing that, the code of the first entry
    coded ["00"] or ["0"]; failing that, ["99"] when an entry is coded
    ["99"]; failing that, the code of the first entry; and the default
    ["99"] for an empty list. *)
Theorem find_back_num_priority : forall items : list MenuItem,
  (forall (pre : list MenuItem) num label (post : list MenuItem),
     items = (pre ++ (num, label) :: post)%list ->
     no_back_label pre -> is_back_label label = true ->
     find_back_num items = num) /\
  (no_back_label items ->
   forall (pre : list MenuItem) num label (post : list MenuItem),
     items = (pre ++ (num, label) :: post)%list ->
     no_zero_code pre -> num = "00" \/ num = "0" ->
     find_back_num items = num) /\
  (no_back_label items -> no_zero_code items ->
   In "99" (map fst items) -> find_back_num items = "99") /\
  (no_back_label items -> no_zero_code items ->
   ~ In "99" (map fst items) ->
   forall num label (rest : list MenuItem), items = (num, label) :: rest ->
     find_back_num items = num) /\
  find_back_num [] = "99".
Proof.
  intro items. unfold find_back_num. repeat split.
  - intros pre num label post -> Hpre Hl.
    rewrite (scan_back_label_first pre num label post Hpre Hl). reflexivity.
  - intros Hb pre num label post E Hpre Hn.
    rewrite (scan_back_label_none items Hb). rewrite E.
    rewrite (scan_zero_code_first pre num label post Hpre Hn). reflexivity.
  - intros Hb Hz H99.
    rewrite (scan_back_label_none items Hb), (scan_zero_code_none items Hz),
      (scan_99_found items H99). reflexivity.
  - intros Hb Hz H99 num label rest E.
    rewrite (scan_back_label_none items Hb), (scan_zero_code_none items Hz),
      (scan_99_none items H99). rewrite E. reflexivity.
Qed.

(** The four rungs of the chain, each on a menu that reaches it. *)
Lemma find_back_num_priority_witness :
  find_back_num [("1", "Beli Paket"); ("7", "Kembali ke menu"); ("00", "Keluar"); ("99", "Tutup")] = "7" /\
  find_back_num [("1", "Beli Paket"); ("0", "Keluar"); ("99", "Tutup")] = "0" /\
  find_back_num [("1", "Beli Paket"); ("99", "Tutup")] = "99" /\
  find_back_num [("3", "Beli Paket"); ("4", "Cek Kuota")] = "3".
Proof.
  split; [|split; [|split]].
  - apply (proj1 (find_back_num_priority _) [("1", "Beli Paket")] "7"
             "Kembali ke menu" [("00", "Keluar"); ("99", "Tutup")]).
    + reflexivity.
    + repeat constructor.
    + vm_compute. reflexivity.
  - apply (proj1 (proj2 (find_back_num_priority _)))
      with (pre := [("1", "Beli Paket")]) (label := "Keluar") (post := [("99", "Tutup")]).
    + repeat constructor.
    + reflexivity.
    + repeat constructor; simpl; discriminate.
    + right. reflexivity.
  - apply (proj1 (proj2 (proj2 (find_back_num_priority _)))).
    + repeat constructor.
    + repeat constructor; simpl; discriminate.
    + simpl. tauto.
  - apply (proj1 (proj2 (proj2 (proj2 (find_back_num_priority _)))))
      with (label := "Beli Paket") (rest := [("4", "Cek Kuota")]).
    + repeat constructor.
    + repeat constructor; simpl; discriminate.
    + simpl. intros [H | [H | H]]; try discriminate; contradiction.
    + reflexivity.
Defined.

(** ** The monad *)

Lemma send_chunks_sess : forall env fuel chat txt mk start first w,
  sess (snd (send_chunks env fuel chat txt mk start first w)) = sess w.
Proof.
  induction fuel as [|fuel IH]; intros chat txt mk start first w.
  - reflexivity.
  - cbn [send_chunks]. destruct (start <? len txt); [|reflexivity].
    destruct (first && is_some mk); munfold;
      destruct (outcome env (calls w)); rewrite IH; reflexivity.
Qed.

Lemma send_chunks_ok : forall env fuel chat txt mk start first w,
  fst (send_chunks env fuel chat txt mk start first w) = Ok tt.
Proof.
  induction fuel as [|fuel IH]; intros chat txt mk start first w.
  - reflexivity.
  - cbn [send_chunks]. destruct (start <? len txt); [|reflexivity].
    destruct (first && is_some mk); munfold;
      destruct (outcome env (calls w)); apply IH.
Qed.

Lemma send_long_message_sess : forall env chat txt mk w,
  sess (snd (send_long_message env chat txt mk w)) = sess w.
Proof.
  intros. unfold send_long_message. destruct (nonempty txt); [|reflexivity].
  apply send_chunks_sess.
Qed.

Lemma send_long_message_ok : forall env chat txt mk w,
  fst (send_long_message env chat txt mk w) = Ok tt.
Proof.
  intros. unfold send_long_message. destruct (nonempty txt); [|reflexivity].
  apply send_chunks_ok.
Qed.

(** ** Flushing *)

Lemma flush_drains : forall env w,
  buffer_lines (sess (snd (flush_buffer_and_menu env w))) = [] /\
  menu_items (sess (snd (flush_buffer_and_menu env w))) = [].
Proof.
  intros env w. unfold flush_buffer_and_menu. munfold. cbn [fst snd sess].
  destruct (buffer_lines (sess w)) as [|l ls] eqn:B;
    destruct (menu_items (sess w)) as [|m ms] eqn:I; cbn -[send_long_message strip join full_text menu_kb_from_items].
  - auto.
  - rewrite send_long_message_sess. cbn. auto.
  - destruct (nonempty (strip (join nl (l :: ls)))).
    + rewrite send_long_message_sess. cbn. auto.
    + cbn. auto.
  - rewrite send_long_message_sess. cbn. auto.
Qed.

Lemma all_of_app : forall (p : char -> bool) (a b : str),
  all_of p a -> all_of p b -> all_of p (a ++ b).
Proof.
  unfold all_of. induction a as [|c a IH]; intros b Ha Hb; cbn [append chars].
  - exact Hb.
  - inversion Ha as [|x xs Hc Hr]; subst. constructor; [exact Hc | exact (IH b Hr Hb)].
Qed.

Lemma join_all_space : forall lines : list str,
  Forall (all_of is_space) lines -> all_of is_space (join nl lines).
Proof.
  induction lines as [|l [|m rest] IH]; intro H.
  - constructor.
  - inversion H; subst. assumption.
  - inversion H as [|x xs Hl Hr]; subst.
    change (join nl (l :: m :: rest)) with (l ++ nl ++ join nl (m :: rest)).
    apply all_of_app; [exact Hl|]. apply all_of_app; [|exact (IH Hr)].
    constructor; [reflexivity | constructor].
Qed.

Lemma strip_all_space : forall s : str, all_of is_space s -> strip s = "".
Proof.
  intros s H. unfold strip.
  assert (E : lstrip_by is_space s = "").
  { unfold all_of in H. induction s as [|c s IH]; [reflexivity|].
    cbn [chars] in H. inversion H as [|x xs Hc Hr]; subst.
    cbn [lstrip_by]. rewrite Hc. exact (IH Hr). }
  rewrite E. reflexivity.
Qed.

(** C10.  A flush with no menu entry and with buffered lines that join
    and strip to the empty text empties both buffers and sends nothing;
    a flush with both buffers empty changes nothing and sends nothing.
    Buffered lines that are all empty or made of white space join and
    strip to the empty text. *)
Theorem flush_blank_sends_nothing : forall env w,
  (menu_items (sess w) = [] ->
   strip (join nl (buffer_lines (sess w))) = "" ->
   fst (flush_buffer_and_menu env w) = Ok tt /\
   buffer_lines (sess (snd (flush_buffer_and_menu env w))) = [] /\
   menu_items (sess (snd (flush_buffer_and_menu env w))) = [] /\
   trace (snd (flush_buffer_and_menu env w)) = trace w /\
   calls (snd (flush_buffer_and_menu env w)) = calls w) /\
  (menu_items (sess w) = [] -> buffer_lines (sess w) = [] ->
   flush_buffer_and_menu env w = (Ok tt, w)) /\
  (Forall (all_of is_space) (buffer_lines (sess w)) ->
   strip (join nl (buffer_lines (sess w))) = "").
Proof.
  intros env w. split; [|split].
  - intros Hm Ht. unfold flush_buffer_and_menu. munfold. cbn [fst snd sess].
    rewrite Hm.
    destruct (buffer_lines (sess w)) as [|l ls] eqn:B;
      cbn -[send_long_message strip join].
    + rewrite B, Hm. auto.
    + rewrite Ht. cbn. auto.
  - intros Hm Hb. unfold flush_buffer_and_menu. munfold. rewrite Hm, Hb.
    reflexivity.
  - intro H. apply strip_all_space, join_all_space. exact H.
Qed.

(** At three buffered lines of white space, one of them a no-break
    space, and at a new session. *)
Lemma flush_blank_sends_nothing_witness :
  trace (snd (flush_buffer_and_menu calm
           (world_of (set_buffer_lines ["  "; ""; String 160%N ""] started_session)))) = [] /\
  flush_buffer_and_menu calm (world_of new_session) = (Ok tt, world_of new_session).
Proof.
  split.
  - apply (proj1 (flush_blank_sends_nothing calm
             (world_of (set_buffer_lines ["  "; ""; String 160%N ""] started_session)))).
    + reflexivity.
    + apply (proj2 (proj2 (flush_blank_sends_nothing calm
               (world_of (set_buffer_lines ["  "; ""; String 160%N ""] started_session))))).
      repeat constructor.
  - apply (proj1 (proj2 (flush_blank_sends_nothing calm (world_of new_session))));
      reflexivity.
Defined.

(** White space is Python's: a buffered line of one no-break space
    joins and strips to the empty text, and nothing is sent. *)
Example flush_no_break_space :
  flush_buffer_and_menu calm
    (world_of (set_buffer_lines [String 160%N ""] started_session))
  = (Ok tt, world_of started_session).
Proof. vm_compute. reflexivity. Qed.

(** ** The classifier *)

Lemma stdin_writes_app : forall a b,
  stdin_writes (a ++ b) = (stdin_writes a ++ stdin_writes b)%list.
Proof. intros. apply flat_map_app. Qed.

Lemma sent_bodies_app : forall a b,
  sent_bodies (a ++ b) = (sent_bodies a ++ sent_bodies b)%list.
Proof. intros. apply flat_map_app. Qed.

Lemma continue_line_nonempty : forall line,
  is_continue_line line = true -> nonempty line = true.
Proof. intros [|c r] H; [discriminate H | reflexivity]. Qed.

(** C6.  A line that contains, in any case, [press enter to continue] or
    [press any key to continue] makes the classifier write one line feed
    to the child's input and nothing else; the session is left as it was,
    so the line is in neither buffer, and nothing is sent to the chat. *)
Theorem continue_line_discarded : forall env w line is_partial wr,
  is_continue_line line = true ->
  stdin_writer (sess w) = Some wr ->
  fst (process_line env line is_partial w) = Ok tt /\
  sess (snd (process_line env line is_partial w)) = sess w /\
  stdin_writes (trace (snd (process_line env line is_partial w)))
    = (stdin_writes (trace w) ++ [[x0a]])%list /\
  sent_bodies (trace (snd (process_line env line is_partial w)))
    = sent_bodies (trace w).
Proof.
  intros env w line is_partial wr Hc Hw. unfold process_line.
  rewrite (continue_line_nonempty line Hc), Hc. cbn [negb].
  munfold. rewrite Hw. cbn.
  destruct (outcome env (calls w)) eqn:O1; cbn.
  - destruct (outcome env (S (calls w))) eqn:O2; cbn;
      rewrite !stdin_writes_app, !sent_bodies_app; cbn;
      rewrite ?app_nil_r; auto.
  - rewrite !stdin_writes_app, !sent_bodies_app; cbn;
      rewrite ?app_nil_r; auto.
Qed.

(** At a banner of the tool, in capitals, arriving on a started session. *)
Lemma continue_line_discarded_witness :
  let r := process_line calm "Press ENTER to continue..." false (world_of started_session) in
  fst r = Ok tt /\ sess (snd r) = started_session /\
  stdin_writes (trace (snd r)) = [[x0a]] /\ sent_bodies (trace (snd r)) = [].
Proof.
  apply (continue_line_discarded calm (world_of started_session)
           "Press ENTER to continue..." false 1); reflexivity.
Defined.

(** ** The flush scheduler *)

(** C2.  A turn of the scheduler that finds the idle time, the clock
    reading minus the time of the last output as the loop computes it in
    floats, not to have reached the threshold of five seconds flushes
    nothing: the session and the trace are left as they were.  A turn
    that finds a buffered line or menu entry and the idle time at or
    above the threshold runs the flush, which drains both buffers.  The
    loop takes such a turn after each sleep of half a second. *)
Theorem flusher_waits_for_idle : forall env w,
  (PrimFloat.leb BUFFER_FLUSH_IDLE (idle_time env w) = false ->
     fst (flusher_pass env w) = Ok tt /\
     sess (snd (flusher_pass env w)) = sess w /\
     trace (snd (flusher_pass env w)) = trace w) /\
  (PrimFloat.leb BUFFER_FLUSH_IDLE (idle_time env w) = true ->
   buffer_lines (sess w) <> [] \/ menu_items (sess w) <> [] ->
     flusher_pass env w = flush_buffer_and_menu env (tick w) /\
     buffer_lines (sess (snd (flusher_pass env w))) = [] /\
     menu_items (sess (snd (flusher_pass env w))) = []) /\
  (forall n, outcome env (calls w) = Returns ->
     flusher_loop env (S n) w =
       bind (flusher_pass env) (fun _ => flusher_loop env n)
         (mkWorld (sess w) (reads w) (S (calls w))
            (trace w ++ [(Sleep FLUSHER_PERIOD, Returns)])%list)).
Proof.
  intros env w. unfold idle_time. split; [|split].
  - intro Hlt. unfold flusher_pass. munfold.
    destruct (has_items (buffer_lines (sess w)) || has_items (menu_items (sess w)));
      [|auto].
    cbn [reads sess]. rewrite Hlt. auto.
  - intros Hle Hne.
    assert (E : flusher_pass env w = flush_buffer_and_menu env (tick w)).
    { unfold flusher_pass. munfold.
      assert (Hi : has_items (buffer_lines (sess w)) || has_items (menu_items (sess w)) = true).
      { destruct Hne as [Hb | Hm].
        - destruct (buffer_lines (sess w)); [contradiction|reflexivity].
        - destruct (menu_items (sess w)); [contradiction|].
          apply orb_true_r. }
      rewrite Hi. cbn [reads sess]. rewrite Hle. reflexivity. }
    rewrite E. split; [reflexivity|]. apply flush_drains.
  - intros n O. cbn [flusher_loop]. unfold bind at 1, call. rewrite O. reflexivity.
Qed.

(** Four and a half seconds after the last output, and five seconds
    after it, with one line buffered; and one turn of the loop. *)
Lemma flusher_waits_for_idle_witness :
  trace (snd (flusher_pass calm
           (mkWorld (set_buffer_lines ["Saldo: 10000"] started_session) 9 0 []))) = [] /\
  buffer_lines (sess (snd (flusher_pass calm
           (mkWorld (set_buffer_lines ["Saldo: 10000"] started_session) 10 0 [])))) = [] /\
  flusher_loop calm 1 (world_of started_session) =
    bind (flusher_pass calm) (fun _ => flusher_loop calm 0)
      (mkWorld started_session 0 1 ([] ++ [(Sleep FLUSHER_PERIOD, Returns)])%list).
Proof.
  split; [|split].
  - apply (proj1 (flusher_waits_for_idle calm
             (mkWorld (set_buffer_lines ["Saldo: 10000"] started_session) 9 0 []))).
    vm_compute. reflexivity.
  - apply (proj1 (proj2 (flusher_waits_for_idle calm
             (mkWorld (set_buffer_lines ["Saldo: 10000"] started_session) 10 0 [])))).
    + vm_compute. reflexivity.
    + left. discriminate.
  - apply (proj2 (proj2 (flusher_waits_for_idle calm (world_of started_session)))).
    reflexivity.
Defined.


(** The idle time is a rounded difference: with the last output at
    2^-60 seconds and the clock at 5 seconds it is 5, and the turn flushes. *)
Example idle_time_is_rounded :
  let env := mkEnv (fun _ => 5%float) (fun _ => Returns) in
  let w := world_of (set_last_output_time 0x1p-60%float
                       (set_buffer_lines ["Saldo: 10000"] started_session)) in
  idle_time env w = 5%float /\
  sent_bodies (trace (snd (flusher_pass env w))) = ["Saldo: 10000"].
Proof. vm_compute. split; reflexivity. Qed.

(** ** Slices *)

Lemma TG_MAX_pos : 0 < TG_MAX.
Proof. unfold TG_MAX. apply Nat.lt_0_succ. Qed.

Lemma length_drop : forall n s, len (drop n s) = len s - n.
Proof.
  induction n as [|n IH]; intros [|c s]; simpl; auto.
Qed.

Lemma length_take : forall n s, len (take n s) = Nat.min n (len s).
Proof.
  induction n as [|n IH]; intros [|c s]; simpl; auto.
Qed.

Lemma take_drop : forall n s, take n s ++ drop n s = s.
Proof.
  induction n as [|n IH]; intros [|c s]; simpl; auto. rewrite IH. reflexivity.
Qed.

Lemma drop_drop : forall a b s, drop b (drop a s) = drop (a + b) s.
Proof.
  induction a as [|a IH]; intros b s; simpl.
  - reflexivity.
  - destruct s as [|c s].
    + destruct b; reflexivity.
    + apply IH.
Qed.

Lemma drop_all : forall n s, len s <= n -> drop n s = "".
Proof.
  induction n as [|n IH]; intros [|c s] H; simpl in *; auto; try lia.
  apply IH. lia.
Qed.

Lemma slice_drop : forall s a b, a <= b -> slice s a b ++ drop b s = drop a s.
Proof.
  intros s a b H. unfold slice.
  replace b with (a + (b - a)) at 2 by lia.
  rewrite <- drop_drop. apply take_drop.
Qed.

Lemma length_slice : forall s a b,
  a <= b -> b <= len s -> len (slice s a b) = b - a.
Proof.
  intros s a b H1 H2. unfold slice. rewrite length_take, length_drop. lia.
Qed.

(** ** The last line feed of a window *)

Lemma rfind_nl_from_none : forall s i lo hi,
  rfind_nl_from i s lo hi = None ->
  forall k, i <= k -> lo <= k -> k < hi -> char_at (k - i) s <> Some LF.
Proof.
  induction s as [|c s IH]; intros i lo hi H k Hi Hlo Hhi; simpl in *.
  - destruct (k - i); discriminate.
  - destruct (rfind_nl_from (S i) s lo hi) eqn:R; [discriminate|].
    destruct (k - i) as [|m] eqn:D.
    + assert (k = i) by lia. subst k.
      intro G. injection G as ->. rewrite N.eqb_refl in H.
      assert ((lo <=? i) = true) by (apply Nat.leb_le; lia).
      assert ((i <? hi) = true) by (apply Nat.ltb_lt; lia).
      rewrite H0, H1 in H. discriminate.
    + replace m with (k - S i) by lia. apply (IH (S i) lo hi R); lia.
Qed.

Lemma rfind_nl_from_some : forall s i lo hi j,
  rfind_nl_from i s lo hi = Some j ->
  i <= j /\ lo <= j /\ j < hi /\ char_at (j - i) s = Some LF /\
  forall k, j < k -> k < hi -> char_at (k - i) s <> Some LF.
Proof.
  induction s as [|c s IH]; intros i lo hi j H; simpl in *.
  - discriminate.
  - destruct (rfind_nl_from (S i) s lo hi) as [j'|] eqn:R.
    + injection H as <-. destruct (IH (S i) lo hi j' R) as (A & B & C & D & E).
      repeat split; try lia.
      * replace (j' - i) with (S (j' - S i)) by lia. exact D.
      * intros k K1 K2. replace (k - i) with (S (k - S i)) by lia. apply E; lia.
    + destruct (N.eqb c LF) eqn:Ec; [|discriminate].
      destruct (lo <=? i) eqn:El; [|discriminate].
      destruct (i <? hi) eqn:Eh; [|discriminate].
      cbn in H. injection H as <-.
      apply N.eqb_eq in Ec. apply Nat.leb_le in El. apply Nat.ltb_lt in Eh.
      repeat split; try lia.
      * rewrite Nat.sub_diag. subst c. reflexivity.
      * intros k K1 K2. replace (k - i) with (S (k - S i)) by lia.
        apply (rfind_nl_from_none s (S i) lo hi R); lia.
Qed.

(** ** Where a chunk ends *)

Lemma chunk_end_cases : forall txt start,
  start < len txt ->
  (len txt <= start + TG_MAX /\ chunk_end txt start = len txt)
  \/ (start + TG_MAX < len txt /\
      ((exists j, start < j /\ j < start + TG_MAX /\ lf_at txt j /\
                  (forall i, j < i < start + TG_MAX -> ~ lf_at txt i) /\
                  chunk_end txt start = j + 1)
       \/ ((forall i, start < i < start + TG_MAX -> ~ lf_at txt i) /\
           chunk_end txt start = start + TG_MAX))).
Proof.
  intros txt start Hs. unfold chunk_end.
  destruct (Nat.min (len txt) (start + TG_MAX) <? len txt) eqn:E.
  - apply Nat.ltb_lt in E. right.
    assert (Hm : Nat.min (len txt) (start + TG_MAX) = start + TG_MAX) by lia.
    rewrite Hm. split; [lia|].
    unfold rfind_nl.
    destruct (rfind_nl_from 0 txt start (start + TG_MAX)) as [j|] eqn:R.
    + destruct (rfind_nl_from_some _ _ _ _ _ R) as (_ & B & C & D & F).
      rewrite Nat.sub_0_r in D.
      destruct (start <? j) eqn:Ej.
      * apply Nat.ltb_lt in Ej. left. exists j. repeat split; auto.
        intros i [I1 I2] G. apply (F i I1 I2). rewrite Nat.sub_0_r. exact G.
      * apply Nat.ltb_ge in Ej. right. split; [|reflexivity].
        intros i [I1 I2] G. apply (F i); try lia. rewrite Nat.sub_0_r. exact G.
    + right. split; [|reflexivity].
      intros i [I1 I2] G.
      apply (rfind_nl_from_none _ _ _ _ R i); try lia.
      rewrite Nat.sub_0_r. exact G.
  - apply Nat.ltb_ge in E. left. pose proof TG_MAX_pos. split; lia.
Qed.

Lemma chunk_end_bounds : forall txt start,
  start < len txt ->
  start < chunk_end txt start /\ chunk_end txt start <= len txt /\
  chunk_end txt start <= start + TG_MAX.
Proof.
  intros txt start Hs. pose proof TG_MAX_pos.
  destruct (chunk_end_cases txt start Hs)
    as [[A ->] | [A [(j & J1 & J2 & _ & _ & ->) | [_ ->]]]]; lia.
Qed.

(** ** The chunks of a long message *)

Lemma join_empty_cons : forall c rest, join "" (c :: rest) = c ++ join "" rest.
Proof.
  intros c [|d rest]; simpl.
  - induction c as [|a c IH]; simpl; [reflexivity | rewrite <- IH; reflexivity].
  - reflexivity.
Qed.

Lemma chunks_from_join : forall fuel txt start,
  start <= len txt -> len txt - start <= fuel ->
  join "" (chunks_from fuel txt start) = drop start txt.
Proof.
  induction fuel as [|fuel IH]; intros txt start Hs Hf.
  - simpl. symmetry. apply drop_all. lia.
  - cbn [chunks_from]. destruct (start <? len txt) eqn:E.
    + apply Nat.ltb_lt in E.
      destruct (chunk_end_bounds txt start E) as (B1 & B2 & B3).
      rewrite join_empty_cons, IH by lia. apply slice_drop. lia.
    + apply Nat.ltb_ge in E. simpl. symmetry. apply drop_all. lia.
Qed.

Lemma chunks_from_cut : forall fuel txt start,
  start <= len txt -> len txt - start <= fuel ->
  cut_from txt start (chunks_from fuel txt start).
Proof.
  induction fuel as [|fuel IH]; intros txt start Hs Hf.
  - simpl. lia.
  - cbn [chunks_from]. destruct (start <? len txt) eqn:E.
    + apply Nat.ltb_lt in E.
      destruct (chunk_end_bounds txt start E) as (B1 & B2 & B3).
      assert (L : len (slice txt start (chunk_end txt start))
                  = chunk_end txt start - start) by (apply length_slice; lia).
      cbn [cut_from]. split.
      * unfold well_cut. rewrite L.
        replace (start + (chunk_end txt start - start)) with (chunk_end txt start) by lia.
        split; [reflexivity|]. split; [lia|].
        destruct (chunk_end_cases txt start E)
          as [[A Ee] | [A [(j & J1 & J2 & J3 & J4 & Ee) | [J Ee]]]].
        -- left. exact Ee.
        -- right. split; [exact A|]. left. rewrite Ee.
           split; [lia|]. split.
           ++ replace (j + 1 - 1) with j by lia. exact J3.
           ++ intros i Hi. apply J4. lia.
        -- right. split; [exact A|]. right. split; [lia | exact J].
      * rewrite L.
        replace (start + (chunk_end txt start - start)) with (chunk_end txt start) by lia.
        apply IH; lia.
    + apply Nat.ltb_ge in E. simpl. lia.
Qed.

Lemma cut_from_lengths : forall chunks txt start,
  cut_from txt start chunks ->
  Forall (fun c => 1 <= len c <= TG_MAX) chunks.
Proof.
  induction chunks as [|c rest IH]; intros txt start H.
  - constructor.
  - destruct H as [(_ & Hn & _) Hr]. constructor; [exact Hn | exact (IH _ _ Hr)].
Qed.

Lemma send_chunks_trace : forall env fuel chat txt mk start first w,
  exists sent,
    trace (snd (send_chunks env fuel chat txt mk start first w)) = (trace w ++ sent)%list /\
    Forall (fun e : Call * Outcome => exists b m, fst e = SendMessage chat b m) sent /\
    sent_bodies sent = chunks_from fuel txt start.
Proof.
  induction fuel as [|fuel IH]; intros chat txt mk start first w.
  - exists []. cbn. rewrite app_nil_r. auto.
  - cbn [send_chunks chunks_from].
    destruct (start <? len txt).
    + destruct (first && is_some mk); munfold;
        destruct (outcome env (calls w)) eqn:O;
        match goal with
        | |- context [send_chunks env fuel chat txt mk ?e ?f ?w'] =>
            destruct (IH chat txt mk e f w') as (sent & T & F & B);
            cbn [trace] in T;
            eexists (_ :: sent); rewrite T, <- app_assoc; cbn [app];
            split; [reflexivity|]; split;
            [constructor; [cbn; eauto | exact F]
            | cbn [sent_bodies flat_map body_of fst app]; f_equal; exact B]
        end.
    + exists []. cbn. rewrite app_nil_r. auto.
Qed.

(** The loop needs no more turns than the text has characters left. *)
Lemma send_chunks_fuel : forall env fuel extra chat txt mk start first w,
  len txt - start <= fuel ->
  send_chunks env (fuel + extra) chat txt mk start first w
  = send_chunks env fuel chat txt mk start first w.
Proof.
  induction fuel as [|fuel IH]; intros extra chat txt mk start first w Hf.
  - destruct extra as [|extra]; [reflexivity|].
    cbn [Nat.add send_chunks].
    assert (E : (start <? len txt) = false) by (apply Nat.ltb_ge; lia).
    rewrite E. reflexivity.
  - cbn [Nat.add send_chunks].
    destruct (start <? len txt) eqn:E; [|reflexivity].
    apply Nat.ltb_lt in E.
    destruct (chunk_end_bounds txt start E) as (B1 & B2 & B3).
    destruct (first && is_some mk); munfold;
      destruct (outcome env (calls w)); apply IH; lia.
Qed.

(** C3.  A non-empty text is sent as consecutive chunks: each send is a
    message to the chat; the chunks joined give back the text; each has
    at most [TG_MAX] = 3800 characters; and each is well cut, that is,
    ends after the last line feed of its window when the text goes on
    beyond the window and that line feed lies after the chunk's start. *)
Theorem send_long_message_chunks : forall env chat txt mk w,
  txt <> "" ->
  exists sent,
    trace (snd (send_long_message env chat txt mk w)) = (trace w ++ sent)%list /\
    Forall (fun e : Call * Outcome => exists b m, fst e = SendMessage chat b m) sent /\
    join "" (sent_bodies sent) = txt /\
    Forall (fun c => 1 <= len c <= TG_MAX) (sent_bodies sent) /\
    cut_from txt 0 (sent_bodies sent).
Proof.
  intros env chat txt mk w Hne. unfold send_long_message.
  destruct txt as [|c txt]; [contradiction|]. cbn [nonempty].
  destruct (send_chunks_trace env (len (String c txt)) chat
              (String c txt) mk 0 true w) as (sent & T & F & B).
  exists sent. rewrite B.
  assert (C : cut_from (String c txt) 0
                (chunks_from (len (String c txt)) (String c txt) 0))
    by (apply chunks_from_cut; lia).
  split; [exact T|]. split; [exact F|]. split; [|split].
  - rewrite chunks_from_join by lia. reflexivity.
  - exact (cut_from_lengths _ _ _ C).
  - exact C.
Qed.

(** At a text of 400 lines of eleven characters. *)
Lemma send_long_message_chunks_witness :
  ten_digit_lines 400 <> "" /\
  exists sent,
    trace (snd (send_long_message calm 2002 (ten_digit_lines 400) None
                  (world_of started_session))) = ([] ++ sent)%list /\
    Forall (fun e : Call * Outcome => exists b m, fst e = SendMessage 2002 b m) sent /\
    join "" (sent_bodies sent) = ten_digit_lines 400 /\
    Forall (fun c => 1 <= len c <= TG_MAX) (sent_bodies sent) /\
    cut_from (ten_digit_lines 400) 0 (sent_bodies sent).
Proof.
  assert (H : ten_digit_lines 400 <> "").
  { intro E. apply (f_equal len) in E. vm_compute in E. discriminate. }
  split; [exact H|].
  exact (send_long_message_chunks calm 2002 (ten_digit_lines 400) None
           (world_of started_session) H).
Defined.

(** The 4400 characters go out as 3795 and 605: the first chunk holds
    the 345 whole lines that fit the limit. *)
Example long_message_two_chunks :
  map len
    (sent_bodies (trace (snd (send_long_message calm 2002 (ten_digit_lines 400)
                                None (world_of started_session)))))
  = [3795; 605].
Proof. vm_compute. reflexivity. Qed.


(** The limit counts characters, not bytes: a text of 3800 characters
    whose last five take four bytes each goes out whole. *)
Example long_message_counts_characters :
  len (ten_digit_lines 345 ++ "📋📋📋📋📋") = TG_MAX /\
  sent_bodies (trace (snd (send_long_message calm 2002
                             (ten_digit_lines 345 ++ "📋📋📋📋📋") None
                             (world_of started_session))))
  = [ten_digit_lines 345 ++ "📋📋📋📋📋"].
Proof. vm_compute. split; reflexivity. Qed.

(** ** The reader *)

Lemma str_length_app : forall a b : str,
  len (a ++ b) = len a + len b.
Proof. induction a as [|c a IH]; intro b; simpl; auto. Qed.

Lemma str_app_assoc : forall a b c : str, (a ++ b) ++ c = a ++ (b ++ c).
Proof. induction a as [|x a IH]; intros b c; simpl; [|rewrite IH]; reflexivity. Qed.

Lemma split_nl_line : forall l more,
  mem LF l = false -> split_nl (l ++ nl ++ more) = Some (l, more).
Proof.
  induction l as [|c l IH]; intros more H.
  - cbn [append nl split_nl]. rewrite N.eqb_refl. reflexivity.
  - cbn [mem] in H. rewrite N.eqb_sym in H.
    apply orb_false_elim in H as [Hc Hl].
    cbn [append split_nl]. rewrite Hc.
    change (l ++ String LF more) with (l ++ nl ++ more).
    rewrite (IH more Hl). reflexivity.
Qed.

Lemma split_nl_none : forall s, mem LF s = false -> split_nl s = None.
Proof.
  induction s as [|c s IH]; intro H.
  - reflexivity.
  - cbn [mem] in H. rewrite N.eqb_sym in H.
    apply orb_false_elim in H as [Hc Hl].
    cbn [split_nl]. rewrite Hc, (IH Hl). reflexivity.
Qed.

Lemma length_unlines : forall lines rest,
  List.length lines <= len (unlines lines ++ rest).
Proof.
  induction lines as [|l ls IH]; intro rest.
  - simpl. lia.
  - cbn [unlines List.length]. rewrite !str_app_assoc, str_length_app.
    cbn [nl append len]. specialize (IH rest). lia.
Qed.

Lemma with_sess_partial_same : forall w x,
  partial (sess w) = x -> with_sess (set_partial x) w = w.
Proof. intros [[] ? ? ?] x H. cbn in *. subst. reflexivity. Qed.

Lemma with_sess_partial_twice : forall w x y,
  with_sess (set_partial y) (with_sess (set_partial x) w) = with_sess (set_partial y) w.
Proof. reflexivity. Qed.

Lemma process_line_ok : forall env line b w,
  fst (process_line env line b w) = Ok tt.
Proof.
  intros env line b w. unfold process_line.
  destruct (nonempty line); [|reflexivity]. cbn [negb].
  destruct (is_continue_line line).
  - munfold. destruct (stdin_writer (sess w)); [|reflexivity]. cbn.
    destruct (outcome env (calls w)); [|reflexivity]. cbn.
    destruct (outcome env (S (calls w))); reflexivity.
  - destruct (Re.rmatch MENU_ITEM_RE line); [reflexivity|].
    destruct (b || looks_like_prompt line); reflexivity.
Qed.

(** The classifier neither reads nor writes the partial accumulator. *)
Lemma process_line_partial : forall env line b x w,
  process_line env line b (with_sess (set_partial x) w)
  = (Ok tt, with_sess (set_partial x) (snd (process_line env line b w))).
Proof.
  intros env line b x w. unfold process_line.
  destruct (nonempty line); [|reflexivity]. cbn [negb].
  destruct (is_continue_line line).
  - munfold. cbn. destruct (stdin_writer (sess w)); [|reflexivity]. cbn.
    destruct (outcome env (calls w)); [|reflexivity]. cbn.
    destruct (outcome env (S (calls w))); reflexivity.
  - destruct (Re.rmatch MENU_ITEM_RE line); [reflexivity|].
    destruct (b || looks_like_prompt line); reflexivity.
Qed.

Lemma classify_all_partial : forall env lines x w,
  classify_all env lines (with_sess (set_partial x) w)
  = (Ok tt, with_sess (set_partial x) (snd (classify_all env lines w))).
Proof.
  induction lines as [|l ls IH]; intros x w.
  - reflexivity.
  - cbn [classify_all]. unfold bind.
    rewrite process_line_partial.
    pose proof (process_line_ok env l false w) as Hok.
    destruct (process_line env l false w) as [r w1]. cbn in Hok. subst r.
    cbn [snd]. apply IH.
Qed.

(** Every text is a sequence of complete lines and a remainder. *)
Lemma segmentation_exists : forall s : str,
  exists lines rest,
    s = unlines lines ++ rest /\
    Forall (fun l => mem LF l = false) lines /\ mem LF rest = false.
Proof.
  induction s as [|c s (lines & rest & E & Hl & Hr)].
  - exists [], "". repeat split; constructor.
  - destruct (N.eqb LF c) eqn:Ec.
    + apply N.eqb_eq in Ec. subst c.
      exists ("" :: lines), rest. rewrite E. repeat split; auto.
    + destruct lines as [|l lines].
      * exists [], (String c rest). cbn [unlines append] in *. rewrite E.
        repeat split; auto. cbn [mem]. rewrite Ec. exact Hr.
      * exists (String c l :: lines), rest. rewrite E.
        inversion Hl as [|? ? Hl1 Hl2]; subst.
        repeat split; auto. constructor; [|exact Hl2].
        cbn [mem]. rewrite Ec. exact Hl1.
Qed.

Lemma line_loop_lines : forall env lines rest fuel w,
  Forall (fun l => mem LF l = false) lines -> mem LF rest = false ->
  partial (sess w) = unlines lines ++ rest ->
  List.length lines <= fuel ->
  line_loop env fuel w =
    (Ok tt, with_sess (set_partial rest)
              (snd (classify_all env (map (rstrip_chars (String CR "")) lines) w))).
Proof.
  induction lines as [|l ls IH]; intros rest fuel w Hl Hr Hp Hf.
  - cbn [map classify_all unlines] in *. cbn [ret snd].
    rewrite (with_sess_partial_same w rest Hp).
    destruct fuel as [|fuel]; [reflexivity|].
    cbn [line_loop]. unfold bind, get. rewrite Hp. cbn [append].
    rewrite (split_nl_none rest Hr). reflexivity.
  - destruct fuel as [|fuel]; [simpl in Hf; lia|].
    inversion Hl as [|? ? Hl1 Hl2]; subst.
    cbn [line_loop]. unfold bind at 1, get. rewrite Hp.
    cbn [unlines]. rewrite !str_app_assoc.
    rewrite (split_nl_line l (unlines ls ++ rest) Hl1).
    unfold bind at 1. unfold modify at 1.
    fold (with_sess (set_partial (unlines ls ++ rest)) w).
    unfold bind at 1. rewrite process_line_partial.
    cbn [map classify_all]. unfold bind.
    pose proof (process_line_ok env (rstrip_chars (String CR "") l) false w) as Hok.
    destruct (process_line env (rstrip_chars (String CR "") l) false w) as [r w1].
    cbn in Hok. subst r. cbn [snd].
    rewrite (IH rest fuel (with_sess (set_partial (unlines ls ++ rest)) w1));
      [| assumption | assumption | reflexivity | simpl in Hf; lia].
    rewrite classify_all_partial. reflexivity.
Qed.

Lemma process_line_plain : forall env line w,
  nonempty line = true -> is_continue_line line = false ->
  Re.rmatch MENU_ITEM_RE line = None -> looks_like_prompt line = false ->
  process_line env line false w =
    (Ok tt, tick (with_sess
                    (fun s => set_last_output_time (clock env (reads w))
                                (set_buffer_lines (buffer_lines s ++ [line]) s)) w)).
Proof.
  intros env line w H1 H2 H3 H4. unfold process_line.
  rewrite H1, H2, H3, H4. reflexivity.
Qed.

Lemma decode_a_b_c : decode (bytes a_b_c) = a_b_c.
Proof. vm_compute. reflexivity. Qed.

(** C1 (as amended).  For a chunk [data], let the accumulator followed
    by the decoded text be the complete lines [lines], each ended by a
    line feed, followed by an unterminated remainder [rest].  Then the
    reader stamps the time of output, hands the complete lines to the
    classifier in their order of arrival, each without trailing carriage
    returns, and keeps [rest] in the accumulator, unless [rest] stripped
    of white space is non-empty and looks like a prompt: then the
    stripped remainder is classified at once as a fragment and the
    accumulator is emptied.  In particular the bytes of [a\nb\nc] fed to
    an empty accumulator give the lines [a] and [b], both buffered in
    this order, and leave [c] in the accumulator. *)
Theorem reader_chunk_segments : forall env w,
  (forall data lines rest,
     partial (sess w) ++ decode data = unlines lines ++ rest ->
     Forall (fun l => mem LF l = false) lines ->
     mem LF rest = false ->
     let w0 := tick (with_sess (set_last_output_time (clock env (reads w))) w) in
     let w1 := with_sess (set_partial rest)
                 (snd (classify_all env (map (rstrip_chars (String CR "")) lines) w0)) in
     reader_chunk env data w =
       if nonempty (strip rest) && looks_like_prompt (strip rest)
       then (Ok tt, with_sess (set_partial "")
                      (snd (process_line env (strip rest) true w1)))
       else (Ok tt, w1)) /\
  (partial (sess w) = "" ->
     partial (sess (snd (reader_chunk env (bytes a_b_c) w))) = "c" /\
     buffer_lines (sess (snd (reader_chunk env (bytes a_b_c) w)))
       = (buffer_lines (sess w) ++ ["a"; "b"])%list /\
     menu_items (sess (snd (reader_chunk env (bytes a_b_c) w))) = menu_items (sess w)).
Proof.
  intros env w.
  assert (General : forall data lines rest,
     partial (sess w) ++ decode data = unlines lines ++ rest ->
     Forall (fun l => mem LF l = false) lines ->
     mem LF rest = false ->
     reader_chunk env data w =
       if nonempty (strip rest) && looks_like_prompt (strip rest)
       then (Ok tt, with_sess (set_partial "")
               (snd (process_line env (strip rest) true
                  (with_sess (set_partial rest)
                     (snd (classify_all env (map (rstrip_chars (String CR "")) lines)
                        (tick (with_sess (set_last_output_time (clock env (reads w))) w))))))))
       else (Ok tt, with_sess (set_partial rest)
               (snd (classify_all env (map (rstrip_chars (String CR "")) lines)
                  (tick (with_sess (set_last_output_time (clock env (reads w))) w)))))).
  { intros data lines rest Hseg Hl Hr. unfold reader_chunk.
    unfold bind at 1. unfold modify at 1.
    unfold bind at 1. unfold now at 1. cbn [reads sess calls trace].
    unfold bind at 1. unfold modify at 1. cbn [reads sess calls trace].
    unfold bind at 1. unfold get at 1. cbn [reads sess calls trace partial set_partial set_last_output_time].
    unfold bind at 1.
    match goal with
    | |- context [line_loop env ?f ?w'] =>
        rewrite (line_loop_lines env lines rest f w' Hl Hr);
        [| cbn; exact Hseg | cbn; rewrite Hseg; apply length_unlines]
    end.
    match goal with
    | |- context [classify_all env ?ls ?w'] =>
        change w' with
          (with_sess (set_partial (partial (sess w) ++ decode data))
             (tick (with_sess (set_last_output_time (clock env (reads w))) w)));
        rewrite (classify_all_partial env ls)
    end.
    cbn [snd]. rewrite with_sess_partial_twice.
    unfold bind at 1. unfold get at 1. cbn [sess with_sess partial set_partial].
    fold (with_sess (set_partial rest)
            (snd (classify_all env (map (rstrip_chars (String CR "")) lines)
               (tick (with_sess (set_last_output_time (clock env (reads w))) w))))).
    destruct (nonempty (strip rest) && looks_like_prompt (strip rest)); [|reflexivity].
    unfold when, bind.
    match goal with
    | |- context [process_line env ?l ?b ?w'] =>
        pose proof (process_line_ok env l b w') as Hok;
        destruct (process_line env l b w') as [r w2]
    end.
    cbn in Hok. subst r. reflexivity. }
  split.
  - intros data lines rest Hseg Hl Hr. cbv zeta. apply General; assumption.
  - intro Hp.
    rewrite (General (bytes a_b_c) ["a"; "b"] "c");
      [| rewrite Hp, decode_a_b_c; reflexivity
       | repeat constructor
       | reflexivity].
    replace (nonempty (strip "c") && looks_like_prompt (strip "c")) with false
      by (vm_compute; reflexivity).
    change (map (rstrip_chars (String CR "")) ["a"; "b"]) with ["a"; "b"].
    cbn [classify_all]. unfold bind.
    rewrite (process_line_plain env "a") by (vm_compute; reflexivity).
    rewrite (process_line_plain env "b") by (vm_compute; reflexivity).
    cbn. rewrite <- app_assoc. auto.
Qed.

(** At the three lines of the example, on a session just started. *)
Lemma reader_chunk_segments_witness :
  reader_chunk calm (bytes a_b_c) (world_of started_session)
  = (Ok tt,
     with_sess (set_partial "c")
       (snd (classify_all calm ["a"; "b"]
               (tick (with_sess (set_last_output_time (clock calm 0))
                        (world_of started_session)))))) /\
  partial (sess (snd (reader_chunk calm (bytes a_b_c) (world_of started_session)))) = "c".
Proof.
  split.
  - apply (proj1 (reader_chunk_segments calm (world_of started_session))
             (bytes a_b_c) ["a"; "b"] "c").
    + reflexivity.
    + repeat constructor.
    + reflexivity.
  - apply (proj2 (reader_chunk_segments calm (world_of started_session))).
    reflexivity.
Defined.

(** C1 as stated fails: the unterminated remainder [Pilih menu: ] does
    not stay in the accumulator; it is classified as a prompt and the
    accumulator is emptied. *)
Lemma reader_chunk_takes_prompt_fragment :
  mem LF "Pilih menu: " = false /\
  partial (sess (snd (reader_chunk calm (bytes "Pilih menu: ")
                        (world_of started_session)))) = "" /\
  buffer_lines (sess (snd (reader_chunk calm (bytes "Pilih menu: ")
                             (world_of started_session)))) = ["Pilih menu:"] /\
  awaiting_input (sess (snd (reader_chunk calm (bytes "Pilih menu: ")
                               (world_of started_session)))) = true.
Proof. vm_compute. auto. Qed.


(** The remainder is judged as Python judges it: [épin] holds no
    keyword, because the letter before [pin] is a word character, and
    stays in the accumulator; three Arabic-Indic digits are digits, and
    a no-break space is white space. *)
Example reader_chunk_other_scripts :
  partial (sess (snd (reader_chunk calm (bytes "épin")
                        (world_of started_session)))) = "épin" /\
  buffer_lines (sess (snd (reader_chunk calm (bytes "١٢٣")
                             (world_of started_session)))) = ["١٢٣"] /\
  buffer_lines (sess (snd (reader_chunk calm (bytes (String 160%N "Pilih:"))
                             (world_of started_session)))) = ["Pilih:"] /\
  looks_like_prompt "Masukkan PİN" = true.
Proof. vm_compute. repeat split. Qed.

(** ** The process supervisor *)

Lemma cancel_if_set_run : forall env t w,
  exists cs,
    cancel_if_set env t w =
      (Ok tt, mkWorld (sess w) (reads w) (calls w + List.length cs) (trace w ++ cs)%list) /\
    map fst cs = map TaskCancel (match t with Some t => [t] | None => [] end).
Proof.
  intros env [t|] w; unfold cancel_if_set; munfold.
  - destruct (outcome env (calls w)) eqn:O;
      eexists [(TaskCancel t, _)]; cbn; rewrite Nat.add_1_r; split; reflexivity.
  - exists []. cbn. rewrite Nat.add_0_r, app_nil_r. destruct w; split; reflexivity.
Qed.

Lemma cancel_tasks_run : forall env w,
  exists cs,
    cancel_tasks env w =
      (Ok tt, mkWorld (handles_cleared (sess w)) (reads w)
                (calls w + List.length cs) (trace w ++ cs)%list) /\
    map fst cs = map TaskCancel (tasks_of (sess w)).
Proof.
  intros env w. unfold cancel_tasks. unfold bind at 1, get.
  destruct (cancel_if_set_run env (reader_task (sess w)) w) as (c1 & E1 & M1).
  unfold bind at 1. rewrite E1. unfold bind at 1.
  match goal with
  | |- context [cancel_if_set env ?t ?w'] =>
      destruct (cancel_if_set_run env t w') as (c2 & E2 & M2)
  end.
  rewrite E2. cbn [sess reads calls trace] in *.
  exists (c1 ++ c2)%list. split.
  - munfold. cbn. rewrite List.length_app, Nat.add_assoc, app_assoc. reflexivity.
  - unfold tasks_of. rewrite !map_app, M1, M2. reflexivity.
Qed.

Lemma stop_signals_run : forall env p w,
  exists sg o,
    attempt
      (bind (call env (ProcTerminate p))
         (fun _ => on_timeout (call env (ProcWaitFor p GRACE_PERIOD))
                     (bind (call env (ProcKill p)) (fun _ => call env (ProcWait p))))) w
    = (Ok o, mkWorld (sess w) (reads w) (calls w + List.length sg) (trace w ++ sg)%list) /\
    graceful_stop p sg.
Proof.
  intros env p w. munfold. cbn.
  destruct (outcome env (calls w)) as [|e0] eqn:O0; cbn.
  - destruct (outcome env (S (calls w))) as [|[|]] eqn:O1; cbn.
    + exists [(ProcTerminate p, Returns); (ProcWaitFor p GRACE_PERIOD, Returns)], Returns.
      rewrite <- app_assoc. cbn. split; [do 3 f_equal; lia | constructor].
    + destruct (outcome env (S (S (calls w)))) as [|e2] eqn:O2; cbn.
      * exists [(ProcTerminate p, Returns); (ProcWaitFor p GRACE_PERIOD, Raises TimeoutError);
                (ProcKill p, Returns); (ProcWait p, outcome env (S (S (S (calls w)))))].
        destruct (outcome env (S (S (S (calls w))))) eqn:O3; eexists;
          rewrite <- !app_assoc; cbn;
          (split; [do 3 f_equal; lia | constructor]).
      * exists [(ProcTerminate p, Returns); (ProcWaitFor p GRACE_PERIOD, Raises TimeoutError);
                (ProcKill p, Raises e2)], (Raises e2).
        rewrite <- !app_assoc. cbn. split; [do 3 f_equal; lia | constructor].
    + exists [(ProcTerminate p, Returns); (ProcWaitFor p GRACE_PERIOD, Raises OtherError)],
        (Raises OtherError).
      rewrite <- app_assoc. cbn. split; [do 3 f_equal; lia | constructor].
  - exists [(ProcTerminate p, Raises e0)], (Raises e0). cbn.
    split; [do 3 f_equal; lia | constructor].
Qed.

(** C5 (as amended).  On a session whose process is running, [stop_tool]
    asks the child to terminate, waits for it for the grace period of
    three seconds, and kills it when that wait times out; whatever the
    outcome of these signals, it then cancels the reader and the
    flush-scheduler tasks that are set and clears the two tasks, the
    process and the input writer, and reports that the tool was stopped.
    On a session with nothing running it only sends the informational
    notice: the session is left as it is, and the call returns normally
    when the notice is delivered. *)
Theorem stop_tool_stops : forall env w,
  (is_running (sess w) = false ->
     stop_tool env w =
       call env (SendMessage (chat_id (sess w)) NOTHING_RUNNING (Some main_bot_kb)) w /\
     sess (snd (stop_tool env w)) = sess w /\
     (outcome env (calls w) = Returns -> fst (stop_tool env w) = Ok tt)) /\
  (forall p, proc (sess w) = Some p -> returncode p = None ->
     exists signals cancels o,
       trace (snd (stop_tool env w)) =
         (trace w ++ signals ++ cancels ++
          [(SendMessage (chat_id (sess w)) TOOL_STOPPED (Some main_bot_kb), o)])%list /\
       graceful_stop p signals /\
       map fst cancels = map TaskCancel (tasks_of (sess w)) /\
       sess (snd (stop_tool env w)) = handles_cleared (sess w) /\
       reader_task (sess (snd (stop_tool env w))) = None /\
       flusher_task (sess (snd (stop_tool env w))) = None /\
       proc (sess (snd (stop_tool env w))) = None /\
       stdin_writer (sess (snd (stop_tool env w))) = None).
Proof.
  intros env w. split.
  - intro Hrun.
    assert (E : stop_tool env w =
      call env (SendMessage (chat_id (sess w)) NOTHING_RUNNING (Some main_bot_kb)) w).
    { unfold stop_tool. unfold bind at 1, get.
      destruct (proc (sess w)); [rewrite Hrun|]; reflexivity. }
    rewrite E. split; [reflexivity|]. unfold call.
    split.
    + destruct (outcome env (calls w)); reflexivity.
    + intros ->. reflexivity.
  - intros p Hp Hrc.
    assert (Hrun : is_running (sess w) = true)
      by (unfold is_running; rewrite Hp, Hrc; reflexivity).
    assert (E : exists sg cs o r n,
      stop_tool env w =
        (r, mkWorld (handles_cleared (sess w)) (reads w) n
              (trace w ++ sg ++ cs ++
               [(SendMessage (chat_id (sess w)) TOOL_STOPPED (Some main_bot_kb), o)])%list) /\
      graceful_stop p sg /\ map fst cs = map TaskCancel (tasks_of (sess w))).
    { unfold stop_tool. unfold bind at 1, get. rewrite Hp, Hrun. cbn [negb].
      unfold bind at 1.
      destruct (stop_signals_run env p w) as (sg & o1 & E1 & G).
      rewrite E1. unfold bind at 1.
      match goal with
      | |- context [cancel_tasks env ?w'] =>
          destruct (cancel_tasks_run env w') as (cs & E2 & M)
      end.
      rewrite E2. cbn [sess reads calls trace] in *.
      unfold call. cbn [sess reads calls trace].
      match goal with
      | |- context [outcome env ?n] =>
          exists sg, cs, (outcome env n); destruct (outcome env n)
      end; do 2 eexists; rewrite <- !app_assoc; (split; [reflexivity | auto]). }
    destruct E as (sg & cs & o & r & n & E & G & M).
    exists sg, cs, o. rewrite E. cbn [snd trace sess]. auto 10.
Qed.

(** On a session just started whose child exits within the grace
    period, and on a new session. *)
Lemma stop_tool_stops_witness :
  (exists signals cancels o,
     trace (snd (stop_tool calm (world_of started_session))) =
       ([] ++ signals ++ cancels ++
        [(SendMessage 2002 TOOL_STOPPED (Some main_bot_kb), o)])%list /\
     graceful_stop (mkProcess 4242 None) signals /\
     map fst cancels = [TaskCancel 1; TaskCancel 2] /\
     sess (snd (stop_tool calm (world_of started_session)))
       = handles_cleared started_session /\
     reader_task (sess (snd (stop_tool calm (world_of started_session)))) = None /\
     flusher_task (sess (snd (stop_tool calm (world_of started_session)))) = None /\
     proc (sess (snd (stop_tool calm (world_of started_session)))) = None /\
     stdin_writer (sess (snd (stop_tool calm (world_of started_session)))) = None) /\
  sess (snd (stop_tool calm (world_of new_session))) = new_session.
Proof.
  split.
  - apply (proj2 (stop_tool_stops calm (world_of started_session))
             (mkProcess 4242 None)); reflexivity.
  - apply (proj1 (stop_tool_stops calm (world_of new_session))). reflexivity.
Defined.

(** C5 as stated fails: on the session of a tool that has exited on its
    own, [stop_tool] cancels no task and clears no handle; it only sends
    the notice. *)
Lemma stop_tool_keeps_handles_of_exited_tool :
  is_running exited_session = false /\
  stop_tool calm (world_of exited_session) =
    (Ok tt, mkWorld exited_session 0 1
              [(SendMessage 2002 NOTHING_RUNNING (Some main_bot_kb), Returns)]) /\
  reader_task exited_session = Some 1 /\
  flusher_task exited_session = Some 2 /\
  proc exited_session = Some (mkProcess 4242 (Some 0%Z)) /\
  stdin_writer exited_session = Some 1.
Proof. vm_compute. auto 10. Qed.

(** ** The input router *)

Lemma chars_app : forall s t : str, chars (s ++ t) = (chars s ++ chars t)%list.
Proof.
  induction s as [|c s IH]; intro t; simpl; [reflexivity|].
  rewrite IH. reflexivity.
Qed.

Lemma utf8_app : forall s t : str, utf8 (s ++ t) = (utf8 s ++ utf8 t)%list.
Proof.
  induction s as [|c s IH]; intro t; simpl; [reflexivity|].
  rewrite IH, app_assoc. reflexivity.
Qed.

(** The bytes of a text followed by a line feed are the bytes of the
    text followed by the byte of the line feed. *)
Lemma encode_nl : forall s : str,
  encode (s ++ nl) = match encode s with
                     | Some data => Some (data ++ [x0a])%list
                     | None => None
                     end.
Proof.
  intro s. unfold encode. rewrite chars_app, forallb_app, utf8_app.
  destruct (forallb encodable (chars s)); reflexivity.
Qed.

(** The four ways the guarded write to the child's input can go. *)
Lemma stdin_send_ok : forall env wr p d w,
  encode p = Some d ->
  outcome env (calls w) = Returns -> outcome env (S (calls w)) = Returns ->
  attempt (bind (encoded (p ++ nl)) (fun data =>
           bind (call env (StdinWrite wr data))
             (fun _ => bind (call env (StdinDrain wr)) (fun _ => clear_prompt)))) w
  = (Ok Returns,
     mkWorld (prompt_cleared (sess w)) (reads w) (S (S (calls w)))
       (trace w ++ [(StdinWrite wr (d ++ [x0a]), Returns);
                    (StdinDrain wr, Returns)])%list).
Proof.
  intros env wr p d w E O1 O2. unfold encoded. rewrite encode_nl, E.
  unfold clear_prompt. munfold. cbn.
  rewrite O1. cbn. rewrite O2. cbn. rewrite <- app_assoc. reflexivity.
Qed.

Lemma stdin_send_unencodable : forall env wr p w,
  encode p = None ->
  attempt (bind (encoded (p ++ nl)) (fun data =>
           bind (call env (StdinWrite wr data))
             (fun _ => bind (call env (StdinDrain wr)) (fun _ => clear_prompt)))) w
  = (Ok (Raises OtherError), w).
Proof.
  intros env wr p w E. unfold encoded. rewrite encode_nl, E. reflexivity.
Qed.

Lemma stdin_send_write_fails : forall env wr p d w e,
  encode p = Some d ->
  outcome env (calls w) = Raises e ->
  attempt (bind (encoded (p ++ nl)) (fun data =>
           bind (call env (StdinWrite wr data))
             (fun _ => bind (call env (StdinDrain wr)) (fun _ => clear_prompt)))) w
  = (Ok (Raises e),
     mkWorld (sess w) (reads w) (S (calls w))
       (trace w ++ [(StdinWrite wr (d ++ [x0a]), Raises e)])%list).
Proof.
  intros env wr p d w e E O1. unfold encoded. rewrite encode_nl, E.
  munfold. cbn. rewrite O1. reflexivity.
Qed.

Lemma stdin_send_drain_fails : forall env wr p d w e,
  encode p = Some d ->
  outcome env (calls w) = Returns -> outcome env (S (calls w)) = Raises e ->
  attempt (bind (encoded (p ++ nl)) (fun data =>
           bind (call env (StdinWrite wr data))
             (fun _ => bind (call env (StdinDrain wr)) (fun _ => clear_prompt)))) w
  = (Ok (Raises e),
     mkWorld (sess w) (reads w) (S (S (calls w)))
       (trace w ++ [(StdinWrite wr (d ++ [x0a]), Returns);
                    (StdinDrain wr, Raises e)])%list).
Proof.
  intros env wr p d w e E O1 O2. unfold encoded. rewrite encode_nl, E.
  munfold. cbn. rewrite O1. cbn. rewrite O2. cbn.
  rewrite <- app_assoc. reflexivity.
Qed.

(** Whatever becomes of the guarded write, the session is either left
    as it was or has its prompt bookkeeping cleared, and nothing is sent
    to the chat. *)
Lemma stdin_send_any : forall env wr p w,
  exists r n made,
    attempt (bind (encoded (p ++ nl)) (fun data =>
             bind (call env (StdinWrite wr data))
               (fun _ => bind (call env (StdinDrain wr)) (fun _ => clear_prompt)))) w
    = (Ok r, mkWorld (match r with
                      | Returns => prompt_cleared (sess w)
                      | Raises _ => sess w
                      end) (reads w) n (trace w ++ made)%list) /\
    sent_bodies made = [] /\
    (r = Returns -> exists d, encode p = Some d /\ stdin_writes made = [(d ++ [x0a])%list]).
Proof.
  intros env wr p w.
  destruct (encode p) as [d|] eqn:E.
  - destruct (outcome env (calls w)) as [|e] eqn:O1.
    + destruct (outcome env (S (calls w))) as [|e] eqn:O2.
      * rewrite (stdin_send_ok env wr p d w E O1 O2).
        exists Returns. do 2 eexists. split; [reflexivity|]. split; [reflexivity|].
        intros _. exists d. split; reflexivity.
      * rewrite (stdin_send_drain_fails env wr p d w e E O1 O2).
        exists (Raises e). do 2 eexists. split; [reflexivity|]. split; [reflexivity|].
        discriminate.
    + rewrite (stdin_send_write_fails env wr p d w e E O1).
      exists (Raises e). do 2 eexists. split; [reflexivity|]. split; [reflexivity|].
      discriminate.
  - rewrite (stdin_send_unencodable env wr p w E).
    exists (Raises OtherError), (calls w), []. rewrite app_nil_r.
    split; [destruct w; reflexivity|]. split; [reflexivity|]. discriminate.
Qed.

(** A selection reaches [route_code] with the code after the bar. *)
Lemma callback_dispatch : forall env st ss sl prefix code w,
  prefix = "menu_choice|" \/ prefix = "menu_back|" ->
  callback_handler env st ss sl (Some (prefix ++ code)) w
  = bind (call env AnswerCallback) (fun _ => route_code env (prefix ++ code)) w
  /\ after_bar (prefix ++ code) = Some code.
Proof.
  intros env st ss sl prefix code w [-> | ->]; split; reflexivity.
Qed.

Lemma route_code_ok : forall env prefix code d wr w,
  prefix = "menu_choice|" \/ prefix = "menu_back|" ->
  is_running (sess w) = true -> stdin_writer (sess w) = Some wr ->
  encode code = Some d ->
  outcome env (calls w) = Returns -> outcome env (S (calls w)) = Returns ->
  route_code env (prefix ++ code) w
  = (Ok tt,
     mkWorld (prompt_cleared (sess w)) (reads w) (S (S (calls w)))
       (trace w ++ [(StdinWrite wr (d ++ [x0a]), Returns);
                    (StdinDrain wr, Returns)])%list).
Proof.
  intros env prefix code d wr w Hp Hr Hw E O1 O2. unfold route_code.
  assert (A : after_bar (prefix ++ code) = Some code)
    by (destruct Hp as [-> | ->]; reflexivity).
  rewrite A. unfold bind at 1, get. rewrite Hw, Hr.
  unfold bind at 1. rewrite (stdin_send_ok env wr code d w E O1 O2). reflexivity.
Qed.

Lemma callback_selection_ok : forall env st ss sl prefix code d wr w,
  prefix = "menu_choice|" \/ prefix = "menu_back|" ->
  is_running (sess w) = true -> stdin_writer (sess w) = Some wr ->
  encode code = Some d ->
  outcome env (calls w) = Returns -> outcome env (S (calls w)) = Returns ->
  outcome env (S (S (calls w))) = Returns ->
  callback_handler env st ss sl (Some (prefix ++ code)) w
  = (Ok tt,
     mkWorld (prompt_cleared (sess w)) (reads w) (S (S (S (calls w))))
       (trace w ++ [(AnswerCallback, Returns);
                    (StdinWrite wr (d ++ [x0a]), Returns);
                    (StdinDrain wr, Returns)])%list).
Proof.
  intros env st ss sl prefix code d wr w Hp Hr Hw E O0 O1 O2.
  rewrite (proj1 (callback_dispatch env st ss sl prefix code w Hp)).
  unfold bind, call at 1. rewrite O0.
  rewrite (route_code_ok env prefix code d wr
             (mkWorld (sess w) (reads w) (S (calls w))
                (trace w ++ [(AnswerCallback, Returns)])%list) Hp Hr Hw E O1 O2).
  cbn. rewrite <- app_assoc. reflexivity.
Qed.

(** C8 (as amended).  Free text and selection codes are written to the
    child only on a session with a running process and an input writer;
    otherwise nothing is written, and free text is answered with the
    notice that no tool runs.  The payload is the text stripped of
    surrounding white space, or the code after the bar.  When the
    payload can be encoded and the write and the drain return, the child
    has received the UTF-8 bytes of the payload followed by a line feed,
    and the awaiting-input flag, the prompt time and the prompt text are
    cleared.  When the payload cannot be encoded, or the write or the
    drain raises, the session is left as it was, and for free text the
    failure is reported to the user. *)
Theorem input_routing : forall env st ss sl w msg code prefix,
  prefix = "menu_choice|" \/ prefix = "menu_back|" ->
  (is_running (sess w) = false \/ stdin_writer (sess w) = None ->
     text_handler env msg w = call env (ReplyText NOT_RUNNING (Some main_bot_kb)) w /\
     (outcome env (calls w) = Returns ->
        callback_handler env st ss sl (Some (prefix ++ code)) w
        = (Ok tt, mkWorld (sess w) (reads w) (S (calls w))
                    (trace w ++ [(AnswerCallback, Returns)])%list))) /\
  (forall wr, is_running (sess w) = true -> stdin_writer (sess w) = Some wr ->
     (forall data,
        encode (strip (match msg with Some t => t | None => "" end)) = Some data ->
        outcome env (calls w) = Returns -> outcome env (S (calls w)) = Returns ->
        text_handler env msg w
        = (Ok tt,
           mkWorld (prompt_cleared (sess w)) (reads w) (S (S (calls w)))
             (trace w ++
              [(StdinWrite wr (data ++ [x0a]), Returns);
               (StdinDrain wr, Returns)])%list)) /\
     (forall data,
        encode code = Some data ->
        outcome env (calls w) = Returns -> outcome env (S (calls w)) = Returns ->
        outcome env (S (S (calls w))) = Returns ->
        callback_handler env st ss sl (Some (prefix ++ code)) w
        = (Ok tt,
           mkWorld (prompt_cleared (sess w)) (reads w) (S (S (S (calls w))))
             (trace w ++
              [(AnswerCallback, Returns); (StdinWrite wr (data ++ [x0a]), Returns);
               (StdinDrain wr, Returns)])%list)) /\
     (forall e,
        encode (strip (match msg with Some t => t | None => "" end)) = None \/
        outcome env (calls w) = Raises e \/
        (outcome env (calls w) = Returns /\ outcome env (S (calls w)) = Raises e) ->
        fst (text_handler env msg w) = Ok tt /\
        sess (snd (text_handler env msg w)) = sess w /\
        exists tried o,
          trace (snd (text_handler env msg w))
          = (trace w ++ tried ++ [(ReplyText SEND_FAILED (Some main_bot_kb), o)])%list) /\
     (forall e,
        outcome env (calls w) = Returns ->
        encode code = None \/
        outcome env (S (calls w)) = Raises e \/
        (outcome env (S (calls w)) = Returns /\ outcome env (S (S (calls w))) = Raises e) ->
        sess (snd (callback_handler env st ss sl (Some (prefix ++ code)) w)) = sess w)).
Proof.
  intros env st ss sl w msg code prefix Hp. split.
  - intro Hno. split.
    + unfold text_handler. unfold bind at 1, get.
      destruct (stdin_writer (sess w)); [|reflexivity].
      destruct Hno as [Hr | Hw]; [rewrite Hr; reflexivity | discriminate].
    + intro O0.
      rewrite (proj1 (callback_dispatch env st ss sl prefix code w Hp)).
      unfold bind, call at 1. rewrite O0. unfold route_code.
      rewrite (proj2 (callback_dispatch env st ss sl prefix code w Hp)).
      unfold bind, get. cbn [sess].
      destruct (stdin_writer (sess w)); [|reflexivity].
      destruct Hno as [Hr | Hw]; [rewrite Hr; reflexivity | discriminate].
  - intros wr Hr Hw. split; [|split; [|split]].
    + intros data E O1 O2. unfold text_handler. unfold bind at 1, get.
      rewrite Hw, Hr.
      unfold bind at 1. rewrite (stdin_send_ok env wr _ data w E O1 O2). reflexivity.
    + intros data E O0 O1 O2.
      exact (callback_selection_ok env st ss sl prefix code data wr w Hp Hr Hw E O0 O1 O2).
    + intros e Hfail.
      assert (E : exists tried o n,
        text_handler env msg w =
          (Ok tt, mkWorld (sess w) (reads w) n
                    (trace w ++ tried ++
                     [(ReplyText SEND_FAILED (Some main_bot_kb), o)])%list)).
      { unfold text_handler. unfold bind at 1, get. rewrite Hw, Hr.
        unfold bind at 1.
        destruct (encode (strip (match msg with Some t => t | None => "" end)))
          as [d|] eqn:En.
        - destruct Hfail as [Hn | [O1 | [O1 O2]]]; [discriminate Hn | |].
          + rewrite (stdin_send_write_fails env wr _ d w e En O1). munfold. cbn.
            destruct (outcome env (S (calls w))) eqn:O;
              eexists [_], _, _; rewrite <- app_assoc; reflexivity.
          + rewrite (stdin_send_drain_fails env wr _ d w e En O1 O2). munfold. cbn.
            destruct (outcome env (S (S (calls w)))) eqn:O;
              eexists [_; _], _, _; rewrite <- app_assoc; reflexivity.
        - rewrite (stdin_send_unencodable env wr _ w En). munfold. cbn.
          destruct (outcome env (calls w)) eqn:O;
            eexists [], _, _; reflexivity. }
      destruct E as (tried & o & n & E). rewrite E. cbn [fst snd sess trace].
      split; [reflexivity|]. split; [reflexivity|]. exists tried, o. reflexivity.
    + intros e O0 Hfail.
      assert (E : exists n tr,
        callback_handler env st ss sl (Some (prefix ++ code)) w =
          (Ok tt, mkWorld (sess w) (reads w) n tr)).
      { rewrite (proj1 (callback_dispatch env st ss sl prefix code w Hp)).
        unfold bind at 1, call at 1. rewrite O0. unfold route_code.
        rewrite (proj2 (callback_dispatch env st ss sl prefix code w Hp)).
        unfold bind at 1, get. cbn [sess]. rewrite Hw, Hr. unfold bind at 1.
        destruct (encode code) as [d|] eqn:En.
        - destruct Hfail as [Hn | [O1 | [O1 O2]]]; [discriminate Hn | |].
          + rewrite (stdin_send_write_fails env wr _ d
                       (mkWorld (sess w) (reads w) (S (calls w))
                          (trace w ++ [(AnswerCallback, Returns)])%list) e En O1).
            do 2 eexists. reflexivity.
          + rewrite (stdin_send_drain_fails env wr _ d
                       (mkWorld (sess w) (reads w) (S (calls w))
                          (trace w ++ [(AnswerCallback, Returns)])%list) e En O1 O2).
            do 2 eexists. reflexivity.
        - rewrite (stdin_send_unencodable env wr _
                     (mkWorld (sess w) (reads w) (S (calls w))
                        (trace w ++ [(AnswerCallback, Returns)])%list) En).
          do 2 eexists. reflexivity. }
      destruct E as (n & tr & E). rewrite E. reflexivity.
Qed.

(** C8 as stated fails for a selection: when sending the code to the
    child raises (here the drain, on a child that closed its input),
    nothing is reported; the only calls are the acknowledgement of the
    button, the write and the failed drain. *)
Lemma selection_failure_unreported :
  callback_handler (failing_at 2) (ret tt) (ret tt) (ret tt)
    (Some "menu_choice|1") (world_of started_session)
  = (Ok tt,
     mkWorld started_session 0 3
       [(AnswerCallback, Returns); (StdinWrite 1 (bytes ("1" ++ nl)), Returns);
        (StdinDrain 1, Raises OtherError)]).
Proof. vm_compute. reflexivity. Qed.

(** A text and a selection that reach the child; a text and a
    selection on a session with no tool; a text and a selection whose
    write fails. *)
Lemma input_routing_witness :
  text_handler calm (Some " 5 ") (world_of started_session)
  = (Ok tt, mkWorld (prompt_cleared started_session) 0 2
              [(StdinWrite 1 (bytes "5" ++ [x0a]), Returns); (StdinDrain 1, Returns)]) /\
  callback_handler calm (ret tt) (ret tt) (ret tt) (Some "menu_choice|2")
    (world_of started_session)
  = (Ok tt, mkWorld (prompt_cleared started_session) 0 3
              [(AnswerCallback, Returns); (StdinWrite 1 (bytes "2" ++ [x0a]), Returns);
               (StdinDrain 1, Returns)]) /\
  text_handler calm (Some "5") (world_of new_session)
  = call calm (ReplyText NOT_RUNNING (Some main_bot_kb)) (world_of new_session) /\
  callback_handler calm (ret tt) (ret tt) (ret tt) (Some "menu_choice|2")
    (world_of new_session)
  = (Ok tt, mkWorld new_session 0 1 [(AnswerCallback, Returns)]) /\
  sess (snd (text_handler (failing_at 0) (Some "5") (world_of started_session)))
  = started_session /\
  sess (snd (callback_handler (failing_at 1) (ret tt) (ret tt) (ret tt)
               (Some "menu_choice|2") (world_of started_session)))
  = started_session.
Proof.
  pose proof (input_routing calm (ret tt) (ret tt) (ret tt)
                (world_of started_session) (Some " 5 ") "2" "menu_choice|"
                (or_introl eq_refl)) as [_ Hrun].
  destruct (Hrun 1 eq_refl eq_refl) as (Ht & Hc & _ & _).
  pose proof (input_routing calm (ret tt) (ret tt) (ret tt)
                (world_of new_session) (Some "5") "2" "menu_choice|"
                (or_introl eq_refl)) as [Hno _].
  pose proof (input_routing (failing_at 0) (ret tt) (ret tt) (ret tt)
                (world_of started_session) (Some "5") "2" "menu_choice|"
                (or_introl eq_refl)) as [_ Hrun0].
  destruct (Hrun0 1 eq_refl eq_refl) as (_ & _ & Hf & _).
  pose proof (input_routing (failing_at 1) (ret tt) (ret tt) (ret tt)
                (world_of started_session) (Some "5") "2" "menu_choice|"
                (or_introl eq_refl)) as [_ Hrun1].
  destruct (Hrun1 1 eq_refl eq_refl) as (_ & _ & _ & Hg).
  split; [exact (Ht (bytes "5") eq_refl eq_refl eq_refl)|].
  split; [exact (Hc (bytes "2") eq_refl eq_refl eq_refl eq_refl)|].
  split; [exact (proj1 (Hno (or_introl eq_refl)))|].
  split; [exact (proj2 (Hno (or_introl eq_refl)) eq_refl)|].
  split; [exact (proj1 (proj2 (Hf OtherError (or_intror (or_introl eq_refl)))))|].
  exact (Hg OtherError eq_refl (or_intror (or_introl eq_refl))).
Defined.

(** The payload of a text is stripped as Python strips it, and a text
    that cannot be encoded is reported as a failed delivery: a no-break
    space before the text is white space, and a lone surrogate has no
    UTF-8 form. *)
Example text_payloads :
  stdin_writes (trace (snd (text_handler calm (Some (String 160%N "5"))
                              (world_of started_session))))
  = [bytes "5" ++ [x0a]]%list /\
  text_handler calm (Some (String 55296%N "")) (world_of started_session)
  = (Ok tt, mkWorld started_session 0 1
              [(ReplyText SEND_FAILED (Some main_bot_kb), Returns)]).
Proof. vm_compute. split; reflexivity. Qed.

(** ** Codes shown and codes sent *)

Lemma concat_rows_of_two : forall bs : list Button, concat (rows_of_two bs) = bs.
Proof.
  fix IH 1. intros [|b1 [|b2 rest]]; cbn [rows_of_two concat app].
  - reflexivity.
  - reflexivity.
  - rewrite IH. reflexivity.
Qed.

Lemma button_in_keyboard : forall items item,
  In item items ->
  exists row, In row (menu_kb_from_items items) /\ In (menu_button item) row.
Proof.
  intros items item Hin. unfold menu_kb_from_items.
  assert (Hb : In (menu_button item) (concat (rows_of_two (map menu_button items)))).
  { rewrite concat_rows_of_two. apply in_map. exact Hin. }
  apply in_concat in Hb as (row & Hrow & Hbr).
  exists row. split; [apply in_or_app; left; exact Hrow | exact Hbr].
Qed.

Lemma join_cons2 : forall sep x y rest,
  join sep (x :: y :: rest) = x ++ sep ++ join sep (y :: rest).
Proof. reflexivity. Qed.

Lemma str_app_nil_r : forall s : str, s ++ "" = s.
Proof. induction s as [|c s IH]; simpl; [|rewrite IH]; reflexivity. Qed.

Lemma menu_text_line : forall (menu : list MenuItem) num label,
  In (num, label) menu ->
  exists pre post, menu_text menu = pre ++ (num ++ ". " ++ label) ++ post.
Proof.
  unfold menu_text.
  induction menu as [|[n l] menu IH]; intros num label Hin.
  - contradiction.
  - destruct Hin as [Heq | Hin].
    + injection Heq as -> ->. exists "".
      destruct menu as [|m menu].
      * exists "". cbn. rewrite str_app_nil_r. reflexivity.
      * eexists. cbn [map]. rewrite join_cons2. cbn [fst snd append]. reflexivity.
    + destruct (IH num label Hin) as (pre & post & E).
      destruct menu as [|m menu]; [contradiction|].
      exists ((n ++ ". " ++ l) ++ nl ++ pre), post.
      cbn [map] in *. rewrite join_cons2. cbn [fst snd]. rewrite E.
      rewrite !str_app_assoc. reflexivity.
Qed.

Lemma send_long_message_bodies : forall env chat txt mk w,
  nonempty txt = true ->
  exists sent,
    trace (snd (send_long_message env chat txt mk w)) = (trace w ++ sent)%list /\
    join "" (sent_bodies sent) = txt.
Proof.
  intros env chat txt mk w Hne. unfold send_long_message. rewrite Hne.
  destruct (send_chunks_trace env (len txt) chat txt mk 0 true w)
    as (sent & T & _ & B).
  exists sent. split; [exact T|].
  rewrite B, chunks_from_join by lia. reflexivity.
Qed.

Lemma full_text_nonempty : forall txt menu, nonempty (full_text txt menu) = true.
Proof.
  intros txt menu. unfold full_text.
  destruct txt as [|c txt]; reflexivity.
Qed.

(** C9 (as amended).  For every menu entry of a session, the keyboard of
    the flushed message has a button that shows the normalized code
    before the label and carries the same normalized code as its
    payload, and pressing it on a running session writes the UTF-8 bytes
    of that normalized code and a line feed to the child: the code on
    the button and the code transmitted are the same.  The menu block of the text of the
    flushed message lists the entry with its code as the child printed
    it. *)
Theorem menu_codes_shown_and_sent : forall env st ss sl w num label,
  In (num, label) (menu_items (sess w)) ->
  (exists row b,
     In row (menu_kb_from_items (menu_items (sess w))) /\ In b row /\
     text b = normalize_choice num ++ ". " ++ short_label label /\
     callback_data b = "menu_choice|" ++ normalize_choice num /\
     forall w' wr data,
       is_running (sess w') = true -> stdin_writer (sess w') = Some wr ->
       encode (normalize_choice num) = Some data ->
       outcome env (calls w') = Returns -> outcome env (S (calls w')) = Returns ->
       outcome env (S (S (calls w'))) = Returns ->
       stdin_writes (trace (snd (callback_handler env st ss sl (Some (callback_data b)) w')))
       = (stdin_writes (trace w') ++ [data ++ [x0a]])%list) /\
  (exists sent pre post,
     trace (snd (flush_buffer_and_menu env w)) = (trace w ++ sent)%list /\
     join "" (sent_bodies sent) = pre ++ (num ++ ". " ++ label) ++ post).
Proof.
  intros env st ss sl w num label Hin. split.
  - destruct (button_in_keyboard _ _ Hin) as (row & Hrow & Hb).
    exists row, (menu_button (num, label)).
    split; [exact Hrow|]. split; [exact Hb|].
    split; [reflexivity|]. split; [reflexivity|].
    intros w' wr data Hr Hw En O0 O1 O2. cbn [menu_button callback_data].
    rewrite (callback_selection_ok env st ss sl "menu_choice|" (normalize_choice num)
               data wr w' (or_introl eq_refl) Hr Hw En O0 O1 O2).
    cbn [snd trace]. rewrite stdin_writes_app. reflexivity.
  - destruct (menu_text_line _ _ _ Hin) as (pre & post & E).
    unfold flush_buffer_and_menu. unfold bind at 1, get.
    destruct (menu_items (sess w)) as [|m menu] eqn:Hm; [contradiction|].
    rewrite andb_false_r. munfold. cbn [sess has_items].
    match goal with
    | |- context [send_long_message env ?c ?t ?k ?w'] =>
        destruct (send_long_message_bodies env c t k w' (full_text_nonempty _ _))
          as (sent & T & J)
    end.
    cbn [trace] in T. unfold full_text in J. rewrite E in J.
    destruct (nonempty (strip (join nl (buffer_lines (sess w))))).
    + exists sent,
        ((strip (join nl (buffer_lines (sess w))) ++ nl ++ nl ++ MENU_HEADING) ++ pre),
        post.
      split; [exact T|]. rewrite J, !str_app_assoc. reflexivity.
    + exists sent, (MENU_HEADING ++ pre), post.
      split; [exact T|]. rewrite J, !str_app_assoc. reflexivity.
Qed.

(** At the second entry of a two-entry menu: its line in the flushed
    text, and its button pressed on a session just started. *)
Lemma menu_codes_shown_and_sent_witness :
  (exists sent pre post,
     trace (snd (flush_buffer_and_menu calm
              (world_of (set_menu_items [("01", "Isi Pulsa"); ("02", "Cek Kuota")]
                           started_session)))) = ([] ++ sent)%list /\
     join "" (sent_bodies sent) = pre ++ ("02" ++ ". " ++ "Cek Kuota") ++ post) /\
  (exists row b,
     In row (menu_kb_from_items [("01", "Isi Pulsa"); ("02", "Cek Kuota")]) /\
     In b row /\
     text b = "2. Cek Kuota" /\
     callback_data b = "menu_choice|2" /\
     stdin_writes (trace (snd (callback_handler calm (ret tt) (ret tt) (ret tt)
                                 (Some (callback_data b)) (world_of started_session))))
     = [bytes "2" ++ [x0a]]%list).
Proof.
  destruct (menu_codes_shown_and_sent calm (ret tt) (ret tt) (ret tt)
              (world_of (set_menu_items [("01", "Isi Pulsa"); ("02", "Cek Kuota")]
                           started_session)) "02" "Cek Kuota"
              (or_intror (or_introl eq_refl)))
    as [(row & b & Hrow & Hb & Ht & Hc & Hsend) Hflush].
  split; [exact Hflush|].
  exists row, b. split; [exact Hrow|]. split; [exact Hb|].
  split; [exact Ht|]. split; [exact Hc|].
  exact (Hsend (world_of started_session) 1 (bytes "2") eq_refl eq_refl eq_refl
           eq_refl eq_refl eq_refl).
Defined.

(** C9 as stated fails for the menu block: the entry coded [01] is
    listed as [01. Isi Pulsa] in the text of the flushed message, while
    its button shows [1. Isi Pulsa] and transmits [1]. *)
Lemma menu_block_keeps_raw_code :
  flush_buffer_and_menu calm
    (world_of (set_menu_items [("01", "Isi Pulsa")] started_session))
  = (Ok tt,
     mkWorld started_session 0 1
       [(SendMessage 2002 (MENU_HEADING ++ "01. Isi Pulsa")
           (Some [[mkButton "1. Isi Pulsa" "menu_choice|1"];
                  [mkButton "⬅️ Menu Utama (Tools)" "menu_back|1";
                   mkButton "❌ Batal" "menu_cancel"]]),
         Returns)]) /\
  normalize_choice "01" = "1" /\ "01" <> "1".
Proof. split; [vm_compute; reflexivity | split; [vm_compute; reflexivity | discriminate]]. Qed.

(** ** Runs of the whole reader *)

(** Menu lines are collected in their order of arrival, whatever plain
    lines come between them. *)
Example menu_entries_in_order :
  menu_items (sess (snd (reader_chunk calm
     (bytes ("1. Foo" ++ nl ++ "Saldo anda" ++ nl ++ "2. Bar" ++ nl))
     (world_of started_session))))
  = [("1", "Foo"); ("2", "Bar")].
Proof. vm_compute. reflexivity. Qed.

(** A tool that prints a banner, a menu and a prompt, then waits: the
    continue banner is answered with a line feed and dropped, and at the
    end of the stream everything buffered goes out as one message with
    the menu's keyboard, followed by the closing notice. *)
Example reader_run :
  let w := snd (reader_loop calm
                  [bytes ("Press Enter to continue..." ++ nl ++ "Selamat datang" ++ nl);
                   bytes ("01. Login" ++ nl ++ "99. Keluar" ++ nl ++ "Pilih menu: ")]
                  (world_of started_session)) in
  stdin_writes (trace w) = [[x0a]] /\
  sent_bodies (trace w)
  = ["Selamat datang" ++ nl ++ "Pilih menu:" ++ nl ++ nl ++ MENU_HEADING
       ++ "01. Login" ++ nl ++ "99. Keluar";
     "🔚 Proses tool selesai."]%str /\
  buffer_lines (sess w) = [] /\ menu_items (sess w) = [] /\ partial (sess w) = "".
Proof. vm_compute. auto. Qed.

(** * Further properties *)

(** ** Button labels and the shape of a keyboard *)

(** X1.  The label on a button never exceeds 28 characters: a label of
    at most 28 characters is shown whole, a longer one is cut to its
    first 25 characters followed by three dots. *)
Theorem short_label_bounded : forall label : str,
  len (short_label label) <= 28 /\
  (len label <= 28 -> short_label label = label) /\
  (28 < len label ->
     short_label label = take 25 label ++ "..." /\
     len (short_label label) = 28).
Proof.
  intro label. unfold short_label, slice. rewrite Nat.sub_0_r. cbn [drop].
  destruct (len label <=? 28) eqn:E.
  - apply Nat.leb_le in E. repeat split; try lia; auto.
  - apply Nat.leb_gt in E.
    assert (L : len (take 25 label ++ "...") = 28).
    { rewrite str_length_app, length_take. cbn [len]. lia. }
    repeat split; try lia; auto.
Qed.

(** At a label of thirty characters and at a short one. *)
Lemma short_label_bounded_witness :
  short_label "Paket Internet Bulanan 30 Hari" = "Paket Internet Bulanan 30..." /\
  short_label "Cek Kuota" = "Cek Kuota".
Proof.
  split.
  - apply (proj2 (proj2 (short_label_bounded "Paket Internet Bulanan 30 Hari"))).
    vm_compute. lia.
  - apply (proj1 (proj2 (short_label_bounded "Cek Kuota"))). vm_compute. lia.
Defined.

Lemma rows_of_two_sizes : forall bs : list Button,
  Forall (fun row => 1 <= List.length row <= 2) (rows_of_two bs).
Proof.
  fix IH 1. intros [|b1 [|b2 rest]]; cbn [rows_of_two].
  - constructor.
  - constructor; [cbn; lia | constructor].
  - constructor; [cbn; lia | apply IH].
Qed.

Lemma rows_of_two_count : forall bs : list Button,
  List.length (rows_of_two bs) = Nat.div2 (S (List.length bs)).
Proof.
  fix IH 1. intros [|b1 [|b2 rest]]; cbn [rows_of_two List.length Nat.div2].
  - reflexivity.
  - reflexivity.
  - rewrite IH. reflexivity.
Qed.

(** X2.  The keyboard of a menu is the entries' buttons, in the order of
    the entries, laid out in rows of two (the last row of one when the
    count is odd), followed by one row with the back button and the
    cancel button; the back button carries the normalized back code, and
    pressing it on a running session writes the UTF-8 bytes of that code
    and a line feed to the child. *)
Theorem menu_keyboard_shape : forall env st ss sl (items : list MenuItem),
  exists rows back,
    menu_kb_from_items items = (rows ++ [[back; mkButton "❌ Batal" "menu_cancel"]])%list /\
    concat rows = map menu_button items /\
    Forall (fun row => 1 <= List.length row <= 2) rows /\
    List.length rows = Nat.div2 (S (List.length items)) /\
    callback_data back = "menu_back|" ++ normalize_choice (find_back_num items) /\
    forall w wr data,
      is_running (sess w) = true -> stdin_writer (sess w) = Some wr ->
      encode (normalize_choice (find_back_num items)) = Some data ->
      outcome env (calls w) = Returns -> outcome env (S (calls w)) = Returns ->
      outcome env (S (S (calls w))) = Returns ->
      stdin_writes (trace (snd (callback_handler env st ss sl (Some (callback_data back)) w)))
      = (stdin_writes (trace w) ++ [data ++ [x0a]])%list.
Proof.
  intros env st ss sl items.
  exists (rows_of_two (map menu_button items)),
    (mkButton "⬅️ Menu Utama (Tools)" ("menu_back|" ++ normalize_choice (find_back_num items))).
  split; [reflexivity|].
  split; [apply concat_rows_of_two|].
  split; [apply rows_of_two_sizes|].
  split; [rewrite rows_of_two_count, length_map; reflexivity|].
  split; [reflexivity|].
  intros w wr data Hr Hw En O0 O1 O2. cbn [callback_data].
  rewrite (callback_selection_ok env st ss sl "menu_back|"
             (normalize_choice (find_back_num items)) data wr w
             (or_intror eq_refl) Hr Hw En O0 O1 O2).
  cbn [snd trace]. rewrite stdin_writes_app. reflexivity.
Qed.

(** The back button of a three-entry menu pressed on a session just
    started. *)
Lemma menu_keyboard_shape_witness :
  exists rows back,
    menu_kb_from_items [("01", "Isi Pulsa"); ("02", "Cek Kuota"); ("00", "Kembali")]
      = (rows ++ [[back; mkButton "❌ Batal" "menu_cancel"]])%list /\
    List.length rows = 2 /\
    callback_data back = "menu_back|00" /\
    stdin_writes (trace (snd (callback_handler calm (ret tt) (ret tt) (ret tt)
                                (Some (callback_data back)) (world_of started_session))))
    = [bytes "00" ++ [x0a]]%list.
Proof.
  destruct (menu_keyboard_shape calm (ret tt) (ret tt) (ret tt)
              [("01", "Isi Pulsa"); ("02", "Cek Kuota"); ("00", "Kembali")])
    as (rows & back & E & _ & _ & L & C & P).
  exists rows, back. split; [exact E|]. split; [exact L|]. split; [exact C|].
  exact (P (world_of started_session) 1 (bytes "00") eq_refl eq_refl eq_refl
           eq_refl eq_refl eq_refl).
Defined.


(** Labels are measured in characters and codes are read in every
    script: a label of 28 characters, one of them outside the basic
    plane, is shown whole, and the entry coded with a zero and an
    Arabic-Indic three shows and sends [3]. *)
Example menu_button_other_scripts :
  menu_button ("0٣", "Paket Internet 10GB 30 hari📦")
  = mkButton "3. Paket Internet 10GB 30 hari📦" "menu_choice|3" /\
  menu_kb_from_items [("0٣", "Kembali")]
  = [[mkButton "3. Kembali" "menu_choice|3"];
     [mkButton "⬅️ Menu Utama (Tools)" "menu_back|3";
      mkButton "❌ Batal" "menu_cancel"]].
Proof. vm_compute. repeat split. Qed.

(** ** Normalization once is enough *)

Lemma lstrip_by_head : forall p s c r,
  lstrip_by p s = String c r -> p c = false.
Proof.
  induction s as [|a s IH]; intros c r H; cbn [lstrip_by] in H.
  - discriminate.
  - destruct (p a) eqn:Pa.
    + exact (IH c r H).
    + injection H as -> _. exact Pa.
Qed.

Lemma rstrip_by_keeps_head : forall p c r,
  p c = false -> exists t, rstrip_by p (String c r) = String c t.
Proof.
  intros p c r H. cbn [rstrip_by].
  destruct (rstrip_by p r); [rewrite H|]; eauto.
Qed.

Lemma rstrip_by_idem : forall p s, rstrip_by p (rstrip_by p s) = rstrip_by p s.
Proof.
  induction s as [|c s IH]; [reflexivity|].
  cbn [rstrip_by]. destruct (rstrip_by p s) as [|d t] eqn:E.
  - destruct (p c) eqn:Pc; [reflexivity|]. cbn [rstrip_by]. rewrite Pc. reflexivity.
  - cbn [rstrip_by]. cbn [rstrip_by] in IH. rewrite IH. reflexivity.
Qed.

Lemma lstrip_by_fixed : forall p s c r,
  s = String c r -> p c = false -> lstrip_by p s = s.
Proof. intros p s c r -> H. cbn [lstrip_by]. rewrite H. reflexivity. Qed.

Lemma strip_idem : forall s, strip (strip s) = strip s.
Proof.
  intro s. unfold strip.
  destruct (lstrip_by is_space s) as [|c r] eqn:E.
  - reflexivity.
  - pose proof (lstrip_by_head _ _ _ _ E) as Hc.
    destruct (rstrip_by_keeps_head is_space c r Hc) as (t & Ht).
    rewrite (lstrip_by_fixed is_space _ c t Ht Hc). apply rstrip_by_idem.
Qed.

Lemma ascii_digit_fixed : forall d : N,
  (d < 10)%N ->
  normalize_choice (ascii_digit d) = ascii_digit d /\
  strip (ascii_digit d) = ascii_digit d.
Proof.
  intros d H.
  assert (E : (d = 0 \/ d = 1 \/ d = 2 \/ d = 3 \/ d = 4 \/ d = 5 \/ d = 6
               \/ d = 7 \/ d = 8 \/ d = 9)%N) by lia.
  repeat (destruct E as [E | E]; [subst d; split; reflexivity|]).
  subst d. split; reflexivity.
Qed.

(** The two ways [normalize_choice] can go on the stripped input. *)
Lemma normalize_choice_split : forall num : str,
  (exists c d, strip num = String "0" (String c "") /\
               c <> "0"%chr /\ digit_value c = Some d /\
               normalize_choice num = ascii_digit d)
  \/ ((forall c d, strip num = String "0" (String c "") ->
                   digit_value c = Some d -> c = "0"%chr) /\
      normalize_choice num = strip num).
Proof.
  intro num. rewrite normalize_choice_cases.
  destruct (strip num) as [|a [|c [|x r]]].
  - right. split; [intros c d H; discriminate H | reflexivity].
  - right. split; [intros c d H; discriminate H|].
    destruct a as [|p]; [reflexivity|].
    repeat (destruct p as [p|p|]; try reflexivity).
  - destruct (a =? "0"%chr)%N eqn:A.
    + apply N.eqb_eq in A. subst a.
      destruct (c =? "0"%chr)%N eqn:C.
      * right. split; [|reflexivity]. intros c' d H _. injection H as <-.
        apply N.eqb_eq. exact C.
      * destruct (digit_value c) as [d|] eqn:D.
        -- left. exists c, d. apply N.eqb_neq in C. auto.
        -- right. split; [|reflexivity]. intros c' d H D'. injection H as <-.
           congruence.
    + right. split.
      * intros c' d H. injection H as -> _. rewrite N.eqb_refl in A. discriminate.
      * destruct a as [|p]; [reflexivity|].
        repeat (destruct p as [p|p|]; try reflexivity).
        rewrite N.eqb_refl in A. discriminate.
  - right. split; [intros c' d H; discriminate H|].
    destruct a as [|p]; [reflexivity|].
    repeat (destruct p as [p|p|]; try reflexivity).
Qed.

(** X3.  Normalizing a code twice gives what normalizing it once gives,
    and a normalized code has no white space around it: a normalized
    code can be normalized again without changing. *)
Theorem normalize_choice_idempotent : forall num : str,
  normalize_choice (normalize_choice num) = normalize_choice num /\
  strip (normalize_choice num) = normalize_choice num.
Proof.
  intro num.
  destruct (normalize_choice_split num) as [(c & d & E & C & D & N) | [Hn N]];
    rewrite N.
  - exact (ascii_digit_fixed d (digit_value_lt c d D)).
  - split; [|apply strip_idem].
    destruct (normalize_choice_split (strip num))
      as [(c & d & E & C & D & _) | [_ N']].
    + rewrite strip_idem in E. exfalso. exact (C (Hn c d E D)).
    + rewrite N'. apply strip_idem.
Qed.

(** Also for a padded code in another script, and for a code that
    [int()] cannot read. *)
Example normalize_choice_twice :
  normalize_choice (normalize_choice " 0٣ ") = "3" /\
  normalize_choice (normalize_choice "0x") = "0x".
Proof. vm_compute. split; reflexivity. Qed.

(** ** The back code is a code of the menu *)

Lemma scan_back_label_in : forall items num,
  scan_back_label items = Some num -> In num (map fst items).
Proof.
  induction items as [|[n l] items IH]; intros num H; cbn [scan_back_label] in H.
  - discriminate.
  - destruct (is_back_label l).
    + injection H as <-. left. reflexivity.
    + right. exact (IH num H).
Qed.

Lemma scan_zero_code_in : forall items num,
  scan_zero_code items = Some num -> In num (map fst items).
Proof.
  induction items as [|[n l] items IH]; intros num H; cbn [scan_zero_code] in H.
  - discriminate.
  - destruct (str_eqb n "00" || str_eqb n "0").
    + injection H as <-. left. reflexivity.
    + right. exact (IH num H).
Qed.

Lemma scan_99_in : forall items num,
  scan_99 items = Some num -> In num (map fst items).
Proof.
  induction items as [|[n l] items IH]; intros num H; cbn [scan_99] in H.
  - discriminate.
  - destruct (str_eqb n "99").
    + injection H as <-. left. reflexivity.
    + right. exact (IH num H).
Qed.

(** X4.  For a menu with at least one entry the back code is the code
    of one of its entries; the default ["99"] that belongs to no entry
    is returned only for the empty menu. *)
Theorem find_back_num_is_an_entry : forall items : list MenuItem,
  items <> [] -> In (find_back_num items) (map fst items).
Proof.
  intros items Hne. unfold find_back_num.
  destruct (scan_back_label items) as [n|] eqn:A;
    [exact (scan_back_label_in _ _ A)|].
  destruct (scan_zero_code items) as [n|] eqn:B;
    [exact (scan_zero_code_in _ _ B)|].
  destruct (scan_99 items) as [n|] eqn:C;
    [exact (scan_99_in _ _ C)|].
  destruct items as [|[n l] rest]; [contradiction|]. left. reflexivity.
Qed.

(** At a menu without back keyword, zero code or 99. *)
Lemma find_back_num_is_an_entry_witness :
  In (find_back_num [("3", "Beli Paket"); ("4", "Cek Kuota")]) ["3"; "4"].
Proof.
  apply (find_back_num_is_an_entry [("3", "Beli Paket"); ("4", "Cek Kuota")]).
  discriminate.
Defined.

(** ** Short messages and the keyboard of a long one *)

Lemma take_all : forall s, take (len s) s = s.
Proof. induction s as [|c s IH]; cbn [len take]; [|rewrite IH]; reflexivity. Qed.

Lemma chunk_end_short : forall txt,
  len txt <= TG_MAX -> chunk_end txt 0 = len txt.
Proof.
  intros txt H. unfold chunk_end. cbn [Nat.add].
  rewrite (Nat.min_l _ _ H), Nat.ltb_irrefl. reflexivity.
Qed.

Lemma send_chunks_done : forall env fuel chat txt mk first w,
  send_chunks env fuel chat txt mk (len txt) first w = (Ok tt, w).
Proof.
  intros env [|fuel] chat txt mk first w; [reflexivity|].
  cbn [send_chunks]. rewrite Nat.ltb_irrefl. reflexivity.
Qed.

Lemma send_long_message_short : forall env chat txt mk w,
  txt <> "" -> len txt <= TG_MAX ->
  send_long_message env chat txt mk w
  = (Ok tt, mkWorld (sess w) (reads w) (S (calls w))
              (trace w ++ [(SendMessage chat txt mk, outcome env (calls w))])%list).
Proof.
  intros env chat txt mk w Hne Hlen. unfold send_long_message.
  destruct txt as [|c txt]; [contradiction|]. cbn [nonempty].
  set (t := String c txt) in *.
  assert (Hl : len t = S (len txt)) by reflexivity.
  rewrite Hl. cbn [send_chunks]. cbv zeta.
  assert (H0 : (0 <? len t) = true) by (apply Nat.ltb_lt; lia).
  rewrite H0, (chunk_end_short t Hlen).
  unfold slice. rewrite Nat.sub_0_r. cbn [drop]. rewrite take_all.
  destruct mk as [kb|]; cbn [andb is_some]; munfold;
    destruct (outcome env (calls w)); rewrite send_chunks_done; reflexivity.
Qed.

(** X5.  A non-empty text of at most [TG_MAX] characters goes out in
    exactly one send, whole and with the keyboard it was given, and the
    sender returns normally whether or not that send succeeds. *)
Theorem short_message_sent_whole : forall env chat txt mk w,
  txt <> "" -> len txt <= TG_MAX ->
  send_long_message env chat txt mk w
  = (Ok tt, mkWorld (sess w) (reads w) (S (calls w))
              (trace w ++ [(SendMessage chat txt mk, outcome env (calls w))])%list).
Proof. exact send_long_message_short. Qed.

(** At the closing notice of the reader. *)
Lemma short_message_sent_whole_witness :
  send_long_message calm 2002 "🔚 Proses tool selesai." (Some main_bot_kb)
    (world_of started_session)
  = (Ok tt, mkWorld started_session 0 1
              ([] ++ [(SendMessage 2002 "🔚 Proses tool selesai." (Some main_bot_kb),
                       Returns)])%list).
Proof.
  apply (short_message_sent_whole calm 2002 "🔚 Proses tool selesai."
           (Some main_bot_kb) (world_of started_session)).
  - discriminate.
  - apply Nat.leb_le. vm_compute. reflexivity.
Defined.

Lemma send_chunks_plain : forall env fuel chat txt mk start w,
  exists tail,
    trace (snd (send_chunks env fuel chat txt mk start false w)) = (trace w ++ tail)%list /\
    Forall (fun e : Call * Outcome => exists b o, e = (SendMessage chat b None, o)) tail.
Proof.
  induction fuel as [|fuel IH]; intros chat txt mk start w.
  - exists []. cbn. rewrite app_nil_r. auto.
  - cbn [send_chunks]. destruct (start <? len txt).
    + cbn [andb]. munfold.
      destruct (outcome env (calls w)) eqn:O;
        match goal with
        | |- context [send_chunks env fuel chat txt mk ?e false ?w'] =>
            destruct (IH chat txt mk e w') as (tail & T & F);
            cbn [trace] in T;
            eexists (_ :: tail); rewrite T, <- app_assoc; cbn [app];
            split; [reflexivity | constructor; [eauto | exact F]]
        end.
    + exists []. cbn. rewrite app_nil_r. auto.
Qed.

Lemma send_chunks_marked : forall env fuel chat txt kb start w,
  exists failed rest,
    trace (snd (send_chunks env fuel chat txt (Some kb) start true w))
      = (trace w ++ failed ++ rest)%list /\
    Forall (fun e : Call * Outcome =>
              exists b x, e = (SendMessage chat b (Some kb), Raises x)) failed /\
    (rest = [] \/
     exists b tail,
       rest = (SendMessage chat b (Some kb), Returns) :: tail /\
       Forall (fun e : Call * Outcome => exists b' o, e = (SendMessage chat b' None, o)) tail).
Proof.
  induction fuel as [|fuel IH]; intros chat txt kb start w.
  - exists [], []. cbn. rewrite app_nil_r. auto.
  - cbn [send_chunks]. destruct (start <? len txt).
    + cbn [andb is_some]. munfold.
      destruct (outcome env (calls w)) as [|x] eqn:O.
      * match goal with
        | |- context [send_chunks env fuel chat txt (Some kb) ?e false ?w'] =>
            destruct (send_chunks_plain env fuel chat txt (Some kb) e w') as (tail & T & F);
            cbn [trace] in T
        end.
        eexists [], (_ :: tail). rewrite T, <- app_assoc. cbn [app].
        split; [reflexivity|]. split; [constructor|]. right. eauto.
      * match goal with
        | |- context [send_chunks env fuel chat txt (Some kb) ?e true ?w'] =>
            destruct (IH chat txt kb e w') as (failed & rest & T & F & R);
            cbn [trace] in T
        end.
        eexists (_ :: failed), rest. rewrite T, <- !app_assoc. cbn [app].
        split; [reflexivity|]. split; [constructor; [eauto | exact F] | exact R].
    + exists [], []. cbn. rewrite app_nil_r. auto.
Qed.

(** X6.  Of the chunks of a message sent with a keyboard, the keyboard
    goes with the first chunk whose send succeeds and with the chunks
    whose send failed before it; every chunk after that goes without
    keyboard.  So at most one delivered chunk carries the keyboard. *)
Theorem keyboard_until_first_delivery : forall env chat txt kb w,
  exists failed rest,
    trace (snd (send_long_message env chat txt (Some kb) w))
      = (trace w ++ failed ++ rest)%list /\
    Forall (fun e : Call * Outcome =>
              exists b x, e = (SendMessage chat b (Some kb), Raises x)) failed /\
    (rest = [] \/
     exists b tail,
       rest = (SendMessage chat b (Some kb), Returns) :: tail /\
       Forall (fun e : Call * Outcome => exists b' o, e = (SendMessage chat b' None, o)) tail).
Proof.
  intros env chat txt kb w. unfold send_long_message.
  destruct (nonempty txt).
  - apply send_chunks_marked.
  - exists [], []. cbn. rewrite app_nil_r. auto.
Qed.

(** A menu of 4400 characters whose first send fails: the keyboard is
    sent again with the second chunk. *)
Example keyboard_sent_again_after_failure :
  map (fun e : Call * Outcome =>
         match e with
         | (SendMessage _ _ mk, o) => (is_some mk, o)
         | (_, o) => (false, o)
         end)
      (trace (snd (send_long_message (failing_at 0) 2002 (ten_digit_lines 400)
                     (Some main_bot_kb) (world_of started_session))))
  = [(true, Raises OtherError); (true, Returns)].
Proof. vm_compute. reflexivity. Qed.

(** ** What the classifier does to a session *)

Lemma same_handles_refl : forall s, same_handles s s.
Proof. intro s. repeat split. Qed.

Lemma same_handles_trans : forall a b c,
  same_handles a b -> same_handles b c -> same_handles a c.
Proof.
  intros a b c (A1 & A2 & A3 & A4 & A5 & A6) (B1 & B2 & B3 & B4 & B5 & B6).
  repeat split; congruence.
Qed.

Lemma grows_refl : forall w, grows w w.
Proof.
  intro w. split; [apply same_handles_refl|].
  split; [exists []; symmetry; apply app_nil_r|].
  split; [exists []; symmetry; apply app_nil_r|].
  exists []. split; [symmetry; apply app_nil_r | reflexivity].
Qed.

Lemma grows_trans : forall a b c, grows a b -> grows b c -> grows a c.
Proof.
  intros a b c (H1 & (l1 & L1) & (m1 & M1) & (t1 & T1 & S1))
               (H2 & (l2 & L2) & (m2 & M2) & (t2 & T2 & S2)).
  split; [exact (same_handles_trans _ _ _ H1 H2)|].
  split; [exists (l1 ++ l2)%list; rewrite L2, L1, app_assoc; reflexivity|].
  split; [exists (m1 ++ m2)%list; rewrite M2, M1, app_assoc; reflexivity|].
  exists (t1 ++ t2)%list. split.
  - rewrite T2, T1, app_assoc. reflexivity.
  - rewrite sent_bodies_app, S1, S2. reflexivity.
Qed.

(** One line through the classifier: where it ends up. *)
Lemma process_line_effect : forall env line b w,
  exists w',
    process_line env line b w = (Ok tt, w') /\
    grows w w' /\
    partial (sess w') = partial (sess w) /\
    (sess w' = sess w
     \/ (exists num label,
           sess w' = set_menu_items (menu_items (sess w) ++ [(num, label)]) (sess w))
     \/ (buffer_lines (sess w') = (buffer_lines (sess w) ++ [line])%list /\
         menu_items (sess w') = menu_items (sess w) /\
         awaiting_input (sess w')
           = (awaiting_input (sess w) || (b || looks_like_prompt line))%bool /\
         (b || looks_like_prompt line = true ->
            input_prompt_text (sess w') = Some line))).
Proof.
  intros env line b w. unfold process_line.
  destruct (nonempty line); cbn [negb].
  2:{ exists w. split; [reflexivity|]. split; [apply grows_refl|]. auto. }
  destruct (is_continue_line line).
  - munfold. destruct (stdin_writer (sess w)) as [wr|].
    2:{ exists w. split; [reflexivity|]. split; [apply grows_refl|]. auto. }
    cbn. destruct (outcome env (calls w)) eqn:O1; cbn.
    + destruct (outcome env (S (calls w))) eqn:O2; cbn;
        eexists; (split; [reflexivity|]); cbn;
        (split; [|auto]);
        (split; [apply same_handles_refl|]);
        (split; [exists []; symmetry; apply app_nil_r|]);
        (split; [exists []; symmetry; apply app_nil_r|]);
        eexists [_; _]; rewrite <- app_assoc; split; reflexivity.
    + eexists; (split; [reflexivity|]); cbn;
        (split; [|auto]);
        (split; [apply same_handles_refl|]);
        (split; [exists []; symmetry; apply app_nil_r|]);
        (split; [exists []; symmetry; apply app_nil_r|]);
        eexists [_]; split; reflexivity.
  - destruct (Re.rmatch MENU_ITEM_RE line) as [m|].
    + munfold. eexists. split; [reflexivity|]. cbn.
      split.
      * split; [repeat split|].
        split; [exists []; symmetry; apply app_nil_r|].
        split; [eexists; reflexivity|].
        exists []. split; [symmetry; apply app_nil_r | reflexivity].
      * split; [reflexivity|]. right. left. eauto.
    + munfold. destruct (b || looks_like_prompt line) eqn:P; cbn;
        eexists; (split; [reflexivity|]); cbn;
        (split;
         [ split; [repeat split|];
           split; [eexists; reflexivity|];
           split; [exists []; symmetry; apply app_nil_r|];
           exists []; split; [symmetry; apply app_nil_r | reflexivity]
         | split; [reflexivity|]; right; right;
           rewrite ?orb_true_r, ?orb_false_r; auto ]).
      repeat split; auto. intro H; discriminate H.
Qed.

(** X7.  The classifier puts a line in at most one place.  Whatever the
    line and the session, it returns normally, sends nothing to the
    chat, and leaves the accumulator, the identity and the handles of
    the session alone; and either the session is unchanged (an empty
    line or a continue line), or exactly one menu entry is appended and
    nothing else changes, or the line itself is appended to the plain
    lines, the menu is unchanged, and the awaiting-input flag is raised
    when the line is a fragment or looks like a prompt and otherwise
    kept: the classifier never lowers the flag. *)
Theorem classifier_one_destination : forall env line b w,
  fst (process_line env line b w) = Ok tt /\
  sent_bodies (trace (snd (process_line env line b w))) = sent_bodies (trace w) /\
  partial (sess (snd (process_line env line b w))) = partial (sess w) /\
  same_handles (sess w) (sess (snd (process_line env line b w))) /\
  (sess (snd (process_line env line b w)) = sess w
   \/ (exists num label,
         sess (snd (process_line env line b w))
         = set_menu_items (menu_items (sess w) ++ [(num, label)]) (sess w))
   \/ (buffer_lines (sess (snd (process_line env line b w)))
         = (buffer_lines (sess w) ++ [line])%list /\
       menu_items (sess (snd (process_line env line b w))) = menu_items (sess w) /\
       awaiting_input (sess (snd (process_line env line b w)))
         = (awaiting_input (sess w) || (b || looks_like_prompt line))%bool /\
       (b || looks_like_prompt line = true ->
          input_prompt_text (sess (snd (process_line env line b w))) = Some line))).
Proof.
  intros env line b w.
  destruct (process_line_effect env line b w)
    as (w' & E & (H & _ & _ & (made & T & S)) & P & D).
  rewrite E. cbn [fst snd].
  split; [reflexivity|].
  split; [rewrite T, sent_bodies_app, S, app_nil_r; reflexivity|].
  split; [exact P|]. split; [exact H | exact D].
Qed.

(** X7 at a fragment that is buffered as a prompt. *)
Lemma classifier_one_destination_witness :
  input_prompt_text
    (sess (snd (process_line calm "Pilih menu:" true (world_of started_session))))
  = Some "Pilih menu:".
Proof.
  destruct (classifier_one_destination calm "Pilih menu:" true (world_of started_session))
    as (_ & _ & _ & _ & [D | [D | (_ & _ & _ & D)]]).
  - reflexivity.
  - reflexivity.
  - exact (D eq_refl).
Defined.

(** ** What a flush delivers *)

Lemma drained_same : forall s,
  buffer_lines s = [] -> menu_items s = [] -> drained s = s.
Proof. intros [] B M. cbn in *. subst. reflexivity. Qed.

Lemma send_long_message_trace : forall env chat txt mk w,
  exists sent,
    trace (snd (send_long_message env chat txt mk w)) = (trace w ++ sent)%list /\
    Forall (fun e : Call * Outcome => exists b m, fst e = SendMessage chat b m) sent /\
    join "" (sent_bodies sent) = txt.
Proof.
  intros env chat txt mk w. unfold send_long_message.
  destruct txt as [|c txt].
  - exists []. cbn. rewrite app_nil_r. auto.
  - cbn [nonempty].
    destruct (send_chunks_trace env (len (String c txt)) chat
                (String c txt) mk 0 true w) as (sent & T & F & B).
    exists sent. split; [exact T|]. split; [exact F|].
    rewrite B, chunks_from_join by lia. reflexivity.
Qed.

Lemma flush_run : forall env w,
  exists w' sent,
    flush_buffer_and_menu env w = (Ok tt, w') /\
    sess w' = drained (sess w) /\
    trace w' = (trace w ++ sent)%list /\
    Forall (fun e : Call * Outcome =>
              exists b m, fst e = SendMessage (chat_id (sess w)) b m) sent /\
    join "" (sent_bodies sent) = flush_text (sess w).
Proof.
  intros env w. unfold flush_buffer_and_menu, flush_text. unfold bind at 1, get.
  destruct (has_items (menu_items (sess w))) eqn:Hm.
  - rewrite andb_false_r. munfold. cbn [sess].
    match goal with
    | |- context [send_long_message env ?c ?t ?k ?w'] =>
        pose proof (send_long_message_ok env c t k w') as Hok;
        pose proof (send_long_message_sess env c t k w') as Hs;
        destruct (send_long_message_trace env c t k w') as (sent & T & F & J);
        destruct (send_long_message env c t k w') as [r w1]
    end.
    cbn [fst snd sess trace] in *. subst r.
    exists w1, sent. auto.
  - destruct (has_items (buffer_lines (sess w))) eqn:Hb; cbn [negb andb].
    + munfold. cbn [sess].
      destruct (nonempty (strip (join nl (buffer_lines (sess w))))) eqn:Ht.
      * match goal with
        | |- context [send_long_message env ?c ?t ?k ?w'] =>
            pose proof (send_long_message_ok env c t k w') as Hok;
            pose proof (send_long_message_sess env c t k w') as Hs;
            destruct (send_long_message_trace env c t k w') as (sent & T & F & J);
            destruct (send_long_message env c t k w') as [r w1]
        end.
        cbn [fst snd sess trace] in *. subst r.
        exists w1, sent. auto.
      * eexists _, []. split; [reflexivity|]. cbn [sess trace].
        split; [reflexivity|]. split; [symmetry; apply app_nil_r|].
        split; [constructor|].
        destruct (strip (join nl (buffer_lines (sess w)))); [reflexivity | discriminate Ht].
    + exists w, []. split; [reflexivity|].
      assert (B : buffer_lines (sess w) = [])
        by (destruct (buffer_lines (sess w)); [reflexivity | discriminate Hb]).
      assert (M : menu_items (sess w) = [])
        by (destruct (menu_items (sess w)); [reflexivity | discriminate Hm]).
      split; [symmetry; apply drained_same; assumption|].
      split; [symmetry; apply app_nil_r|]. split; [constructor|].
      rewrite B. reflexivity.
Qed.

(** X8.  A flush never raises and changes the session only by emptying
    the two buffers.  Everything it sends goes to the chat of the
    session, and the bodies it sends, joined, are the text to deliver:
    the buffered lines in their order, joined by line feeds and
    stripped, then the menu block when there is a menu.  Nothing of the
    buffers is lost or reordered, whatever becomes of the sends. *)
Theorem flush_delivers_buffers : forall env w,
  exists sent,
    fst (flush_buffer_and_menu env w) = Ok tt /\
    sess (snd (flush_buffer_and_menu env w)) = drained (sess w) /\
    trace (snd (flush_buffer_and_menu env w)) = (trace w ++ sent)%list /\
    Forall (fun e : Call * Outcome =>
              exists b m, fst e = SendMessage (chat_id (sess w)) b m) sent /\
    join "" (sent_bodies sent) = flush_text (sess w).
Proof.
  intros env w. destruct (flush_run env w) as (w' & sent & E & S & T & F & J).
  exists sent. rewrite E. cbn [fst snd]. auto.
Qed.

(** X9.  A flush right after a flush does nothing: it finds both
    buffers empty, sends nothing and leaves the world as it is. *)
Theorem flush_twice_is_flush_once : forall env w,
  flush_buffer_and_menu env (snd (flush_buffer_and_menu env w))
  = (Ok tt, snd (flush_buffer_and_menu env w)).
Proof.
  intros env w. destruct (flush_run env w) as (w' & sent & E & S & _).
  rewrite E. cbn [snd]. unfold flush_buffer_and_menu. unfold bind at 1, get.
  rewrite S. reflexivity.
Qed.

(** ** What the reader keeps *)

Lemma grows_with_partial : forall w x, grows w (with_sess (set_partial x) w).
Proof.
  intros w x. split; [repeat split|].
  split; [exists []; symmetry; apply app_nil_r|].
  split; [exists []; symmetry; apply app_nil_r|].
  exists []. split; [symmetry; apply app_nil_r | reflexivity].
Qed.

Lemma grows_stamped : forall w t,
  grows w (tick (with_sess (set_last_output_time t) w)).
Proof.
  intros w t. split; [repeat split|].
  split; [exists []; symmetry; apply app_nil_r|].
  split; [exists []; symmetry; apply app_nil_r|].
  exists []. split; [symmetry; apply app_nil_r | reflexivity].
Qed.

Lemma classify_all_grows : forall env lines w,
  exists w', classify_all env lines w = (Ok tt, w') /\ grows w w'.
Proof.
  induction lines as [|l ls IH]; intro w.
  - exists w. split; [reflexivity | apply grows_refl].
  - cbn [classify_all]. unfold bind.
    destruct (process_line_effect env l false w) as (w1 & E & G & _).
    rewrite E. destruct (IH w1) as (w2 & E2 & G2).
    exists w2. split; [exact E2 | exact (grows_trans _ _ _ G G2)].
Qed.

(** The run of the reader on one chunk, by the segmentation of the
    accumulator followed by the decoded text. *)
Lemma reader_chunk_run : forall env w data lines rest,
  partial (sess w) ++ decode data = unlines lines ++ rest ->
  Forall (fun l => mem LF l = false) lines ->
  mem LF rest = false ->
  reader_chunk env data w =
    if nonempty (strip rest) && looks_like_prompt (strip rest)
    then (Ok tt, with_sess (set_partial "")
            (snd (process_line env (strip rest) true
               (with_sess (set_partial rest)
                  (snd (classify_all env (map (rstrip_chars (String CR "")) lines)
                     (tick (with_sess (set_last_output_time (clock env (reads w))) w))))))))
    else (Ok tt, with_sess (set_partial rest)
            (snd (classify_all env (map (rstrip_chars (String CR "")) lines)
               (tick (with_sess (set_last_output_time (clock env (reads w))) w))))).
Proof.
  intros env w data lines rest Hseg Hl Hr. unfold reader_chunk.
  unfold bind at 1. unfold modify at 1.
  unfold bind at 1. unfold now at 1. cbn [reads sess calls trace].
  unfold bind at 1. unfold modify at 1. cbn [reads sess calls trace].
  unfold bind at 1. unfold get at 1.
  cbn [reads sess calls trace partial set_partial set_last_output_time].
  unfold bind at 1.
  match goal with
  | |- context [line_loop env ?f ?w'] =>
      rewrite (line_loop_lines env lines rest f w' Hl Hr);
      [| cbn; exact Hseg | cbn; rewrite Hseg; apply length_unlines]
  end.
  match goal with
  | |- context [classify_all env ?ls ?w'] =>
      change w' with
        (with_sess (set_partial (partial (sess w) ++ decode data))
           (tick (with_sess (set_last_output_time (clock env (reads w))) w)));
      rewrite (classify_all_partial env ls)
  end.
  cbn [snd]. rewrite with_sess_partial_twice.
  unfold bind at 1. unfold get at 1. cbn [sess with_sess partial set_partial].
  fold (with_sess (set_partial rest)
          (snd (classify_all env (map (rstrip_chars (String CR "")) lines)
             (tick (with_sess (set_last_output_time (clock env (reads w))) w))))).
  destruct (nonempty (strip rest) && looks_like_prompt (strip rest)); [|reflexivity].
  unfold when, bind.
  match goal with
  | |- context [process_line env ?l ?b ?w'] =>
      pose proof (process_line_ok env l b w') as Hok;
      destruct (process_line env l b w') as [r w2]
  end.
  cbn in Hok. subst r. reflexivity.
Qed.

Lemma reader_chunk_effect : forall env data w,
  exists w',
    reader_chunk env data w = (Ok tt, w') /\
    mem LF (partial (sess w')) = false /\
    grows w w'.
Proof.
  intros env data w.
  destruct (segmentation_exists (partial (sess w) ++ decode data))
    as (lines & rest & Hseg & Hl & Hr).
  rewrite (reader_chunk_run env w data lines rest Hseg Hl Hr).
  destruct (classify_all_grows env (map (rstrip_chars (String CR "")) lines)
              (tick (with_sess (set_last_output_time (clock env (reads w))) w)))
    as (wc & Ec & Gc).
  rewrite Ec. cbn [snd].
  assert (G1 : grows w (with_sess (set_partial rest) wc)).
  { apply (grows_trans _ _ _ (grows_stamped w (clock env (reads w)))).
    apply (grows_trans _ _ _ Gc). apply grows_with_partial. }
  destruct (nonempty (strip rest) && looks_like_prompt (strip rest)).
  - destruct (process_line_effect env (strip rest) true (with_sess (set_partial rest) wc))
      as (wp & Ep & Gp & _).
    rewrite Ep. cbn [snd]. eexists. split; [reflexivity|].
    split; [reflexivity|].
    apply (grows_trans _ _ _ G1). apply (grows_trans _ _ _ Gp).
    apply grows_with_partial.
  - eexists. split; [reflexivity|]. split; [exact Hr | exact G1].
Qed.

(** X10.  Whatever bytes a chunk holds, the reader's turn on it returns
    normally and sends nothing to the chat: output only leaves through a
    flush.  Afterwards the accumulator holds no line feed, so no complete
    line is ever left waiting in it; the two buffers have only been
    appended to, so nothing buffered earlier is lost or reordered; and
    the identity and the handles of the session are untouched. *)
Theorem reader_chunk_keeps : forall env data w,
  fst (reader_chunk env data w) = Ok tt /\
  mem LF (partial (sess (snd (reader_chunk env data w)))) = false /\
  sent_bodies (trace (snd (reader_chunk env data w))) = sent_bodies (trace w) /\
  (exists lines, buffer_lines (sess (snd (reader_chunk env data w)))
                 = (buffer_lines (sess w) ++ lines)%list) /\
  (exists entries, menu_items (sess (snd (reader_chunk env data w)))
                   = (menu_items (sess w) ++ entries)%list) /\
  same_handles (sess w) (sess (snd (reader_chunk env data w))).
Proof.
  intros env data w.
  destruct (reader_chunk_effect env data w)
    as (w' & E & P & (H & L & M & (made & T & S))).
  rewrite E. cbn [fst snd].
  split; [reflexivity|]. split; [exact P|].
  split; [rewrite T, sent_bodies_app, S, app_nil_r; reflexivity|]. auto.
Qed.

Lemma completion_notice_fits :
  len "🔚 Proses tool selesai." <= TG_MAX.
Proof. apply Nat.leb_le. vm_compute. reflexivity. Qed.

Lemma reader_eof_run : forall env w,
  exists w' made o,
    reader_eof env w = (Ok tt, w') /\
    partial (sess w') = "" /\
    buffer_lines (sess w') = [] /\ menu_items (sess w') = [] /\
    same_handles (sess w) (sess w') /\
    trace w' = (trace w ++ made ++
                [(SendMessage (chat_id (sess w)) "🔚 Proses tool selesai."
                    (Some main_bot_kb), o)])%list.
Proof.
  intros env w. unfold reader_eof. unfold bind at 1, get.
  assert (A : exists wa ta,
             when (nonempty (partial (sess w)))
               (bind (process_line env
                        (rstrip_chars (String CR (String LF "")) (partial (sess w))) true)
                     (fun _ => modify (set_partial ""))) w = (Ok tt, wa) /\
             partial (sess wa) = "" /\ same_handles (sess w) (sess wa) /\
             trace wa = (trace w ++ ta)%list).
  { unfold when. destruct (partial (sess w)) as [|c p] eqn:P; cbn [nonempty].
    - exists w, []. rewrite app_nil_r. split; [reflexivity|].
      split; [exact P|]. split; [apply same_handles_refl | reflexivity].
    - unfold bind.
      destruct (process_line_effect env
                  (rstrip_chars (String CR (String LF "")) (String c p)) true w)
        as (wp & Ep & (H & _ & _ & (made & T & _)) & _).
      rewrite Ep. unfold modify. eexists _, made.
      split; [reflexivity|]. cbn. auto. }
  destruct A as (wa & ta & Ea & Pa & Ha & Ta).
  unfold bind at 1. rewrite Ea. unfold bind at 1.
  destruct (flush_run env wa) as (wf & sent & Ef & Sf & Tf & _).
  rewrite Ef.
  rewrite (send_long_message_short env (chat_id (sess w)) "🔚 Proses tool selesai."
             (Some main_bot_kb) wf);
    [| discriminate | exact completion_notice_fits].
  exists (mkWorld (sess wf) (reads wf) (S (calls wf))
            (trace wf ++ [(SendMessage (chat_id (sess w)) "🔚 Proses tool selesai."
                             (Some main_bot_kb), outcome env (calls wf))])%list),
         (ta ++ sent)%list, (outcome env (calls wf)).
  split; [reflexivity|]. cbn [sess trace]. rewrite Sf.
  split; [exact Pa|]. split; [reflexivity|]. split; [reflexivity|].
  split.
  - destruct Ha as (A1 & A2 & A3 & A4 & A5 & A6). repeat split; assumption.
  - rewrite Tf, Ta, <- !app_assoc. reflexivity.
Qed.

(** X11.  However the child's output is cut into chunks, when the
    stream ends the reader returns normally with an empty accumulator
    and both buffers empty, and the last thing it does is to send the
    closing notice with the main keyboard to the chat of the session;
    identity and handles are as before (the reader clears no handle). *)
Theorem reader_loop_ends_clean : forall env stream w,
  exists made o,
    fst (reader_loop env stream w) = Ok tt /\
    partial (sess (snd (reader_loop env stream w))) = "" /\
    buffer_lines (sess (snd (reader_loop env stream w))) = [] /\
    menu_items (sess (snd (reader_loop env stream w))) = [] /\
    same_handles (sess w) (sess (snd (reader_loop env stream w))) /\
    trace (snd (reader_loop env stream w))
    = (trace w ++ made ++
       [(SendMessage (chat_id (sess w)) "🔚 Proses tool selesai."
           (Some main_bot_kb), o)])%list.
Proof.
  intros env stream. induction stream as [|data rest IH]; intro w.
  - cbn [reader_loop].
    destruct (reader_eof_run env w) as (w' & made & o & E & P & B & M & H & T).
    exists made, o. rewrite E. cbn [fst snd]. auto 10.
  - destruct data as [|b data].
    { cbn [reader_loop].
      destruct (reader_eof_run env w) as (w' & made & o & E & P & B & M & H & T).
      exists made, o. rewrite E. cbn [fst snd]. auto 10. }
    cbn [reader_loop]. unfold bind.
    destruct (reader_chunk_effect env (b :: data) w)
      as (w1 & E1 & _ & (H1 & _ & _ & (m1 & T1 & _))).
    rewrite E1.
    destruct (IH w1) as (made & o & F & P & B & M & H & T).
    exists (m1 ++ made)%list, o.
    split; [exact F|]. split; [exact P|]. split; [exact B|]. split; [exact M|].
    split; [exact (same_handles_trans _ _ _ H1 H)|].
    rewrite T, T1, <- !app_assoc.
    destruct H1 as (_ & C & _). rewrite C. reflexivity.
Qed.

(** ** Stopping, resetting and starting *)

Lemma stop_tool_run : forall env w p,
  proc (sess w) = Some p -> returncode p = None ->
  exists sg cs o n,
    stop_tool env w =
      (match o with Returns => Ok tt | Raises e => Err e end,
       mkWorld (handles_cleared (sess w)) (reads w) n
         (trace w ++ sg ++ cs ++
          [(SendMessage (chat_id (sess w)) TOOL_STOPPED (Some main_bot_kb), o)])%list) /\
    graceful_stop p sg /\ map fst cs = map TaskCancel (tasks_of (sess w)).
Proof.
  intros env w p Hp Hrc.
  assert (Hrun : is_running (sess w) = true)
    by (unfold is_running; rewrite Hp, Hrc; reflexivity).
  unfold stop_tool. unfold bind at 1, get. rewrite Hp, Hrun. cbn [negb].
  unfold bind at 1.
  destruct (stop_signals_run env p w) as (sg & o1 & E1 & G).
  rewrite E1. unfold bind at 1.
  match goal with
  | |- context [cancel_tasks env ?w'] =>
      destruct (cancel_tasks_run env w') as (cs & E2 & M)
  end.
  rewrite E2. cbn [sess reads calls trace] in *.
  unfold call. cbn [sess reads calls trace].
  match goal with
  | |- context [outcome env ?n] =>
      exists sg, cs, (outcome env n); destruct (outcome env n)
  end; eexists; rewrite <- !app_assoc; (split; [reflexivity | auto]).
Qed.

Lemma stop_tool_idle : forall env w,
  is_running (sess w) = false ->
  stop_tool env w
  = call env (SendMessage (chat_id (sess w)) NOTHING_RUNNING (Some main_bot_kb)) w.
Proof.
  intros env w Hrun. unfold stop_tool. unfold bind at 1, get.
  destruct (proc (sess w)); [rewrite Hrun|]; reflexivity.
Qed.

Lemma text_handler_idle : forall env msg w,
  is_running (sess w) = false \/ stdin_writer (sess w) = None ->
  text_handler env msg w = call env (ReplyText NOT_RUNNING (Some main_bot_kb)) w.
Proof.
  intros env msg w Hno. unfold text_handler. unfold bind at 1, get.
  destruct (stdin_writer (sess w)); [|reflexivity].
  destruct Hno as [Hr | Hw]; [rewrite Hr; reflexivity | discriminate].
Qed.

Lemma map_task_cancel_nil : forall cs : list (Call * Outcome),
  map fst cs = [] -> cs = [].
Proof. intros [|c cs] H; [reflexivity | discriminate H]. Qed.

(** X12.  Cancelling the tasks of a session never raises, whatever the
    cancellations themselves do: it cancels the tasks that are set, the
    reader before the flush scheduler, and nothing else, and leaves the
    session with no task, no process and no input writer, hence not
    running.  Done again at once, it makes no call and changes nothing. *)
Theorem cancel_tasks_safe : forall env w,
  exists cancels,
    fst (cancel_tasks env w) = Ok tt /\
    sess (snd (cancel_tasks env w)) = handles_cleared (sess w) /\
    trace (snd (cancel_tasks env w)) = (trace w ++ cancels)%list /\
    map fst cancels = map TaskCancel (tasks_of (sess w)) /\
    is_running (sess (snd (cancel_tasks env w))) = false /\
    cancel_tasks env (snd (cancel_tasks env w)) = (Ok tt, snd (cancel_tasks env w)).
Proof.
  intros env w. destruct (cancel_tasks_run env w) as (cs & E & M).
  exists cs. rewrite E. cbn [fst snd sess trace].
  split; [reflexivity|]. split; [reflexivity|]. split; [reflexivity|].
  split; [exact M|]. split; [reflexivity|].
  match goal with
  | |- cancel_tasks env ?w1 = _ =>
      destruct (cancel_tasks_run env w1) as (cs' & E' & M')
  end.
  cbn [sess reads calls trace] in *.
  apply map_task_cancel_nil in M'. subst cs'.
  rewrite E'. cbn [List.length].
  rewrite Nat.add_0_r, (app_nil_r (trace w ++ cs)). reflexivity.
Qed.

(** X13.  Once a running tool has been stopped, the session takes no
    more input, whatever happened to the signals and to the notice: it
    is not running; a text is answered with the notice that no tool
    runs; a menu selection writes nothing to the child; and a second
    stop only sends the informational notice. *)
Theorem stopped_session_refuses_input : forall env st ss sl w p msg code,
  proc (sess w) = Some p -> returncode p = None ->
  is_running (sess (snd (stop_tool env w))) = false /\
  text_handler env msg (snd (stop_tool env w))
  = call env (ReplyText NOT_RUNNING (Some main_bot_kb)) (snd (stop_tool env w)) /\
  stdin_writes (trace (snd (callback_handler env st ss sl
                              (Some ("menu_choice|" ++ code)) (snd (stop_tool env w)))))
  = stdin_writes (trace (snd (stop_tool env w))) /\
  stop_tool env (snd (stop_tool env w))
  = call env (SendMessage (chat_id (sess w)) NOTHING_RUNNING (Some main_bot_kb))
      (snd (stop_tool env w)).
Proof.
  intros env st ss sl w p msg code Hp Hrc.
  destruct (stop_tool_run env w p Hp Hrc) as (sg & cs & o & n & E & _ & _).
  rewrite E. cbn [snd].
  split; [reflexivity|].
  split; [apply text_handler_idle; left; reflexivity|].
  split.
  - rewrite (proj1 (callback_dispatch env st ss sl "menu_choice|" code _
                      (or_introl eq_refl))).
    unfold bind at 1, call at 1. cbn [calls sess reads trace].
    match goal with |- context [outcome env ?k] => destruct (outcome env k) end.
    + unfold route_code.
      rewrite (proj2 (callback_dispatch env st ss sl "menu_choice|" code w
                        (or_introl eq_refl))).
      unfold bind, get. cbn [sess handles_cleared set_stdin_writer stdin_writer snd trace].
      unfold stdin_writes. cbn. rewrite !flat_map_app. cbn.
      rewrite ?app_nil_r. reflexivity.
    + unfold stdin_writes. cbn. rewrite !flat_map_app. cbn.
      rewrite ?app_nil_r. reflexivity.
  - rewrite stop_tool_idle by reflexivity. reflexivity.
Qed.

(** On a session just started. *)
Lemma stopped_session_refuses_input_witness :
  is_running (sess (snd (stop_tool calm (world_of started_session)))) = false /\
  stdin_writes (trace (snd (text_handler calm (Some "5")
                              (snd (stop_tool calm (world_of started_session)))))) = [].
Proof.
  destruct (stopped_session_refuses_input calm (ret tt) (ret tt) (ret tt)
              (world_of started_session) (mkProcess 4242 None) (Some "5") "1"
              eq_refl eq_refl) as (R & T & _ & _).
  split; [exact R|]. rewrite T. reflexivity.
Defined.

(** X14.  A reset is a stop followed by the clearing of the transient
    state.  When the stop's notice cannot be delivered, the exception
    leaves [reset_session] with it and nothing is cleared.  When the
    stop returns, the accumulator, both buffers and the prompt
    bookkeeping are cleared while identity and handles are as the stop
    left them; so a reset of a running tool whose stop notice is
    delivered leaves the session as new, but for the time of the last
    output. *)
Theorem reset_session_clears : forall env w,
  (forall e w1, stop_tool env w = (Err e, w1) -> reset_session env w = (Err e, w1)) /\
  (forall w1, stop_tool env w = (Ok tt, w1) ->
     partial (sess (snd (reset_session env w))) = "" /\
     buffer_lines (sess (snd (reset_session env w))) = [] /\
     menu_items (sess (snd (reset_session env w))) = [] /\
     awaiting_input (sess (snd (reset_session env w))) = false /\
     last_prompt_time (sess (snd (reset_session env w))) = None /\
     input_prompt_text (sess (snd (reset_session env w))) = None /\
     same_handles (sess w1) (sess (snd (reset_session env w))) /\
     exists o,
       trace (snd (reset_session env w))
       = (trace w1 ++ [(SendMessage (chat_id (sess w1)) "♻️ Session di-reset."
                          (Some main_bot_kb), o)])%list) /\
  (forall p, proc (sess w) = Some p -> returncode p = None ->
     fst (stop_tool env w) = Ok tt ->
     sess (snd (reset_session env w))
     = mkSession (user_id (sess w)) (chat_id (sess w)) None None "" [] []
         (last_output_time (sess w)) false None None None None).
Proof.
  intros env w.
  assert (Cleared : forall w1, stop_tool env w = (Ok tt, w1) ->
    exists o n,
      reset_session env w =
        (match o with Returns => Ok tt | Raises e => Err e end,
         mkWorld
           (set_input_prompt_text None (set_last_prompt_time None
              (set_awaiting_input false (set_menu_items [] (set_buffer_lines []
                 (set_partial "" (sess w1)))))))
           (reads w1) n
           (trace w1 ++ [(SendMessage (chat_id (sess w1)) "♻️ Session di-reset."
                            (Some main_bot_kb), o)])%list)).
  { intros w1 H. unfold reset_session. unfold bind at 1. rewrite H.
    munfold. cbn.
    exists (outcome env (calls w1)). destruct (outcome env (calls w1));
      eexists; reflexivity. }
  split; [|split].
  - intros e w1 H. unfold reset_session. unfold bind at 1. rewrite H. reflexivity.
  - intros w1 H. destruct (Cleared w1 H) as (o & n & E). rewrite E.
    cbn [snd sess trace]. repeat split. exists o. reflexivity.
  - intros p Hp Hrc Hok.
    destruct (stop_tool_run env w p Hp Hrc) as (sg & cs & o & n & E & _ & _).
    rewrite E in Hok. cbn [fst] in Hok.
    destruct o as [|e]; [|discriminate Hok].
    destruct (Cleared _ E) as (o' & n' & E'). rewrite E'. reflexivity.
Qed.

(** A reset of a session just started, and a reset whose stop notice
    fails on a new session. *)
Lemma reset_session_clears_witness :
  sess (snd (reset_session calm
          (world_of (set_buffer_lines ["Saldo: 10000"] started_session))))
  = mkSession 1001 2002 None None "" [] [] 0 false None None None None /\
  reset_session (failing_at 0) (world_of new_session)
  = (Err OtherError,
     mkWorld new_session 0 1
       [(SendMessage 2002 NOTHING_RUNNING (Some main_bot_kb), Raises OtherError)]) /\
  buffer_lines (sess (snd (reset_session calm
     (world_of (set_buffer_lines ["Saldo: 10000"] exited_session))))) = [].
Proof.
  split; [|split].
  - apply (proj2 (proj2 (reset_session_clears calm
             (world_of (set_buffer_lines ["Saldo: 10000"] started_session))))
             (mkProcess 4242 None)); reflexivity.
  - apply (proj1 (reset_session_clears (failing_at 0) (world_of new_session))).
    reflexivity.
  - apply (proj1 (proj2 (reset_session_clears calm
             (world_of (set_buffer_lines ["Saldo: 10000"] exited_session))))
             (snd (stop_tool calm
                (world_of (set_buffer_lines ["Saldo: 10000"] exited_session))))).
    reflexivity.
Defined.

Lemma bind_modify : forall (f : Session -> Session) (k : unit -> M unit) w,
  bind (modify f) k w = k tt (with_sess f w).
Proof. reflexivity. Qed.

Lemma bind_now : forall env (k : float -> M unit) w,
  bind (now env) k w = k (clock env (reads w)) (tick w).
Proof. reflexivity. Qed.

Lemma call_run : forall env c w,
  exists o,
    call env c w
    = (match o with Returns => Ok tt | Raises e => Err e end,
       mkWorld (sess w) (reads w) (S (calls w)) (trace w ++ [(c, o)])%list).
Proof.
  intros env c w. exists (outcome env (calls w)). unfold call.
  destruct (outcome env (calls w)); reflexivity.
Qed.

(** X15.  Starting the tool.  A start that is refused (a tool already
    runs, the tool's file is missing, or the subprocess cannot be
    created) leaves the session exactly as it was and reports the reason
    in one message.  A start that succeeds records the process and its
    input pipe, empties the accumulator and both buffers, clears the
    prompt bookkeeping, stamps the time of the last output, records the
    two new tasks and announces the process id; identity is kept, and
    the only call made is that announcement: tasks held from an earlier
    run are replaced, not cancelled. *)
Theorem start_tool_outcomes : forall env present spawned reader flusher w,
  (is_running (sess w) = true ->
     exists o,
       snd (start_tool env present spawned reader flusher w)
       = mkWorld (sess w) (reads w) (S (calls w))
           (trace w ++ [(SendMessage (chat_id (sess w)) ALREADY_RUNNING
                           (Some main_bot_kb), o)])%list) /\
  (is_running (sess w) = false -> present = false ->
     exists o,
       snd (start_tool env present spawned reader flusher w)
       = mkWorld (sess w) (reads w) (S (calls w))
           (trace w ++ [(SendMessage (chat_id (sess w))
                           ("❌ File tool tidak ditemukan: " ++ TOOLS_FILE)
                           (Some main_bot_kb), o)])%list) /\
  (forall message,
     is_running (sess w) = false -> present = true -> spawned = SpawnFails message ->
     exists o,
       snd (start_tool env present spawned reader flusher w)
       = mkWorld (sess w) (reads w) (S (calls w))
           (trace w ++ [(SendMessage (chat_id (sess w))
                           ("❌ Gagal menjalankan tool: " ++ message)
                           (Some main_bot_kb), o)])%list) /\
  (forall p stdin,
     is_running (sess w) = false -> present = true -> spawned = SpawnOk p stdin ->
     (exists o,
        snd (start_tool env present spawned reader flusher w)
        = mkWorld
            (mkSession (user_id (sess w)) (chat_id (sess w)) (Some p) (Some stdin)
               "" [] [] (clock env (reads w)) false None None
               (Some reader) (Some flusher))
            (S (reads w)) (S (calls w))
            (trace w ++ [(SendMessage (chat_id (sess w))
                            ("▶️ Tool dijalankan (PID " ++ py_str (pid p) ++ ")")
                            (Some main_bot_kb), o)])%list) /\
     (returncode p = None ->
        is_running (sess (snd (start_tool env present spawned reader flusher w))) = true)).
Proof.
  intros env present spawned reader flusher w.
  split; [|split; [|split]].
  - intro Hr. unfold start_tool. unfold bind at 1, get. rewrite Hr.
    unfold call. exists (outcome env (calls w)).
    destruct (outcome env (calls w)); reflexivity.
  - intros Hr Hp. unfold start_tool. unfold bind at 1, get. rewrite Hr, Hp.
    cbn [negb]. unfold call. exists (outcome env (calls w)).
    destruct (outcome env (calls w)); reflexivity.
  - intros message Hr Hp Hs. unfold start_tool. unfold bind at 1, get.
    rewrite Hr, Hp, Hs. cbn [negb]. unfold call. exists (outcome env (calls w)).
    destruct (outcome env (calls w)); reflexivity.
  - intros p stdin Hr Hp Hs.
    assert (E : exists o,
      snd (start_tool env present spawned reader flusher w)
      = mkWorld
          (mkSession (user_id (sess w)) (chat_id (sess w)) (Some p) (Some stdin)
             "" [] [] (clock env (reads w)) false None None
             (Some reader) (Some flusher))
          (S (reads w)) (S (calls w))
          (trace w ++ [(SendMessage (chat_id (sess w))
                          ("▶️ Tool dijalankan (PID " ++ py_str (pid p) ++ ")")
                          (Some main_bot_kb), o)])%list).
    { unfold start_tool. unfold bind at 1, get. rewrite Hr, Hp, Hs.
      cbn [negb].
      repeat (first [rewrite bind_modify | rewrite bind_now]; cbv beta).
      match goal with
      | |- context [call env ?c ?w'] =>
          destruct (call_run env c w') as (o & E)
      end.
      exists o. rewrite E. reflexivity. }
    split; [exact E|]. intro Hrc. destruct E as (o & E). rewrite E.
    unfold is_running. cbn [snd sess proc]. rewrite Hrc. reflexivity.
Qed.

(** A start on a new session, and a start on a session that is running. *)
Lemma start_tool_outcomes_witness :
  is_running (sess (snd (start_tool calm true (SpawnOk (mkProcess 4242 None) 1) 1 2
                           (world_of new_session)))) = true /\
  (exists o,
     snd (start_tool calm true (SpawnOk (mkProcess 4243 None) 2) 3 4
            (world_of started_session))
     = mkWorld started_session 0 1
         ([] ++ [(SendMessage 2002 ALREADY_RUNNING (Some main_bot_kb), o)])%list) /\
  (exists o,
     snd (start_tool calm false (SpawnOk (mkProcess 4243 None) 2) 3 4
            (world_of new_session))
     = mkWorld new_session 0 1
         ([] ++ [(SendMessage 2002 ("❌ File tool tidak ditemukan: " ++ TOOLS_FILE)
                    (Some main_bot_kb), o)])%list) /\
  (exists o,
     snd (start_tool calm true (SpawnFails "Permission denied") 3 4
            (world_of new_session))
     = mkWorld new_session 0 1
         ([] ++ [(SendMessage 2002 ("❌ Gagal menjalankan tool: " ++ "Permission denied")
                    (Some main_bot_kb), o)])%list).
Proof.
  split; [|split; [|split]].
  - apply (proj2 (proj2 (proj2 (proj2
             (start_tool_outcomes calm true (SpawnOk (mkProcess 4242 None) 1) 1 2
                (world_of new_session)))) (mkProcess 4242 None) 1
             eq_refl eq_refl eq_refl)).
    reflexivity.
  - apply (proj1 (start_tool_outcomes calm true (SpawnOk (mkProcess 4243 None) 2) 3 4
                    (world_of started_session))).
    reflexivity.
  - apply (proj1 (proj2 (start_tool_outcomes calm false (SpawnOk (mkProcess 4243 None) 2)
                           3 4 (world_of new_session)))); reflexivity.
  - apply (proj1 (proj2 (proj2 (start_tool_outcomes calm true
                                  (SpawnFails "Permission denied") 3 4
                                  (world_of new_session))))
             "Permission denied"); reflexivity.
Defined.

(** ** The guard of the callback handler *)

(** X16.  A button press is carried out only after it has been
    acknowledged.  A query without data does nothing at all; when the
    acknowledgement raises, the exception leaves the handler and nothing
    is dispatched, whatever the data: the session is unchanged and the
    only call is the failed acknowledgement; data that is none of the
    known commands is acknowledged and otherwise ignored. *)
Theorem callback_guard : forall env st ss sl w,
  callback_handler env st ss sl None w = (Ok tt, w) /\
  callback_handler env st ss sl (Some "") w = (Ok tt, w) /\
  (forall data e,
     data <> "" -> outcome env (calls w) = Raises e ->
     callback_handler env st ss sl (Some data) w
     = (Err e, mkWorld (sess w) (reads w) (S (calls w))
                 (trace w ++ [(AnswerCallback, Raises e)])%list)) /\
  (forall data,
     data <> "" -> outcome env (calls w) = Returns ->
     ~ In data ["bot_run"; "bot_stop"; "bot_reset"; "bot_status"; "bot_list";
                "menu_cancel"] ->
     startswith "menu_choice|" data = false ->
     startswith "menu_back|" data = false ->
     callback_handler env st ss sl (Some data) w
     = (Ok tt, mkWorld (sess w) (reads w) (S (calls w))
                 (trace w ++ [(AnswerCallback, Returns)])%list)).
Proof.
  intros env st ss sl w.
  split; [reflexivity|]. split; [reflexivity|]. split.
  - intros data e Hne O. destruct data as [|c d]; [contradiction|].
    cbn [callback_handler]. unfold bind, call. rewrite O. reflexivity.
  - intros data Hne O Hin Hc Hb. destruct data as [|c d]; [contradiction|].
    cbn [callback_handler]. unfold bind at 1, call. rewrite O.
    assert (N : forall k,
              In k ["bot_run"; "bot_stop"; "bot_reset"; "bot_status"; "bot_list";
                    "menu_cancel"] -> str_eqb (String c d) k = false).
    { intros k Hk. apply str_eqb_neq. intro Heq. apply Hin. rewrite Heq. exact Hk. }
    rewrite (N "bot_run"), (N "bot_stop"), (N "bot_reset"), (N "bot_status"),
            (N "bot_list"), (N "menu_cancel"), Hc, Hb
      by (simpl; tauto).
    reflexivity.
Qed.

(** A stop button whose acknowledgement fails, and a stray payload. *)
Lemma callback_guard_witness :
  callback_handler (failing_at 0) (ret tt) (ret tt) (ret tt) (Some "bot_stop")
    (world_of started_session)
  = (Err OtherError,
     mkWorld started_session 0 1 ([] ++ [(AnswerCallback, Raises OtherError)])%list) /\
  callback_handler calm (ret tt) (ret tt) (ret tt) (Some "noop")
    (world_of started_session)
  = (Ok tt, mkWorld started_session 0 1 ([] ++ [(AnswerCallback, Returns)])%list).
Proof.
  destruct (callback_guard (failing_at 0) (ret tt) (ret tt) (ret tt)
              (world_of started_session)) as (_ & _ & F & _).
  destruct (callback_guard calm (ret tt) (ret tt) (ret tt)
              (world_of started_session)) as (_ & _ & _ & U).
  split.
  - apply (F "bot_stop" OtherError); [discriminate | reflexivity].
  - apply (U "noop"); try reflexivity; try discriminate.
    simpl. intros [H | [H | [H | [H | [H | [H | H]]]]]]; try discriminate H; exact H.
Defined.

(** X17.  Cancelling a menu drops the menu entries collected so far and
    lowers the awaiting-input flag, and nothing else: the buffered plain
    lines stay, nothing is written to the child, and this happens even
    when the message with the menu cannot be edited.  The next flush
    therefore carries the plain lines only, without menu block. *)
Theorem menu_cancel_drops_menu : forall env st ss sl w,
  outcome env (calls w) = Returns ->
  fst (callback_handler env st ss sl (Some "menu_cancel") w) = Ok tt /\
  sess (snd (callback_handler env st ss sl (Some "menu_cancel") w))
  = set_awaiting_input false (set_menu_items [] (sess w)) /\
  trace (snd (callback_handler env st ss sl (Some "menu_cancel") w))
  = (trace w ++ [(AnswerCallback, Returns);
                 (EditMessageText "❌ Menu ditutup." (Some main_bot_kb),
                  outcome env (S (calls w)))])%list /\
  flush_text (sess (snd (callback_handler env st ss sl (Some "menu_cancel") w)))
  = strip (join nl (buffer_lines (sess w))).
Proof.
  intros env st ss sl w O.
  assert (E : callback_handler env st ss sl (Some "menu_cancel") w
              = (Ok tt,
                 mkWorld (set_awaiting_input false (set_menu_items [] (sess w)))
                   (reads w) (S (S (calls w)))
                   (trace w ++ [(AnswerCallback, Returns);
                                (EditMessageText "❌ Menu ditutup." (Some main_bot_kb),
                                 outcome env (S (calls w)))])%list)).
  { cbn [callback_handler str_eqb N.eqb Bool.eqb startswith andb].
    munfold. rewrite O. cbn.
    destruct (outcome env (S (calls w))); rewrite <- app_assoc; reflexivity. }
  rewrite E. cbn [fst snd sess trace]. auto.
Qed.

(** A menu cancelled while a plain line is buffered. *)
Lemma menu_cancel_drops_menu_witness :
  flush_text (sess (snd (callback_handler calm (ret tt) (ret tt) (ret tt)
     (Some "menu_cancel")
     (world_of (set_menu_items [("01", "Isi Pulsa")]
                  (set_buffer_lines ["Saldo: 10000"] started_session))))))
  = "Saldo: 10000".
Proof.
  apply (menu_cancel_drops_menu calm (ret tt) (ret tt) (ret tt)
           (world_of (set_menu_items [("01", "Isi Pulsa")]
                        (set_buffer_lines ["Saldo: 10000"] started_session)))).
  reflexivity.
Defined.

(** ** The scheduler loop while output keeps coming *)

Lemma flusher_pass_quiet : forall env w,
  PrimFloat.leb BUFFER_FLUSH_IDLE (idle_time env w) = false ->
  exists w',
    flusher_pass env w = (Ok tt, w') /\
    sess w' = sess w /\ trace w' = trace w /\ calls w' = calls w /\
    (reads w' = reads w \/ reads w' = S (reads w)).
Proof.
  intros env w Hlt. unfold idle_time in Hlt. unfold flusher_pass. munfold.
  destruct (has_items (buffer_lines (sess w)) || has_items (menu_items (sess w))).
  - cbn [reads sess]. rewrite Hlt.
    eexists. split; [reflexivity|]. cbn. repeat split; auto.
  - exists w. repeat split; auto.
Qed.

Lemma flusher_loop_quiet_run : forall env n w,
  (forall i, i < n -> outcome env (calls w + i) = Returns) ->
  (forall i, i < n ->
     PrimFloat.leb BUFFER_FLUSH_IDLE
       (PrimFloat.sub (clock env (reads w + i)) (last_output_time (sess w))) = false) ->
  exists w' sleeps,
    flusher_loop env n w = (Ok tt, w') /\
    sess w' = sess w /\ calls w' = calls w + n /\
    trace w' = (trace w ++ sleeps)%list /\
    sleeps = repeat (Sleep FLUSHER_PERIOD, Returns) n.
Proof.
  induction n as [|n IH]; intros w Ho Hc.
  - exists w, []. cbn. rewrite Nat.add_0_r, app_nil_r. auto.
  - cbn [flusher_loop]. unfold bind at 1, call.
    pose proof (Ho 0 (Nat.lt_0_succ n)) as O0. rewrite Nat.add_0_r in O0.
    rewrite O0. unfold bind at 1.
    set (w0 := mkWorld (sess w) (reads w) (S (calls w))
                 (trace w ++ [(Sleep FLUSHER_PERIOD, Returns)])%list).
    pose proof (Hc 0 (Nat.lt_0_succ n)) as C0. rewrite Nat.add_0_r in C0.
    destruct (flusher_pass_quiet env w0 C0) as (w1 & E1 & S1 & T1 & K1 & R1).
    rewrite E1.
    destruct (IH w1) as (w2 & sl & E2 & S2 & K2 & T2 & L2).
    + intros i Hi. rewrite K1. cbn [w0 calls].
      replace (S (calls w) + i) with (calls w + S i) by lia. apply Ho. lia.
    + intros i Hi. rewrite S1. cbn [w0 sess].
      destruct R1 as [R1 | R1]; rewrite R1; cbn [w0 reads].
      * apply Hc. lia.
      * replace (S (reads w) + i) with (reads w + S i) by lia. apply Hc. lia.
    + exists w2, ((Sleep FLUSHER_PERIOD, Returns) :: sl).
      split; [exact E2|]. split; [rewrite S2, S1; reflexivity|].
      split; [rewrite K2, K1; cbn [w0 calls]; lia|].
      split.
      * rewrite T2, T1. cbn [w0 trace]. rewrite <- app_assoc. reflexivity.
      * rewrite L2. reflexivity.
Qed.

(** X18.  As long as every check finds the idle time, the clock reading
    minus the time of the last output as the loop computes it in floats,
    not to have reached five seconds, the scheduler loop does nothing
    but sleep: over [n] turns whose sleeps return, the session is
    unchanged, so that whatever is buffered stays buffered, and the only
    calls made are the [n] sleeps of half a second. *)
Theorem flusher_loop_only_sleeps : forall env n w,
  (forall i, i < n -> outcome env (calls w + i) = Returns) ->
  (forall i, i < n ->
     PrimFloat.leb BUFFER_FLUSH_IDLE
       (PrimFloat.sub (clock env (reads w + i)) (last_output_time (sess w))) = false) ->
  fst (flusher_loop env n w) = Ok tt /\
  sess (snd (flusher_loop env n w)) = sess w /\
  trace (snd (flusher_loop env n w))
  = (trace w ++ repeat (Sleep FLUSHER_PERIOD, Returns) n)%list.
Proof.
  intros env n w Ho Hc.
  destruct (flusher_loop_quiet_run env n w Ho Hc) as (w' & sl & E & S & _ & T & L).
  rewrite E. cbn [fst snd]. subst sl. auto.
Qed.

(** Four turns on a session with a buffered line, the clock going from
    0 to 1.5 seconds after the last output. *)
Lemma flusher_loop_only_sleeps_witness :
  sess (snd (flusher_loop calm 4
               (world_of (set_buffer_lines ["Saldo: 10000"] started_session))))
  = set_buffer_lines ["Saldo: 10000"] started_session.
Proof.
  apply (flusher_loop_only_sleeps calm 4
           (world_of (set_buffer_lines ["Saldo: 10000"] started_session))).
  - intros i Hi. reflexivity.
  - intros i Hi.
    do 4 (destruct i as [|i]; [vm_compute; reflexivity|]). lia.
Defined.


(** ** Decoding what was encoded *)

Lemma to_N_byte_of : forall n, (n <= 255)%N -> Byte.to_N (byte_of n) = n.
Proof.
  intros n H. unfold byte_of. destruct (Byte.of_N n) as [b|] eqn:E.
  - exact (Byte.to_of_N n E).
  - apply Byte.of_N_None_iff in E. lia.
Qed.

(** The bytes of one code point are decoded to that code point. *)
Lemma utf8_replace_char : forall c rest,
  encodable c = true ->
  utf8_replace (map Byte.to_N (utf8_char c) ++ rest) = String c (utf8_replace rest).
Proof.
  intros c rest H. unfold encodable in H.
  assert (Hc : (c < 55296 \/ 57343 < c <= 1114111)%N).
  { apply orb_true_iff in H. destruct H as [H | H].
    - left. apply N.ltb_lt. exact H.
    - right. apply andb_true_iff in H. destruct H as [H1 H2].
      apply N.ltb_lt in H1. apply N.leb_le in H2. lia. }
  clear H. unfold utf8_char.
  replace (c / 262144)%N with (c / 64 / 64 / 64)%N
    by (rewrite !N.Div0.div_div; reflexivity).
  replace (c / 4096)%N with (c / 64 / 64)%N
    by (rewrite !N.Div0.div_div; reflexivity).
  pose proof (N.div_mod c 64 ltac:(discriminate)) as D1.
  pose proof (N.mod_lt c 64 ltac:(discriminate)) as M1.
  set (q1 := (c / 64)%N) in *. set (r1 := (c mod 64)%N) in *.
  pose proof (N.div_mod q1 64 ltac:(discriminate)) as D2.
  pose proof (N.mod_lt q1 64 ltac:(discriminate)) as M2.
  set (q2 := (q1 / 64)%N) in *. set (r2 := (q1 mod 64)%N) in *.
  pose proof (N.div_mod q2 64 ltac:(discriminate)) as D3.
  pose proof (N.mod_lt q2 64 ltac:(discriminate)) as M3.
  set (q3 := (q2 / 64)%N) in *. set (r3 := (q2 mod 64)%N) in *.
  clearbody q1 r1 q2 r2 q3 r3.
  destruct (c <? 128)%N eqn:L1.
  - apply N.ltb_lt in L1. cbn [map app].
    rewrite to_N_byte_of by lia. cbn [utf8_replace].
    decide_tests. reflexivity.
  - apply N.ltb_ge in L1. destruct (c <? 2048)%N eqn:L2.
    + apply N.ltb_lt in L2. cbn [map app].
      rewrite !to_N_byte_of by lia.
      remember (128 + r1 :: rest)%N as tail eqn:T.
      cbn [utf8_replace]. subst tail. cbv beta iota. unfold between.
      decide_tests. cbn [andb]. f_equal. lia.
    + apply N.ltb_ge in L2. destruct (c <? 65536)%N eqn:L3.
      * apply N.ltb_lt in L3. cbn [map app].
        rewrite !to_N_byte_of by lia.
        remember (128 + r2 :: 128 + r1 :: rest)%N as tail eqn:T.
        cbn [utf8_replace]. subst tail. cbv beta iota.
        unfold second_of_3, between.
        destruct (224 + q2 =? 224)%N eqn:E1;
          [apply N.eqb_eq in E1 | apply N.eqb_neq in E1;
           destruct (224 + q2 =? 237)%N eqn:E2;
           [apply N.eqb_eq in E2 | apply N.eqb_neq in E2]];
          decide_tests; cbn [andb]; f_equal; lia.
      * apply N.ltb_ge in L3. cbn [map app].
        rewrite !to_N_byte_of by lia.
        remember (128 + r3 :: 128 + r2 :: 128 + r1 :: rest)%N as tail eqn:T.
        cbn [utf8_replace]. subst tail. cbv beta iota.
        unfold second_of_4, between.
        destruct (240 + q3 =? 240)%N eqn:E1;
          [apply N.eqb_eq in E1 | apply N.eqb_neq in E1;
           destruct (240 + q3 =? 244)%N eqn:E2;
           [apply N.eqb_eq in E2 | apply N.eqb_neq in E2]];
          decide_tests; cbn [andb]; f_equal; lia.
Qed.

Lemma utf8_replace_utf8 : forall s,
  forallb encodable (chars s) = true ->
  utf8_replace (map Byte.to_N (utf8 s)) = s.
Proof.
  induction s as [|c s IH]; intro H.
  - reflexivity.
  - cbn [chars forallb] in H. apply andb_true_iff in H. destruct H as [Hc Hs].
    cbn [utf8]. rewrite map_app, (utf8_replace_char c _ Hc), (IH Hs). reflexivity.
Qed.

Lemma seven_bit_encodable : forall s,
  Forall (fun c => (c < 128)%N) (chars s) -> forallb encodable (chars s) = true.
Proof.
  intros s H. apply forallb_forall. intros c Hin.
  rewrite Forall_forall in H. specialize (H c Hin). unfold encodable.
  apply orb_true_iff. left. apply N.ltb_lt. lia.
Qed.

(** X19.  Output of the child that is well-formed UTF-8 is decoded to
    the text it encodes: the bytes of a text that can be encoded are
    decoded to that text, with no replacement character.  In particular
    7-bit output is decoded to itself. *)
Theorem decode_encoded_text : forall s : str,
  (forall data, encode s = Some data -> decode data = s) /\
  (Forall (fun c => (c < 128)%N) (chars s) -> decode (bytes s) = s).
Proof.
  intro s. split.
  - intros data H. unfold encode in H.
    destruct (forallb encodable (chars s)) eqn:E; [|discriminate].
    injection H as <-. exact (utf8_replace_utf8 s E).
  - intro H. exact (utf8_replace_utf8 s (seven_bit_encodable s H)).
Qed.

(** At a menu line with its line feed, and at a notice of the bot. *)
Lemma decode_encoded_text_witness :
  decode (bytes ("01. Login" ++ nl)) = "01. Login" ++ nl /\
  decode (bytes "🔚 Proses tool selesai.") = "🔚 Proses tool selesai.".
Proof.
  split.
  - apply (proj2 (decode_encoded_text ("01. Login" ++ nl))).
    cbn [append nl chars]. repeat constructor.
  - apply (proj1 (decode_encoded_text "🔚 Proses tool selesai.")
             (bytes "🔚 Proses tool selesai.")).
    reflexivity.
Defined.

(** ** Numbered lines are menu entries *)

(** A greedy repetition of a character class reads the longest run of
    the class and goes on from there, when what follows succeeds. *)
Lemma star_chr_greedy : forall (p : char -> bool) a b prev g (k : Re.cont) r,
  all_of p a -> stops p b ->
  k (last_char prev a) b g = Some r ->
  Re.run (Re.Star (Re.Chr p)) prev (a ++ b) g k = Some r.
Proof.
  intros p a b prev g k r Ha Hb Hk. cbn [Re.run].
  match goal with |- ?f _ _ _ _ = _ => set (loop := f) end.
  assert (Step : forall n prev s g,
            loop (S n) prev s g =
              match
                match s with
                | EmptyString => None
                | String c s' =>
                    if p c
                    then if len s' <? len s
                         then loop n (Some c) s' g else None
                    else None
                end
              with
              | Some g' => Some g'
              | None => k prev s g
              end) by reflexivity.
  assert (Zero : forall prev s g, loop 0 prev s g = k prev s g) by reflexivity.
  clearbody loop.
  assert (G : forall a n prev g,
            len a <= n -> all_of p a ->
            k (last_char prev a) b g = Some r ->
            loop n prev (a ++ b) g = Some r).
  { clear a prev g Ha Hk.
    induction a as [|c a IH]; intros n prev g Hn Ha Hk.
    - cbn [append last_char] in *. destruct n as [|n].
      + rewrite Zero. exact Hk.
      + rewrite Step. destruct b as [|c b'].
        * exact Hk.
        * cbn [stops] in Hb. rewrite Hb. exact Hk.
    - destruct n as [|n]; [cbn in Hn; lia|].
      unfold all_of in Ha. cbn [chars] in Ha.
      inversion Ha as [|x xs Hc Hrest]; subst.
      cbn [append]. rewrite Step, Hc.
      assert (L : (len (a ++ b) <? len (String c (a ++ b))) = true)
        by (apply Nat.ltb_lt; cbn [len]; lia).
      rewrite L.
      rewrite (IH n (Some c) g); [reflexivity | cbn in Hn; lia | exact Hrest | exact Hk]. }
  apply G; [rewrite str_length_app; lia | exact Ha | exact Hk].
Qed.

Lemma take_app_exact : forall a b : str,
  take (len (a ++ b) - len b) (a ++ b) = a.
Proof.
  intros a b. rewrite str_length_app, Nat.add_sub.
  induction a as [|c a IH]; cbn [len append take].
  - destruct b; reflexivity.
  - rewrite IH. reflexivity.
Qed.

Lemma all_of_app_string : forall p c s,
  p c = true -> all_of p s -> all_of p (String c s).
Proof. intros p c s Hc Hs. constructor; assumption. Qed.

Lemma run_cat : forall a b prev s g (k : Re.cont),
  Re.run (Re.Cat a b) prev s g k
  = Re.run a prev s g (fun prev' s' g' => Re.run b prev' s' g' k).
Proof. reflexivity. Qed.

Lemma run_bol : forall s g (k : Re.cont),
  Re.run Re.Bol None s g k = k None s g.
Proof. reflexivity. Qed.

Lemma run_grp : forall n a prev s g (k : Re.cont),
  Re.run (Re.Grp n a) prev s g k
  = Re.run a prev s g
      (fun prev' s' g' =>
         k prev' s' ((n, take (len s - len s') s) :: g')).
Proof. reflexivity. Qed.

Lemma run_chr : forall p c prev s g (k : Re.cont),
  p c = true -> Re.run (Re.Chr p) prev (String c s) g k = k (Some c) s g.
Proof. intros p c prev s g k H. cbn [Re.run]. rewrite H. reflexivity. Qed.

(** The white-space characters, one by one. *)
Lemma space_points : forall c,
  is_space c = true ->
  In c [9; 10; 11; 12; 13; 28; 29; 30; 31; 32; 133; 160; 5760; 8192; 8193;
        8194; 8195; 8196; 8197; 8198; 8199; 8200; 8201; 8202; 8232; 8233;
        8239; 8287; 12288]%N.
Proof.
  intros c H. apply in_ranges_points in H. destruct H as (lo & hi & Hin & Hc).
  unfold SPACE in Hin. cbn [In] in Hin.
  repeat (destruct Hin as [Hin | Hin];
          [injection Hin as <- <-; cbn [In]; lia|]).
  contradiction.
Qed.

(** No white-space character is a decimal digit. *)
Lemma digit_not_space : forall c, is_digit c = true -> is_space c = false.
Proof.
  intros c Hd. destruct (is_space c) eqn:Hs; [|reflexivity].
  apply space_points in Hs.
  assert (F : forallb (fun x => negb (is_digit x))
                [9; 10; 11; 12; 13; 28; 29; 30; 31; 32; 133; 160; 5760; 8192;
                 8193; 8194; 8195; 8196; 8197; 8198; 8199; 8200; 8201; 8202;
                 8232; 8233; 8239; 8287; 12288]%N = true) by (vm_compute; reflexivity).
  rewrite forallb_forall in F. specialize (F c Hs).
  rewrite Hd in F. discriminate F.
Qed.

Lemma no_lf_all_of : forall s,
  mem LF s = false -> all_of (fun c => negb (N.eqb c LF)) s.
Proof.
  induction s as [|c s IH]; intro H.
  - constructor.
  - cbn [mem] in H. apply orb_false_elim in H as [Hc Hs].
    constructor; [|exact (IH Hs)].
    rewrite N.eqb_sym, Hc. reflexivity.
Qed.

(** What [MENU_ITEM_RE] captures on a numbered line. *)
Lemma menu_item_match : forall ws d code ws' c label,
  all_of is_space ws -> is_digit d = true -> all_of is_digit code ->
  all_of is_space ws' -> is_space c = false ->
  mem LF (String c label) = false ->
  Re.rmatch MENU_ITEM_RE (ws ++ String d code ++ "." ++ ws' ++ String c label)
  = Some [(2, String c label); (1, String d code)].
Proof.
  intros ws d code ws' c label Hws Hd Hcode Hws' Hc Hlf.
  pose proof (no_lf_all_of _ Hlf) as Hdot.
  inversion Hdot as [|x xs Hdc Hdl]; subst.
  unfold Re.rmatch, MENU_ITEM_RE, Re.seq. cbn [fold_right].
  rewrite run_cat, run_bol. cbv beta. rewrite run_cat.
  apply star_chr_greedy; [exact Hws | exact (digit_not_space d Hd) |]. cbv beta.
  rewrite run_cat, run_grp. unfold Re.plus at 1. rewrite run_cat.
  cbn [append]. unfold Re.digit at 1. rewrite (run_chr is_digit d) by exact Hd.
  cbv beta.
  apply star_chr_greedy; [exact Hcode | reflexivity |]. cbv beta.
  change (String d (code ++ String "." (ws' ++ String c label)))
    with (String d code ++ String "." (ws' ++ String c label)).
  rewrite take_app_exact.
  rewrite run_cat. unfold Re.chr at 1.
  rewrite (run_chr (N.eqb "."%chr) "."%chr) by reflexivity. cbv beta.
  rewrite run_cat.
  apply star_chr_greedy; [exact Hws' | exact Hc |]. cbv beta.
  rewrite run_cat, run_grp. unfold Re.plus at 1. rewrite run_cat.
  unfold Re.dot at 1.
  rewrite (run_chr (fun c0 => negb (N.eqb c0 LF)) c) by exact Hdc. cbv beta.
  rewrite <- (str_app_nil_r label) at 1.
  apply star_chr_greedy; [exact Hdl | exact I |]. cbv beta.
  cbn [len]. rewrite Nat.sub_0_r.
  change (S (len label)) with (len (String c label)).
  rewrite take_all. reflexivity.
Qed.

Lemma rstrip_by_none : forall p s,
  all_of (fun c => negb (p c)) s -> rstrip_by p s = s.
Proof.
  induction s as [|c s IH]; intro H.
  - reflexivity.
  - inversion H as [|x xs Hc Hs]; subst. cbn [rstrip_by]. rewrite (IH Hs).
    destruct s; [|reflexivity].
    apply negb_true_iff in Hc. rewrite Hc. reflexivity.
Qed.

Lemma strip_digits : forall s, all_of is_digit s -> strip s = s.
Proof.
  intros s H. unfold strip.
  assert (N : all_of (fun c => negb (is_space c)) s).
  { unfold all_of in *. induction H as [|c l Hc Hl IH]; constructor; [|exact IH].
    rewrite (digit_not_space c Hc). reflexivity. }
  destruct s as [|c s]; [reflexivity|].
  inversion H as [|x xs Hc Hs]; subst.
  cbn [lstrip_by]. rewrite (digit_not_space c Hc). apply rstrip_by_none. exact N.
Qed.

Lemma nonempty_app_r : forall a b, nonempty b = true -> nonempty (a ++ b) = true.
Proof. intros [|c a] b H; [exact H | reflexivity]. Qed.

(** X20.  A line made of a number, a dot and a text is a menu entry,
    unless it is a continue line: white space before the number and
    between the dot and the text is skipped, the code is the number
    exactly as printed (leading zeros included, in whatever script its
    decimal digits are), the label is the text stripped of trailing
    white space, and the line goes to the menu and not to the plain
    lines, whether or not it arrived as a fragment. *)
Theorem numbered_line_is_menu_entry : forall env w b ws code ws' label,
  all_of is_space ws -> code <> "" -> all_of is_digit code ->
  all_of is_space ws' -> label <> "" -> stops is_space label ->
  mem LF label = false ->
  is_continue_line (ws ++ code ++ "." ++ ws' ++ label) = false ->
  process_line env (ws ++ code ++ "." ++ ws' ++ label) b w
  = (Ok tt,
     with_sess (fun s => set_menu_items (menu_items s ++ [(code, strip label)])%list s) w).
Proof.
  intros env w b ws code ws' label Hws Hne Hcode Hws' Hle Hst Hlf Hcont.
  destruct code as [|d code]; [contradiction|].
  destruct label as [|c label]; [contradiction|].
  inversion Hcode as [|x xs Hd Hrest]; subst.
  unfold process_line.
  rewrite nonempty_app_r by reflexivity. cbn [negb]. rewrite Hcont.
  rewrite (menu_item_match ws d code ws' c label Hws Hd Hrest Hws' Hst Hlf).
  cbn [Re.group Nat.eqb].
  rewrite (strip_digits (String d code) Hcode). reflexivity.
Qed.

(** At an indented entry with a leading zero and trailing blanks. *)
Lemma numbered_line_is_menu_entry_witness :
  process_line calm ("  " ++ "01" ++ "." ++ " " ++ "Isi Pulsa  ") false
    (world_of started_session)
  = (Ok tt,
     with_sess (fun s => set_menu_items (menu_items s ++ [("01", "Isi Pulsa")])%list s)
       (world_of started_session)).
Proof.
  apply (numbered_line_is_menu_entry calm (world_of started_session) false
           "  " "01" " " "Isi Pulsa  ").
  - repeat constructor.
  - discriminate.
  - repeat constructor.
  - repeat constructor.
  - discriminate.
  - reflexivity.
  - reflexivity.
  - vm_compute. reflexivity.
Defined.


(** White space is Python's: a no-break space after the dot is skipped,
    and one after the label is stripped. *)
Example numbered_line_no_break_space :
  menu_items (sess (snd (process_line calm
     ("1." ++ String 160%N "Foo" ++ String 160%N "") false
     (world_of started_session))))
  = [("1", "Foo")].
Proof. vm_compute. reflexivity. Qed.

(** ** A fragment that ends with a colon *)

(** A greedy repetition gives back its last character when what follows
    fails at the very end and succeeds one character earlier. *)
Lemma star_chr_gives_back : forall (p : char -> bool) a c prev g (k : Re.cont) r,
  all_of p a -> p c = true ->
  k (Some c) EmptyString g = None ->
  k (last_char prev a) (String c EmptyString) g = Some r ->
  Re.run (Re.Star (Re.Chr p)) prev (a ++ String c EmptyString) g k = Some r.
Proof.
  intros p a c prev g k r Ha Hc Hend Hk. cbn [Re.run].
  match goal with |- ?f _ _ _ _ = _ => set (loop := f) end.
  assert (Step : forall n prev s g,
            loop (S n) prev s g =
              match
                match s with
                | EmptyString => None
                | String c s' =>
                    if p c
                    then if len s' <? len s
                         then loop n (Some c) s' g else None
                    else None
                end
              with
              | Some g' => Some g'
              | None => k prev s g
              end) by reflexivity.
  assert (Zero : forall prev s g, loop 0 prev s g = k prev s g) by reflexivity.
  clearbody loop.
  assert (G : forall a n prev,
            S (len a) <= n -> all_of p a ->
            k (last_char prev a) (String c EmptyString) g = Some r ->
            loop n prev (a ++ String c EmptyString) g = Some r).
  { clear a prev Ha Hk.
    induction a as [|x a IH]; intros n prev Hn Ha Hk.
    - cbn [append last_char] in *. destruct n as [|n]; [lia|].
      rewrite Step, Hc. cbn [len Nat.ltb Nat.leb].
      assert (E : loop n (Some c) EmptyString g = None).
      { destruct n as [|n]; [rewrite Zero | rewrite Step]; exact Hend. }
      rewrite E. exact Hk.
    - destruct n as [|n]; [lia|].
      unfold all_of in Ha. cbn [chars] in Ha.
      inversion Ha as [|y ys Hx Hrest]; subst.
      cbn [append]. rewrite Step, Hx.
      assert (L : (len (a ++ String c EmptyString)
                   <? len (String x (a ++ String c EmptyString))) = true)
        by (apply Nat.ltb_lt; cbn [len]; lia).
      rewrite L.
      rewrite (IH n (Some x)); [reflexivity | cbn in Hn; lia | exact Hrest | exact Hk]. }
  apply G; [rewrite str_length_app; cbn [len]; lia | exact Ha | exact Hk].
Qed.

Lemma ends_with_colon_match : forall body,
  body <> "" -> mem LF body = false ->
  Re.rmatch ENDS_WITH_COLON_RE (body ++ ":") = Some [].
Proof.
  intros body Hne Hlf. destruct body as [|b0 body]; [contradiction|].
  pose proof (no_lf_all_of _ Hlf) as Hdot.
  inversion Hdot as [|x xs Hb0 Hrest]; subst.
  unfold Re.rmatch, ENDS_WITH_COLON_RE, Re.seq. cbn [fold_right].
  rewrite run_cat. unfold Re.plus at 1. rewrite run_cat.
  cbn [append]. unfold Re.dot at 1.
  rewrite (run_chr (fun c0 => negb (N.eqb c0 LF)) b0) by exact Hb0. cbv beta.
  apply star_chr_gives_back; [exact Hrest | reflexivity | reflexivity | reflexivity].
Qed.

(** X21.  A fragment ending with a colon is taken as a prompt at once.
    When the unterminated remainder of the accumulator, stripped, is a
    non-empty text followed by a colon, the reader does not wait for a
    line feed: it hands the stripped remainder to the classifier as a
    fragment and empties the accumulator. *)
Theorem colon_fragment_is_taken : forall env w data lines rest body,
  partial (sess w) ++ decode data = unlines lines ++ rest ->
  Forall (fun l => mem LF l = false) lines ->
  mem LF rest = false ->
  strip rest = body ++ ":" -> body <> "" -> mem LF body = false ->
  reader_chunk env data w
  = (Ok tt,
     with_sess (set_partial "")
       (snd (process_line env (body ++ ":") true
          (with_sess (set_partial rest)
             (snd (classify_all env (map (rstrip_chars (String CR "")) lines)
                (tick (with_sess (set_last_output_time (clock env (reads w))) w)))))))) /\
  partial (sess (snd (reader_chunk env data w))) = "".
Proof.
  intros env w data lines rest body Hseg Hl Hr Hs Hne Hlf.
  assert (E : reader_chunk env data w
    = (Ok tt,
       with_sess (set_partial "")
         (snd (process_line env (body ++ ":") true
            (with_sess (set_partial rest)
               (snd (classify_all env (map (rstrip_chars (String CR "")) lines)
                  (tick (with_sess (set_last_output_time (clock env (reads w))) w))))))))).
  { rewrite (reader_chunk_run env w data lines rest Hseg Hl Hr), Hs.
    rewrite nonempty_app_r by reflexivity.
    unfold looks_like_prompt. rewrite (ends_with_colon_match body Hne Hlf).
    reflexivity. }
  split; [exact E|]. rewrite E. reflexivity.
Qed.

(** At a prompt that arrives after a complete line, without line feed. *)
Lemma colon_fragment_is_taken_witness :
  partial (sess (snd (reader_chunk calm
                        (bytes ("Selamat datang" ++ nl ++ "Masukkan nomor: "))
                        (world_of started_session)))) = "".
Proof.
  apply (colon_fragment_is_taken calm (world_of started_session)
           (bytes ("Selamat datang" ++ nl ++ "Masukkan nomor: "))
           ["Selamat datang"] "Masukkan nomor: " "Masukkan nomor").
  - reflexivity.
  - constructor; [reflexivity | constructor].
  - reflexivity.
  - reflexivity.
  - discriminate.
  - reflexivity.
Defined.
